(** * SageMaker 101 workshop notebooks: a shallow embedding

    The repository is a set of notebooks.  The cells and the training script
    that carry behaviour of their own are embedded here as Rocq functions:

    - the MNIST notebooks: the data-reduction cell and the channel-expansion
      cell ([MnistLocal]); the loading cell, the label encoding and the
      request of the prediction cell ([MnistData]);
    - the scikit-learn notebook: the [train_test_split] cell, the training
      script [sklearn_training_script.py] with its [argparse] parser, and the
      estimator's metric regex ([Split], [argparse], [TrainingScript],
      [ParsedArgs]);
    - the headline-classifier notebooks: [classify], the embedding layers and
      the tokenizer's life cycle ([keras], [torch], [Headline]); the dataset
      class and the shapes through the network ([TorchNotebook]); the lines
      that training prints and the metric regexes that read them
      ([TorchLog], [KerasLog]); the loop that waits for the tuning job
      ([Hpo]).

    Python values are modelled as follows.  A [str] is a [string], each
    character a code point below 256; a list is a [list]; [None]-able values
    are [option]s; a [set] is a [gset]; the file system is a [gmap] from
    paths to files; a numpy array is a shape and its row-major data.  A
    Python exception is a value of [exn], and code that can raise returns a
    [result] or an [option].  Third-party calls whose result the notebooks do
    not determine (pandas, scikit-learn fitting, numpy percentiles, the
    builtins [int] and [str.split]) are fields of the class [Libs]; where the
    release of a library decides what a call does ([np.array] on images of
    several shapes, an integer outside [int32]), the call is a field of a
    class with the laws that every release keeps ([MnistData.NpArray],
    [keras.Numpy]). *)

From Stdlib Require Import ZArith List String Ascii Lia Bool Arith.
From Stdlib Require Import DecimalString Decimal.
From stdpp Require Import gmap strings list sets sorting.

#[local] Set Warnings "-clear-no-such-hyp".

Local Open Scope string_scope.
Local Open Scope nat_scope.
Local Open Scope list_scope.

(* ===================================================================== *)
(** * Part I: definitions *)
(* ===================================================================== *)

(** ** numpy arrays *)

Module np.

(** An n-dimensional array: its [shape] and its elements in row-major order. *)
Record ndarray (A : Type) := mk_ndarray { shape : list nat; data : list A }.
Arguments mk_ndarray {A} _ _.
Arguments shape {A} _.
Arguments data {A} _.

Definition size_of (shp : list nat) : nat := fold_right Nat.mul 1 shp.

(** What numpy guarantees of every array it builds. *)
Definition well_formed {A} (a : ndarray A) : Prop :=
  length (data a) = size_of (shape a).

(** [np.expand_dims(a, axis)] for [0 <= axis <= a.ndim]: a new axis of length 1
    at position [axis]; the data is untouched.  Another axis raises AxisError. *)
Definition expand_dims {A} (a : ndarray A) (axis : nat) : option (ndarray A) :=
  if axis <=? length (shape a)
  then Some (mk_ndarray (firstn axis (shape a) ++ 1 :: skipn axis (shape a)) (data a))
  else None.

(** [a[i]]: the [i]-th sub-array along the first axis (IndexError otherwise). *)
Definition row {A} (a : ndarray A) (i : nat) : option (ndarray A) :=
  match shape a with
  | [] => None
  | n :: rest =>
      if i <? n
      then Some (mk_ndarray rest
                   (firstn (size_of rest) (skipn (i * size_of rest) (data a))))
      else None
  end.

(** [a.shape[0]]. *)
Definition n_rows {A} (a : ndarray A) : nat := hd 0 (shape a).

End np.

(** ** The MNIST notebooks *)

Module MnistLocal.

(** [files[::k]] for a step [k >= 1]: the elements at indices 0, k, 2k, ...
    [skip] counts the elements still to drop before the next one is kept. *)
Fixpoint slice_from {A} (k skip : nat) (l : list A) : list A :=
  match l with
  | [] => []
  | x :: t =>
      match skip with
      | 0 => x :: slice_from k (k - 1) t
      | S s => slice_from k s t
      end
  end.

Definition slice_step {A} (k : nat) (l : list A) : list A := slice_from k 0 l.

Definition reduction_factor : nat := 2.

(** The order of [sorted] on strings. *)
Definition str_le (a b : string) : Prop := String.leb a b = true.

#[global] Instance str_le_dec a b : Decision (str_le a b).
Proof. unfold str_le. apply _. Defined.

(** [sorted(list(glob.iglob(pattern)))]: the paths of the file system that the
    pattern matches, sorted.  The pattern is any predicate on paths. *)
Definition sorted_glob (fs : gset string) (pattern : string -> bool) : list string :=
  merge_sort str_le (List.filter pattern (elements fs)).

(** [os.remove(fname)]: FileNotFoundError ([None]) when there is no such file. *)
Definition os_remove (fname : string) (fs : gset string) : option (gset string) :=
  if decide (fname ∈ fs) then Some (fs ∖ {[ fname ]}) else None.

(** [for fname in names: os.remove(fname)], stopping at the first error. *)
Fixpoint remove_each (names : list string) (fs : gset string) : option (gset string) :=
  match names with
  | [] => Some fs
  | f :: rest =>
      match os_remove f fs with
      | Some fs' => remove_each rest fs'
      | None => None
      end
  end.

(** Python's [a ^ b] on sets. *)
Definition sym_diff (a b : gset string) : gset string := (a ∖ b) ∪ (b ∖ a).

(** The files kept: [files[::reduction_factor]]. *)
Definition files_to_keep (files : list string) : list string :=
  slice_step reduction_factor files.

(** The reduction of one directory: list, slice, delete the rest.  A Python
    set is iterated in an order of its own: [elements]. *)
Definition reduce_dir (fs : gset string) (pattern : string -> bool) : option (gset string) :=
  let files := sorted_glob fs pattern in
  let keep := files_to_keep files in
  remove_each (elements (sym_diff (list_to_set files) (list_to_set keep))) fs.

(** [K.image_data_format()]. *)
Inductive image_data_format := channels_first | channels_last.

(** The [if K.image_data_format() == "channels_first"] statement of the
    pre-processing cell, assignment by assignment.  In the first branch the
    second assignment reads [x_train], which the first has already rebound. *)
Definition expand_channel_dim {A} (fmt : image_data_format)
    (x_train x_test : np.ndarray A) : option (np.ndarray A * np.ndarray A) :=
  match fmt with
  | channels_first =>
      match np.expand_dims x_train 1 with
      | Some x_train1 =>
          match np.expand_dims x_train1 1 with
          | Some x_test1 => Some (x_train1, x_test1)
          | None => None
          end
      | None => None
      end
  | channels_last =>
      match np.expand_dims x_train (length (np.shape x_train)) with
      | Some x_train1 =>
          match np.expand_dims x_test (length (np.shape x_test)) with
          | Some x_test1 => Some (x_train1, x_test1)
          | None => None
          end
      | None => None
      end
  end.

(** The axis of one image at which the channel goes: position 1 of the batch
    is position 0 of the image, the last position of the batch is the last
    position of the image. *)
Definition image_channel_axis {A} (fmt : image_data_format) (x : np.ndarray A) : nat :=
  match fmt with
  | channels_first => 0
  | channels_last => length (np.shape x) - 1
  end.

(** Two loaded training images (all black) and one test image (all white). *)
Definition two_black_images : np.ndarray Z := np.mk_ndarray [2; 28; 28] (repeat 0%Z 1568).
Definition one_white_image : np.ndarray Z := np.mk_ndarray [1; 28; 28] (repeat 255%Z 784).

End MnistLocal.

(** ** Python values, exceptions and builtins *)

Module Py.

(** A raised exception: [SystemExit(code)], or any other class with its
    message. *)
Inductive exn :=
| SystemExit (code : Z)
| Exception (cls : string) (msg : string).

(** What evaluating an expression gives: a value, or a raised exception. *)
Inductive result (A : Type) :=
| Ok (a : A)
| Raise (e : exn).
Arguments Ok {A} _.
Arguments Raise {A} _.

Definition bind {A B} (r : result A) (k : A -> result B) : result B :=
  match r with
  | Ok a => k a
  | Raise e => Raise e
  end.

(** The values an [argparse] namespace holds in this repository.  The empty
    list is what argparse stores for a flag written [--flag=--]. *)
Inductive value :=
| VNone
| VInt (z : Z)
| VStr (s : string)
| VEmptyList.

(** [s[len(p):]] when [s.startswith(p)]. *)
Fixpoint strip_prefix (p s : string) {struct p} : option string :=
  match p, s with
  | EmptyString, _ => Some s
  | String a p', String b s' => if Ascii.eqb a b then strip_prefix p' s' else None
  | String _ _, EmptyString => None
  end.

(** [s.startswith(p)]. *)
Definition startswith (s p : string) : bool :=
  match strip_prefix p s with
  | Some _ => true
  | None => false
  end.

(** [c in s]. *)
Fixpoint contains (c : ascii) (s : string) : bool :=
  match s with
  | EmptyString => false
  | String a t => if Ascii.eqb a c then true else contains c t
  end.

(** [s.split(c, 1)] when [c] occurs in [s]: the text before and after its
    first occurrence. *)
Fixpoint split_once (c : ascii) (s : string) : option (string * string) :=
  match s with
  | EmptyString => None
  | String a t =>
      if Ascii.eqb a c then Some (EmptyString, t)
      else match split_once c t with
           | Some (l, r) => Some (String a l, r)
           | None => None
           end
  end.

(** The class [\d] of [re] on a character of a [str] pattern.  A character
    here is a code point below 256, and the decimal digits among those are
    [0] to [9]. *)
Definition is_digit (a : ascii) : bool :=
  let n := nat_of_ascii a in (48 <=? n) && (n <=? 57).

(** The longest prefix of digits, and the rest. *)
Fixpoint span_digits (s : string) : string * string :=
  match s with
  | EmptyString => (EmptyString, EmptyString)
  | String a t =>
      if is_digit a
      then let '(d, r) := span_digits t in (String a d, r)
      else (EmptyString, s)
  end.

(** [str(n)] for a natural number. *)
Definition str_nat (n : nat) : string := NilZero.string_of_uint (Nat.to_uint n).

(** [os.path.join(a, b)] of posixpath, on two strings. *)
Definition posix_join (a b : string) : string :=
  if startswith b "/" then b
  else if String.eqb a "" then b
  else if String.eqb (substring (String.length a - 1) 1 a) "/" then a ++ b
  else a ++ "/" ++ b.

(** [os.path.join] on namespace attributes: anything but a [str] is a
    TypeError. *)
Definition os_path_join (a b : value) : result string :=
  match a, b with
  | VStr a, VStr b => Ok (posix_join a b)
  | _, _ => Raise (Exception "TypeError" "expected str, bytes or os.PathLike object")
  end.

End Py.

(** ** argparse *)

Module argparse.
Import Py.

Inductive arg_type := TInt | TStr.

(** An action of the parser: the help action that [ArgumentParser()] adds, or
    a store action ([nargs=None]) with its destination, type and default. *)
Inductive action :=
| Help
| Store (dest : string) (ty : arg_type) (default : value).

(** [parser._option_string_actions], in registration order. *)
Definition parser := list (string * action).

(** [argparse.ArgumentParser()]: [add_help=True] registers [-h] and [--help]. *)
Definition ArgumentParser : parser := [("-h", Help); ("--help", Help)].

Definition replace_dash (a : ascii) : ascii :=
  if Ascii.eqb a "-"%char then "_"%char else a.

Fixpoint map_string (f : ascii -> ascii) (s : string) : string :=
  match s with
  | EmptyString => EmptyString
  | String a t => String (f a) (map_string f t)
  end.

(** The destination of a long option: the text after [--], dashes replaced. *)
Definition dest_of (option_string : string) : string :=
  map_string replace_dash
    (substring 2 (String.length option_string - 2) option_string).

(** [parser.add_argument(option_string, type=ty, default=default)]. *)
Definition add_argument (option_string : string) (ty : arg_type) (default : value)
    (p : parser) : parser :=
  p ++ [(option_string, Store (dest_of option_string) ty default)].

Fixpoint lookup_option (p : parser) (s : string) : option action :=
  match p with
  | [] => None
  | (os, a) :: rest => if String.eqb os s then Some a else lookup_option rest s
  end.

(** An argument string read as an option: its action ([None] when the parser
    has no such option), the option string and the explicit argument. *)
Definition option_tuple : Type := option action * string * option string.

(** [parser._get_option_tuples(arg)]: the options that [arg] abbreviates.
    [arg] has at least two characters and starts with a dash. *)
Definition get_option_tuples (p : parser) (arg : string) : list option_tuple :=
  if startswith arg "--" then
    let '(option_prefix, explicit_arg) :=
      match split_once "="%char arg with
      | Some (l, r) => (l, Some r)
      | None => (arg, None)
      end in
    omap (fun '(os, a) =>
            if startswith os option_prefix then Some (Some a, os, explicit_arg)
            else None) p
  else
    let short_option_prefix := substring 0 2 arg in
    let short_explicit_arg := substring 2 (String.length arg - 2) arg in
    omap (fun '(os, a) =>
            if String.eqb os short_option_prefix
            then Some (Some a, os, Some short_explicit_arg)
            else if startswith os arg then Some (Some a, os, None)
            else None) p.

(** [parser._negative_number_matcher]: [^-\d+$|^-\d*\.\d+$], where [$] also
    matches before a final newline. *)
Definition newline : string := String (ascii_of_nat 10) EmptyString.

Definition strip_final_newline (s : string) : string :=
  let n := String.length s in
  if String.eqb (substring (n - 1) 1 s) newline then substring 0 (n - 1) s else s.

Definition negative_number_like (s : string) : bool :=
  match strip_final_newline s with
  | String "-"%char body =>
      let '(d1, rest) := span_digits body in
      match rest with
      | EmptyString => negb (String.eqb d1 "")
      | String "."%char frac =>
          let '(d2, rest2) := span_digits frac in
          negb (String.eqb d2 "") && String.eqb rest2 ""
      | _ => false
      end
  | _ => false
  end.

(** [parser._has_negative_number_optionals]: an option string that looks like
    a negative number. *)
Definition has_negative_number_optionals (p : parser) : bool :=
  existsb (fun '(os, _) => negative_number_like os) p.

(** Every error argparse reports ends in [parser.error]: [SystemExit(2)]. *)
Definition error {A} : result A := Raise (SystemExit 2).

(** [parser._parse_optional(arg)]: [None] for a positional argument. *)
Definition parse_optional (p : parser) (arg : string) : result (option option_tuple) :=
  match arg with
  | EmptyString => Ok None
  | String c _ =>
      if negb (Ascii.eqb c "-"%char) then Ok None
      else
        match lookup_option p arg with
        | Some a => Ok (Some (Some a, arg, None))
        | None =>
            if String.length arg =? 1 then Ok None
            else
              let by_equals :=
                match split_once "="%char arg with
                | Some (os, explicit_arg) =>
                    match lookup_option p os with
                    | Some a => Some (Some a, os, Some explicit_arg)
                    | None => None
                    end
                | None => None
                end in
              match by_equals with
              | Some t => Ok (Some t)
              | None =>
                  match get_option_tuples p arg with
                  | _ :: _ :: _ => error
                  | [t] => Ok (Some t)
                  | [] =>
                      if negative_number_like arg && negb (has_negative_number_optionals p)
                      then Ok None
                      else if contains " "%char arg then Ok None
                      else Ok (Some (None, arg, None))
                  end
              end
        end
  end.

(** An argument string after the first pass: a positional ([A]), the first
    [--] ([-]), or an option ([O]) with its reading. *)
Inductive token :=
| Tpos (s : string)
| Tdashdash
| Topt (t : option_tuple) (raw : string).

(** The first pass of [_parse_known_args]: every argument after the first
    [--] is a positional. *)
Fixpoint classify (p : parser) (args : list string) : result (list token) :=
  match args with
  | [] => Ok []
  | a :: rest =>
      if String.eqb a "--" then Ok (Tdashdash :: List.map Tpos rest)
      else
        bind (parse_optional p a) (fun o =>
        bind (classify p rest) (fun toks =>
        Ok (match o with
            | None => Tpos a
            | Some t => Topt t a
            end :: toks)))
  end.

Definition namespace := gmap string value.

Section conversions.

(** The builtin [int] on a string: [None] for ValueError. *)
Variable py_int : string -> option Z.

(** [parser._get_value(action, arg_string)]. *)
Definition get_value (ty : arg_type) (s : string) : result value :=
  match ty with
  | TStr => Ok (VStr s)
  | TInt => match py_int s with
            | Some z => Ok (VInt z)
            | None => error
            end
  end.

(** A run of single-dash flags written together ([-hh]): the explicit argument
    of a flag that takes none is read as further flags.  [Ok tt] when the run
    resolves; its first action, help, then exits.  [next_is_positional] says
    whether the argument after the run could serve a last store flag. *)
Fixpoint flag_cluster (p : parser) (explicit_arg : string) (next_is_positional : bool)
    : result unit :=
  match explicit_arg with
  | EmptyString => Ok tt
  | String c rest =>
      match lookup_option p (String "-"%char (String c EmptyString)) with
      | Some Help => flag_cluster p rest next_is_positional
      | Some (Store _ _ _) =>
          if negb (String.eqb rest "") || next_is_positional then Ok tt else error
      | None => error
      end
  end.

Definition is_positional (toks : list token) : bool :=
  match toks with
  | Tpos _ :: _ => true
  | _ => false
  end.

(** [consume_optional] and the loop around it: options are taken in order,
    each action runs as soon as its arguments are read, and what no option
    takes is an extra.  An explicit argument [--] ([--flag=--]) is dropped by
    [_get_values] before the conversion, as in the Python releases the
    notebooks run on, and the empty list is stored. *)
Fixpoint consume (p : parser) (toks : list token) (ns : namespace) (extras : list string)
    : result (namespace * list string) :=
  match toks with
  | [] => Ok (ns, extras)
  | Tpos s :: rest => consume p rest ns (extras ++ [s])
  | Tdashdash :: rest => consume p rest ns (extras ++ ["--"])
  | Topt (None, _, _) raw :: rest => consume p rest ns (extras ++ [raw])
  | Topt (Some Help, os, None) _ :: _ => Raise (SystemExit 0)
  | Topt (Some Help, os, Some explicit_arg) _ :: rest =>
      if startswith os "--" then error
      else if String.eqb explicit_arg "" then error
      else bind (flag_cluster p explicit_arg (is_positional rest))
                (fun _ => Raise (SystemExit 0))
  | Topt (Some (Store dest ty _), _, Some explicit_arg) _ :: rest =>
      if String.eqb explicit_arg "--"
      then consume p rest (<[dest := VEmptyList]> ns) extras
      else bind (get_value ty explicit_arg)
                (fun v => consume p rest (<[dest := v]> ns) extras)
  | Topt (Some (Store dest ty _), _, None) _ :: rest =>
      match rest with
      | Tpos s :: rest' =>
          bind (get_value ty s) (fun v => consume p rest' (<[dest := v]> ns) extras)
      | _ => error
      end
  end.

(** The namespace before parsing: every store action's default. *)
Definition defaults (p : parser) : namespace :=
  fold_left (fun ns '(_, a) =>
               match a with
               | Store dest _ d => <[dest := d]> ns
               | Help => ns
               end) p ∅.

(** [parser.parse_known_args(argv)].  The help and usage texts that argparse
    prints before it exits are left out. *)
Definition parse_known_args (p : parser) (argv : list string)
    : result (namespace * list string) :=
  bind (classify p argv) (fun toks => consume p toks (defaults p) []).

(** [parser.parse_args(argv)]: any extra is an error. *)
Definition parse_args (p : parser) (argv : list string) : result namespace :=
  bind (parse_known_args p argv) (fun '(ns, extras) =>
    match extras with
    | [] => Ok ns
    | _ => error
    end).

(** An argument the parser does not recognise: it reads it as a positional, or
    as a flag it has no action for (neither an option string nor the
    abbreviation of one). *)
Definition unrecognised (p : parser) (a : string) : Prop :=
  a <> "--"
  /\ (parse_optional p a = Ok None \/ parse_optional p a = Ok (Some (None, a, None))).

(** An argument that can be the value of a flag: the parser reads it as a
    positional.  A word that does not start with a dash is one; a word with a
    leading dash is one only when it is the lone dash, or matches no flag and
    looks like a negative number or holds a space. *)
Definition positional (p : parser) (v : string) : Prop :=
  v <> "--" /\ parse_optional p v = Ok None.

(** An argument vector split into its known flags, each a declared option
    string followed by a positional that its type accepts, and the remainder:
    the unrecognised arguments, and everything from the first [--] on. *)
Inductive partition (p : parser) : list string -> list (string * value) -> list string -> Prop :=
| partition_nil :
    partition p [] [] []
| partition_dashdash rest :
    partition p ("--" :: rest) [] ("--" :: rest)
| partition_extra a argv known extras :
    unrecognised p a ->
    partition p argv known extras ->
    partition p (a :: argv) known (a :: extras)
| partition_flag flag dest ty d v x argv known extras :
    lookup_option p flag = Some (Store dest ty d) ->
    positional p v ->
    get_value ty v = Ok x ->
    partition p argv known extras ->
    partition p (flag :: v :: argv) ((dest, x) :: known) extras.

(** The namespace with the known flags stored, the last one winning. *)
Definition store_all (known : list (string * value)) (ns : namespace) : namespace :=
  fold_left (fun ns '(dest, x) => <[dest := x]> ns) known ns.

End conversions.

End argparse.

(** ** The scikit-learn training script *)

Module TrainingScript.
Import Py argparse.

(** A file: bytes, or a model that [joblib.dump] pickled. *)
Inductive file (Model : Type) :=
| Bytes (b : string)
| Pickled (m : Model).
Arguments Bytes {Model} _.
Arguments Pickled {Model} _.

(** The third-party calls of the script.  Each returns what the library
    returns or raises; the script decides none of it. *)
Class Libs := {
  DataFrame : Type;
  Series : Type;
  Model : Type;
  float64 : Type;
  (** the builtins [int(s)] and [s.split()] *)
  py_int : string -> option Z;
  py_split : string -> list string;
  (** [str(x)] of a numpy float *)
  float_str : float64 -> string;
  (** [pd.read_csv] on the file it has opened *)
  pd_parse : file Model -> result DataFrame;
  (** [df[columns]] and [df[key]] *)
  df_select : DataFrame -> list string -> result DataFrame;
  df_column : DataFrame -> value -> result Series;
  (** [RandomForestRegressor(n_estimators, min_samples_leaf, n_jobs=-1).fit(X, y)] *)
  rf_fit : value -> value -> DataFrame -> Series -> result Model;
  (** [model.predict(X)] *)
  rf_predict : Model -> DataFrame -> result Series;
  (** [np.abs(predictions - y)] *)
  np_abs_diff : Series -> Series -> result Series;
  (** [np.percentile(a, q)] *)
  np_percentile : Series -> nat -> result float64;
  (** [joblib.load] on bytes that [joblib.dump] did not write *)
  joblib_load_bytes : string -> result Model;
  (** whether [open(path, "wb")] succeeds *)
  os_can_write : string -> bool;
}.

(** The places of the script that can raise, in program order. *)
Inductive site :=
| at_parse_known_args
| at_join_train
| at_read_train
| at_join_test
| at_read_test
| at_split_features_train
| at_select_train
| at_split_features_test
| at_select_test
| at_target_train
| at_target_test
| at_fit
| at_predict
| at_abs_err
| at_percentile (q : nat)
| at_join_model
| at_dump.

Definition program_order : list site :=
  [at_parse_known_args; at_join_train; at_read_train; at_join_test; at_read_test;
   at_split_features_train; at_select_train; at_split_features_test; at_select_test;
   at_target_train; at_target_test; at_fit; at_predict; at_abs_err;
   at_percentile 10; at_percentile 50; at_percentile 90; at_join_model; at_dump].

Section script.
Context {L : Libs}.

(** What the script acts on: the file system, what it has printed, and a
    record of every call made, with the exception it raised if it raised. *)
Record world := mk_world {
  fs : gmap string (file Model);
  stdout : list string;
  trace : list (site * option exn);
}.

(** A statement: it changes the world and returns or raises. *)
Definition M (A : Type) : Type := world -> result A * world.

Definition ret {A} (a : A) : M A := fun w => (Ok a, w).

(** Sequencing: a raised exception skips the rest.  The script has no
    [try] statement, so this is the only way statements compose. *)
Definition bindM {A B} (m : M A) (k : A -> M B) : M B :=
  fun w =>
    match m w with
    | (Ok a, w') => k a w'
    | (Raise e, w') => (Raise e, w')
    end.

Definition print (s : string) : M unit :=
  fun w => (Ok tt, mk_world (fs w) (stdout w ++ [s]) (trace w)).

Definition outcome {A} (r : result A) : option exn :=
  match r with
  | Ok _ => None
  | Raise e => Some e
  end.

(** A call at site [s] that may read the file system. *)
Definition call {A} (s : site) (f : gmap string (file Model) -> result A) : M A :=
  fun w =>
    let r := f (fs w) in
    (r, mk_world (fs w) (stdout w) (trace w ++ [(s, outcome r)])).

(** [pd.read_csv(path)]. *)
Definition pd_read_csv (path : string) (files : gmap string (file Model)) : result DataFrame :=
  match files !! path with
  | Some f => pd_parse f
  | None => Raise (Exception "FileNotFoundError" path)
  end.

(** [value.split()]. *)
Definition str_split (v : value) : result (list string) :=
  match v with
  | VStr s => Ok (py_split s)
  | _ => Raise (Exception "AttributeError" "object has no attribute 'split'")
  end.

(** [joblib.dump(model, path)]. *)
Definition joblib_dump (m : Model) (path : string) : M unit :=
  fun w =>
    if os_can_write path
    then (Ok tt, mk_world (<[path := Pickled m]> (fs w)) (stdout w)
                   (trace w ++ [(at_dump, None)]))
    else (Raise (Exception "FileNotFoundError" path),
          mk_world (fs w) (stdout w)
            (trace w ++ [(at_dump, Some (Exception "FileNotFoundError" path))])).

(** [joblib.load(path)]. *)
Definition joblib_load (path : string) (files : gmap string (file Model)) : result Model :=
  match files !! path with
  | Some (Pickled m) => Ok m
  | Some (Bytes b) => joblib_load_bytes b
  | None => Raise (Exception "FileNotFoundError" path)
  end.

(** [model_fn(model_dir)]. *)
Definition model_fn (model_dir : value) (files : gmap string (file Model)) : result Model :=
  Py.bind (os_path_join model_dir (VStr "model.joblib")) (fun path => joblib_load path files).

(** [os.environ.get(name)]. *)
Definition environ_get (env : gmap string string) (name : string) : value :=
  match env !! name with
  | Some s => VStr s
  | None => VNone
  end.

(** The parser, [add_argument] by [add_argument]. *)
Definition script_parser (env : gmap string string) : parser :=
  let parser := ArgumentParser in
  let parser := add_argument "--n_estimators" TInt (VInt 10) parser in
  let parser := add_argument "--min_samples_leaf" TInt (VInt 3) parser in
  let parser := add_argument "--model_dir" TStr (environ_get env "SM_MODEL_DIR") parser in
  let parser := add_argument "--train_dir" TStr (environ_get env "SM_CHANNEL_TRAIN") parser in
  let parser := add_argument "--test_dir" TStr (environ_get env "SM_CHANNEL_TEST") parser in
  let parser := add_argument "--train_file" TStr (VStr "boston_train.csv") parser in
  let parser := add_argument "--test_file" TStr (VStr "boston_test.csv") parser in
  let parser := add_argument "--features" TStr VNone parser in
  let parser := add_argument "--target_variable" TStr VNone parser in
  parser.

(** [args.name]; the parser sets every attribute the script reads. *)
Definition attr (args : namespace) (name : string) : value :=
  default VNone (args !! name).

Notation "x <- c1 ;; c2" := (bindM c1 (fun x => c2))
  (at level 100, c1 at next level, right associativity).
Notation "c1 ;;; c2" := (bindM c1 (fun _ => c2))
  (at level 100, right associativity).

(** One turn of [for q in [10, 50, 90]]. *)
Definition print_percentile (abs_err : Series) (q : nat) : M unit :=
  v <- call (at_percentile q) (fun _ => np_percentile abs_err q) ;;
  print ("AE-at-" ++ str_nat q ++ "th-percentile: " ++ float_str v).

Fixpoint for_each (qs : list nat) (body : nat -> M unit) : M unit :=
  match qs with
  | [] => ret tt
  | q :: rest => body q ;;; for_each rest body
  end.

(** The [if __name__ == '__main__'] block, statement by statement. *)
Definition main (argv : list string) (env : gmap string string) : M unit :=
  print "extracting arguments" ;;;
  parsed <- call at_parse_known_args
              (fun _ => parse_known_args py_int (script_parser env) argv) ;;
  let args := fst parsed in
  print "reading data" ;;;
  train_path <- call at_join_train
                  (fun _ => os_path_join (attr args "train_dir") (attr args "train_file")) ;;
  train_df <- call at_read_train (pd_read_csv train_path) ;;
  test_path <- call at_join_test
                 (fun _ => os_path_join (attr args "test_dir") (attr args "test_file")) ;;
  test_df <- call at_read_test (pd_read_csv test_path) ;;
  print "building training and testing datasets" ;;;
  cols <- call at_split_features_train (fun _ => str_split (attr args "features")) ;;
  X_train <- call at_select_train (fun _ => df_select train_df cols) ;;
  cols' <- call at_split_features_test (fun _ => str_split (attr args "features")) ;;
  X_test <- call at_select_test (fun _ => df_select test_df cols') ;;
  y_train <- call at_target_train (fun _ => df_column train_df (attr args "target_variable")) ;;
  y_test <- call at_target_test (fun _ => df_column test_df (attr args "target_variable")) ;;
  print "training model" ;;;
  model <- call at_fit
             (fun _ => rf_fit (attr args "n_estimators") (attr args "min_samples_leaf")
                         X_train y_train) ;;
  print "testing model" ;;;
  predictions <- call at_predict (fun _ => rf_predict model X_test) ;;
  abs_err <- call at_abs_err (fun _ => np_abs_diff predictions y_test) ;;
  for_each [10; 50; 90] (print_percentile abs_err) ;;;
  path <- call at_join_model
            (fun _ => os_path_join (attr args "model_dir") (VStr "model.joblib")) ;;
  joblib_dump model path ;;;
  print ("model saved at " ++ path).

(** The calls made between two worlds of one run. *)
Definition new_calls (w w' : world) : list (site * option exn) :=
  drop (length (trace w)) (trace w').

(** What the script printed in a run that reached its end. *)
Definition printed_lines (v10 v50 v90 : float64) (path : string) : list string :=
  ["extracting arguments"; "reading data"; "building training and testing datasets";
   "training model"; "testing model";
   ("AE-at-" ++ str_nat 10 ++ "th-percentile: " ++ float_str v10)%string;
   ("AE-at-" ++ str_nat 50 ++ "th-percentile: " ++ float_str v50)%string;
   ("AE-at-" ++ str_nat 90 ++ "th-percentile: " ++ float_str v90)%string;
   ("model saved at " ++ path)%string].

(** The absolute errors of a run, from the files to [abs_err]: the two tables
    read from the train and test paths, the feature columns and the target
    column of each, the model fitted on the training part, its predictions on
    the test features, and their distance to the test targets. *)
Definition absolute_errors (args : namespace) (files : gmap string (file Model))
    (model : Model) (abs_err : Series) : Prop :=
  exists train_path test_path train_df test_df cols X_train X_test y_train y_test predictions,
    os_path_join (attr args "train_dir") (attr args "train_file") = Ok train_path
    /\ pd_read_csv train_path files = Ok train_df
    /\ os_path_join (attr args "test_dir") (attr args "test_file") = Ok test_path
    /\ pd_read_csv test_path files = Ok test_df
    /\ str_split (attr args "features") = Ok cols
    /\ df_select train_df cols = Ok X_train
    /\ df_select test_df cols = Ok X_test
    /\ df_column train_df (attr args "target_variable") = Ok y_train
    /\ df_column test_df (attr args "target_variable") = Ok y_test
    /\ rf_fit (attr args "n_estimators") (attr args "min_samples_leaf") X_train y_train
       = Ok model
    /\ rf_predict model X_test = Ok predictions
    /\ np_abs_diff predictions y_test = Ok abs_err.

(** A run from [w] that ended in [w'] without an exception: the arguments
    parsed, every call returned, the percentiles are those of the absolute
    errors, the fitted model was written under the model directory, and the
    nine lines were printed. *)
Definition completed (argv : list string) (env : gmap string string) (w w' : world) : Prop :=
  exists args extras model_dir model abs_err v10 v50 v90,
    parse_known_args py_int (script_parser env) argv = Ok (args, extras)
    /\ absolute_errors args (fs w) model abs_err
    /\ np_percentile abs_err 10 = Ok v10
    /\ np_percentile abs_err 50 = Ok v50
    /\ np_percentile abs_err 90 = Ok v90
    /\ attr args "model_dir" = VStr model_dir
    /\ fs w' = <[posix_join model_dir "model.joblib" := Pickled model]> (fs w)
    /\ stdout w' = (stdout w ++ printed_lines v10 v50 v90 (posix_join model_dir "model.joblib"))%list
    /\ trace w' = (trace w ++ List.map (fun s => (s, None)) program_order)%list.

(** A run from [w] that ended in [w'] with the exception [e]: the calls made
    are the first sites of the program, each once and in order; all returned
    but the last, which raised [e]; and no file was written. *)
Definition stopped (w : world) (e : exn) (w' : world) : Prop :=
  fs w' = fs w
  /\ exists returned s,
       trace w' = (trace w ++ List.map (fun s => (s, None)) returned ++ [(s, Some e)])%list
       /\ (returned ++ [s])%list `prefix_of` program_order.

End script.

(** The estimator's metric definition:
    [AE-at-50th-percentile: ([0-9.]+).*$], applied to a log line by search. *)
Definition median_label : string := "AE-at-50th-percentile: ".

Definition in_number_class (a : ascii) : bool :=
  is_digit a || Ascii.eqb a "."%char.

(** The longest prefix in [[0-9.]], and the rest. *)
Fixpoint span_number (s : string) : string * string :=
  match s with
  | EmptyString => (EmptyString, EmptyString)
  | String a t =>
      if in_number_class a
      then let '(d, r) := span_number t in (String a d, r)
      else (EmptyString, s)
  end.

(** [.*$]: no newline, but for one at the very end. *)
Definition rest_of_line (s : string) : bool :=
  negb (contains (ascii_of_nat 10) (strip_final_newline s)).

(** The regex matched at the start of [s]: what the group captures. *)
Definition match_median_here (s : string) : option string :=
  match strip_prefix median_label s with
  | Some after =>
      let '(number, tail) := span_number after in
      if String.eqb number "" then None
      else if rest_of_line tail then Some number
      else None
  | None => None
  end.

(** [re.search(regex, line)]: the first position at which the regex matches. *)
Fixpoint search_median (line : string) : option string :=
  match match_median_here line with
  | Some number => Some number
  | None =>
      match line with
      | EmptyString => None
      | String _ t => search_median t
      end
  end.

(** A printed line of the form [AE-at-50th-percentile: ...]. *)
Definition is_median_line (line : string) : bool := startswith line median_label.

End TrainingScript.

(** ** scikit-learn's train_test_split and the cells that call it *)

Module Split.

(** [test_size]: the fraction written in the notebook, exactly.  (0.25 is a
    binary fraction; for 0.2 the float product [0.2 * n] rounds to the same
    ceiling as the exact one.) *)
Record fraction := mk_fraction { num : nat; den : nat }.

Definition quarter : fraction := mk_fraction 1 4.
Definition fifth : fraction := mk_fraction 1 5.

(** [ceil(test_size * n_samples)]. *)
Definition ceil_mul (r : fraction) (n : nat) : nat := (num r * n + den r - 1) / den r.

(** [_validate_shuffle_split(n_samples, test_size, train_size=None)]: the
    sizes of the two parts, or ValueError ([None]): a test size outside (0, 1),
    or an empty train part. *)
Definition validate_shuffle_split (n_samples : nat) (test_size : fraction) : option (nat * nat) :=
  if (num test_size =? 0) || (den test_size <=? num test_size) then None
  else
    let n_test := ceil_mul test_size n_samples in
    let n_train := n_samples - n_test in
    if n_samples <? n_train + n_test then None
    else if n_train =? 0 then None
    else Some (n_train, n_test).

(** [np.random.RandomState(random_state).permutation(n)]: some permutation of
    [range(n)]; which one, the seed decides. *)
Class RandomState := {
  permutation : nat -> list nat;
  permutation_range : forall n, permutation n ≡ₚ seq 0 n;
}.

(** [_safe_indexing(a, indices)]: the rows at [indices], IndexError otherwise. *)
Definition safe_indexing {A} (a : list A) (indices : list nat) : option (list A) :=
  mapM (fun i => a !! i) indices.

(** [train_test_split(X, y, test_size=..., random_state=...)]: arrays are
    lists of rows.  Every ValueError is [None]. *)
Definition train_test_split {A B} {rng : RandomState} (X : list A) (y : list B)
    (test_size : fraction) : option (list A * list A * list B * list B) :=
  if negb (length X =? length y) then None
  else
    match validate_shuffle_split (length X) test_size with
    | None => None
    | Some (n_train, n_test) =>
        let perm := permutation (length X) in
        let ind_test := take n_test perm in
        let ind_train := take n_train (drop n_test perm) in
        X_train ← safe_indexing X ind_train;
        X_test ← safe_indexing X ind_test;
        y_train ← safe_indexing y ind_train;
        y_test ← safe_indexing y ind_test;
        Some (X_train, X_test, y_train, y_test)
    end.

(** [df = pd.DataFrame(X, columns=...); df['target'] = y]: a column of another
    length is a ValueError. *)
Definition with_target {A B} (X : list A) (y : list B) : option (list (A * B)) :=
  if length X =? length y then Some (zip X y) else None.

(** The split cell of the scikit-learn notebook: [trainX] and [testX]. *)
Definition boston_split_cell {A B} {rng : RandomState} (data : list A) (target : list B)
    : option (list (A * B) * list (A * B)) :=
  '(X_train, X_test, y_train, y_test) ← train_test_split data target quarter;
  trainX ← with_target X_train y_train;
  testX ← with_target X_test y_test;
  Some (trainX, testX).

(** The split cell of the headline notebooks. *)
Definition news_split_cell {A B} {rng : RandomState} (processed_docs : list A)
    (encoded_y : list B) : option (list A * list A * list B * list B) :=
  train_test_split processed_docs encoded_y fifth.

End Split.

(** ** Keras: padding and the embedding layer *)

Module keras.

Inductive side := pre | post.

(** The range of [dtype="int32"], the default of [pad_sequences]. *)
Definition int32 (z : Z) : Prop := (- 2 ^ 31 <= z < 2 ^ 31)%Z.

(** [np.asarray(items, dtype="int32")] and [np.full(shape, value, dtype="int32")]
    on one Python integer: an integer in the range of the type is kept; for
    one outside it the numpy release decides, an OverflowError ([None]) or a
    wrapped value. *)
Class Numpy := {
  as_int32 : Z -> option Z;
  as_int32_in_range : forall z, int32 z -> as_int32 z = Some z;
}.

(** One row of [pad_sequences(sequences, maxlen, padding, truncating, value)]:
    an empty sequence is left as padding; a long one keeps its last (pre) or
    first (post) [maxlen] items; a short one is written at the start (post) or
    at the end (pre) of a row of [value].  The row is a row of an [int32]
    array: the padding value and the items kept are converted to it. *)
Definition pad_row `{Numpy} (maxlen : nat) (padding truncating : side) (value : Z)
    (s : list Z) : option (list Z) :=
  let trunc :=
    match truncating with
    | pre => drop (length s - maxlen) s
    | post => take maxlen s
    end in
  value ← as_int32 value;
  trunc ← mapM as_int32 trunc;
  Some match padding with
       | post => trunc ++ repeat value (maxlen - length trunc)
       | pre => repeat value (maxlen - length trunc) ++ trunc
       end.

(** [pad_sequences], for a [maxlen] of at least 1. *)
Definition pad_sequences `{Numpy} (sequences : list (list Z)) (maxlen : positive)
    (padding truncating : side) (value : Z) : option (list (list Z)) :=
  mapM (pad_row (Pos.to_nat maxlen) padding truncating value) sequences.

(** A fitted [Tokenizer], as far as [classify] uses it: how it encodes one
    text. *)
Record Tokenizer := { text_to_sequence : string -> list Z }.

(** [tokenizer.texts_to_sequences(texts)]. *)
Definition texts_to_sequences (t : Tokenizer) (texts : list string) : list (list Z) :=
  List.map (text_to_sequence t) texts.

(** An [Embedding] layer once built. *)
Record Embedding (F : Type) := mk_Embedding {
  input_dim : nat;
  output_dim : nat;
  embeddings : np.ndarray F;
}.
Arguments mk_Embedding {F} _ _ _.
Arguments input_dim {F} _.
Arguments output_dim {F} _.
Arguments embeddings {F} _.

(** [Embedding(input_dim, output_dim, weights=ws)]: both sizes have to be
    positive, and the layer takes the one array of [ws] when it has the
    layer's shape; otherwise ValueError.  (Releases of Keras from before the
    check on the sizes build, for a size of 0, a layer that no index can
    use.) *)
Definition build_Embedding {F} (input_dim output_dim : nat) (ws : list (np.ndarray F))
    : option (Embedding F) :=
  if (input_dim =? 0) || (output_dim =? 0) then None
  else
    match ws with
    | [w] =>
        if decide (np.shape w = [input_dim; output_dim])
        then Some (mk_Embedding input_dim output_dim w)
        else None
    | _ => None
    end.

(** The layer on one token index: its row, or an error out of range. *)
Definition lookup {F} (layer : Embedding F) (index : nat) : option (np.ndarray F) :=
  np.row (embeddings layer) index.

End keras.

(** ** PyTorch: the network's embedding *)

Module torch.

(** [nn.Embedding]: its two sizes and its weight. *)
Record Embedding (F : Type) := mk_Embedding {
  num_embeddings : nat;
  embedding_dim : nat;
  weight : np.ndarray F;
}.
Arguments mk_Embedding {F} _ _ _.
Arguments num_embeddings {F} _.
Arguments embedding_dim {F} _.
Arguments weight {F} _.

(** [F.embedding(index, weight)]: the row of the weight, IndexError out of
    range. *)
Definition lookup {F} (e : Embedding F) (index : nat) : option (np.ndarray F) :=
  np.row (weight e) index.

(** The fields of [Net] that depend on the constructor's arguments. *)
Record Net (F : Type) := mk_Net {
  embedding : Embedding F;
  conv1_in_channels : nat;
  fc2_out_features : nat;
}.
Arguments mk_Net {F} _ _ _.
Arguments embedding {F} _.
Arguments conv1_in_channels {F} _.
Arguments fc2_out_features {F} _.

End torch.

(** ** The headline-classifier notebooks *)

Module Headline.

(** *** The Keras notebook *)

(** [padded_example] of [classify(text)]. *)
Definition padded_example `{keras.Numpy} (tokenizer : keras.Tokenizer) (text : string)
    : option (list (list Z)) :=
  let encoded_example := keras.texts_to_sequences tokenizer [text] in
  let max_length := 40%positive in
  keras.pad_sequences encoded_example max_length keras.post keras.pre 0.

(** [a.shape[i]]: IndexError when the array has no such axis. *)
Definition shape_at {F} (a : np.ndarray F) (i : nat) : option nat := np.shape a !! i.

(** The first layer of the model cell. *)
Definition embed_layer {F} (embedding_matrix : np.ndarray F) : option (keras.Embedding F) :=
  n ← shape_at embedding_matrix 0;
  d ← shape_at embedding_matrix 1;
  keras.build_Embedding n d [embedding_matrix].

(** *** The PyTorch notebook *)

Section net.
Context {F : Type}.

(** How [nn.Embedding(n, d)] fills its weight at first. *)
Variable initial_weight : nat -> nat -> np.ndarray F.

(** [Net(vocab_size, emb_dim, num_classes)]. *)
Definition Net (vocab_size emb_dim num_classes : nat) : torch.Net F :=
  torch.mk_Net
    (torch.mk_Embedding vocab_size emb_dim (initial_weight vocab_size emb_dim))
    emb_dim num_classes.

(** The model that [train] sets up, before the first epoch: the network, and
    its embedding weight replaced by the matrix. *)
Definition train_setup (embedding_matrix : np.ndarray F) (num_classes : nat)
    : option (torch.Net F) :=
  n ← shape_at embedding_matrix 0;
  d ← shape_at embedding_matrix 1;
  let model := Net n d num_classes in
  Some (torch.mk_Net
          (torch.mk_Embedding (torch.num_embeddings (torch.embedding model))
             (torch.embedding_dim (torch.embedding model)) embedding_matrix)
          (torch.conv1_in_channels model) (torch.fc2_out_features model)).

End net.

(** *** The tokenizer's life cycle *)

(** The tokenizer object of the PyTorch notebook, as far as the cells use it:
    a torchtext 0.6 [Field] with its vocabulary built.  [preprocess] cuts a
    text into words; [pad_token] and [fix_length] are what [pad] fills with
    and up to (a field without [init_token] and [eos_token], padding and
    cutting at the end, as by default).  [stoi] is the vocabulary's
    word→index mapping, a [defaultdict]: its default is the index of the
    unknown word when the field has an unknown token (as it has unless built
    with [unk_token=None]), and it has no default otherwise. *)
Record tokenizer_state := mk_tokenizer {
  preprocess : string -> list string;
  pad_token : string;
  fix_length : nat;
  stoi : gmap string nat;
  unk_index : option nat;
}.

(** [vocab.stoi[w]] on the [defaultdict]: the index of [w]; a word that is no
    key is first inserted, at the unknown index, or is a KeyError ([None])
    when there is no such index. *)
Definition stoi_getitem (w : string) (t : tokenizer_state)
    : option (nat * tokenizer_state) :=
  match stoi t !! w with
  | Some i => Some (i, t)
  | None =>
      match unk_index t with
      | Some unk =>
          Some (unk,
                mk_tokenizer (preprocess t) (pad_token t) (fix_length t)
                  (<[w := unk]> (stoi t)) (unk_index t))
      | None => None
      end
  end.

(** [for w in padded[0]: final_text.append(tokenizer.vocab.stoi[w])]. *)
Fixpoint numericalize (ws : list string) (t : tokenizer_state)
    : option (list nat * tokenizer_state) :=
  match ws with
  | [] => Some ([], t)
  | w :: rest =>
      match stoi_getitem w t with
      | Some (i, t1) =>
          match numericalize rest t1 with
          | Some (final_text, t2) => Some (i :: final_text, t2)
          | None => None
          end
      | None => None
      end
  end.

(** What a look-up in the mapping gives, the mapping left alone. *)
Definition lookup_index (t : tokenizer_state) (w : string) : option nat :=
  match stoi t !! w with
  | Some i => Some i
  | None => unk_index t
  end.

(** An object reference of the notebook's kernel. *)
Definition ref := nat.

(** The kernel: the tokenizer objects it holds, the notebook's global
    [tokenizer], and which reference each later call was given. *)
Record kernel := mk_kernel {
  objects : gmap ref tokenizer_state;
  tokenizer_var : option ref;
  given : list ref;
}.

Section lifecycle.
Context {E : Type}.

(** What the NLP library and the absent module decide: the tokenizer that
    the documents give, and the embedding matrix of a tokenizer. *)
Variable build_tokenizer : list string -> tokenizer_state.
Variable embeddings_of : tokenizer_state -> E.

(** [tokenizer.pad([tokenizer.preprocess(text)])[0]]: the words of the text,
    cut or filled to [fix_length]. *)
Definition padded (t : tokenizer_state) (text : string) : list string :=
  let processed := preprocess t text in
  take (fix_length t) processed
  ++ repeat (pad_token t) (fix_length t - length processed).

(** The indices of a text under a tokenizer whose mapping is left alone. *)
Definition encode (t : tokenizer_state) (text : string) : option (list nat) :=
  mapM (lookup_index t) (padded t text).

(** A reference no object has yet. *)
Definition fresh_ref (objs : gmap ref tokenizer_state) : ref :=
  fresh (dom objs).

(** Modelled from the spec: [tokenize_and_pad_docs(df, "TITLE")] of
    [util/preprocessing.py], which is not among the sources.  It builds the
    one tokenizer from the documents ("built once") and returns it with the
    padded documents. *)
Definition tokenize_and_pad_docs (docs : list string) (objs : gmap ref tokenizer_state)
    : list (list string) * ref * gmap ref tokenizer_state :=
  let t := build_tokenizer docs in
  let r := fresh_ref objs in
  (List.map (padded t) docs, r, <[r := t]> objs).

(** Modelled from the spec: [get_word_embeddings(tokenizer, folder)] of
    [util/preprocessing.py], which is not among the sources.  It looks the
    words of the tokenizer it is given up ("reused for ... embedding
    lookups") and leaves the objects as they are. *)
Definition get_word_embeddings (r : ref) (objs : gmap ref tokenizer_state)
    : option (E * gmap ref tokenizer_state) :=
  t ← objs !! r;
  Some (embeddings_of t, objs).

(** The cell [processed_docs, tokenizer = tokenize_and_pad_docs(df, "TITLE")]. *)
Definition cell_tokenize (docs : list string) (k : kernel) : kernel :=
  let '(_, r, objs) := tokenize_and_pad_docs docs (objects k) in
  mk_kernel objs (Some r) (given k).

(** The cell [embedding_matrix = get_word_embeddings(tokenizer, ...)]: the
    call is given what the global [tokenizer] holds. *)
Definition cell_embeddings (k : kernel) : option (E * kernel) :=
  r ← tokenizer_var k;
  '(m, objs) ← get_word_embeddings r (objects k);
  Some (m, mk_kernel objs (tokenizer_var k) (given k ++ [r])).

(** [classify(text)] of the PyTorch notebook, up to the model's input:
    [preprocess], [pad] and the [stoi] look-ups are those of the object the
    global [tokenizer] holds; the look-ups may insert into its [stoi]. *)
Definition classify_indices (text : string) (k : kernel) : option (list nat * kernel) :=
  r ← tokenizer_var k;
  t ← objects k !! r;
  '(final_text, t') ← numericalize (padded t text) t;
  Some (final_text, mk_kernel (<[r := t']> (objects k)) (tokenizer_var k) (given k ++ [r])).

(** Any number of [classify] calls: the model inputs, in order. *)
Fixpoint classify_all (texts : list string) (k : kernel) : option (list (list nat) * kernel) :=
  match texts with
  | [] => Some ([], k)
  | t :: rest =>
      match classify_indices t k with
      | Some (final_text, k1) =>
          match classify_all rest k1 with
          | Some (outputs, k2) => Some (final_text :: outputs, k2)
          | None => None
          end
      | None => None
      end
  end.

(** A session: the two cells, then any number of [classify] calls.  It gives
    the embedding matrix, the model inputs and the kernel at the end. *)
Definition session (docs : list string) (texts : list string) (k : kernel)
    : option (E * list (list nat) * kernel) :=
  '(matrix, k1) ← cell_embeddings (cell_tokenize docs k);
  '(outputs, k2) ← classify_all texts k1;
  Some (matrix, outputs, k2).

(** [t'] is [t] with words of [added] inserted at the unknown index: the
    sizes are those of [t], no word of [t] has lost or changed its index, and
    every other key is a word of [added] at the unknown index. *)
Definition grown (t t' : tokenizer_state) (added : list string) : Prop :=
  preprocess t' = preprocess t
  /\ pad_token t' = pad_token t
  /\ fix_length t' = fix_length t
  /\ unk_index t' = unk_index t
  /\ (forall w i, stoi t !! w = Some i -> stoi t' !! w = Some i)
  /\ (forall w i, stoi t' !! w = Some i ->
       stoi t !! w = Some i
       \/ (stoi t !! w = None /\ unk_index t = Some i /\ w ∈ added)).

End lifecycle.

End Headline.

(** ** A small instance of the libraries

    Enough of pandas, scikit-learn and numpy to run the script on one-row
    tables: floats are [nan] or whole non-negative numbers, a model predicts
    the first target it was fitted on, and a table is its list of columns.
    It serves to run the definitions above on concrete inputs. *)

Module Toy.
Import Py TrainingScript.

Inductive tfloat :=
| nan
| num (n : nat).

(** [str(x)]: "nan", or the number with its ".0". *)
Definition tfloat_str (x : tfloat) : string :=
  match x with
  | nan => "nan"
  | num n => str_nat n ++ ".0"
  end.

Definition frame : Type := list (string * list tfloat).

Fixpoint digits_value (s : string) (acc : Z) : option Z :=
  match s with
  | EmptyString => Some acc
  | String a t =>
      if is_digit a
      then digits_value t (10 * acc + Z.of_nat (nat_of_ascii a - 48))%Z
      else None
  end.

(** [int(s)] on a signed run of ASCII digits; ValueError on anything else. *)
Definition toy_int (s : string) : option Z :=
  match s with
  | EmptyString => None
  | String "-"%char (String a t) => option_map Z.opp (digits_value (String a t) 0)
  | String "+"%char (String a t) => digits_value (String a t) 0
  | _ => digits_value s 0
  end.

(** [s.split()] on words separated by spaces. *)
Fixpoint split_spaces (s : string) (word : string) : list string :=
  match s with
  | EmptyString => if String.eqb word "" then [] else [word]
  | String a t =>
      if Ascii.eqb a " "%char
      then (if String.eqb word "" then [] else [word]) ++ split_spaces t ""
      else split_spaces t (word ++ String a EmptyString)
  end.

Definition toy_split (s : string) : list string := split_spaces s "".

(** Three CSV files, by their text: a training table, a test table, and a test
    table whose target cell is empty (pandas reads it as NaN). *)
Definition csv (header line : string) : string :=
  header ++ argparse.newline ++ line ++ argparse.newline.

Definition train_csv : string := csv "x,target" "1,3".
Definition test_csv : string := csv "x,target" "1,5".
Definition test_csv_missing_target : string := csv "x,target" "1,".

Definition toy_parse (f : file nat) : result frame :=
  match f with
  | Bytes b =>
      if String.eqb b train_csv then Ok [("x", [num 1]); ("target", [num 3])]
      else if String.eqb b test_csv then Ok [("x", [num 1]); ("target", [num 5])]
      else if String.eqb b test_csv_missing_target then Ok [("x", [num 1]); ("target", [nan])]
      else Raise (Exception "ParserError" "Error tokenizing data")
  | Pickled _ => Raise (Exception "UnicodeDecodeError" "invalid start byte")
  end.

Fixpoint column (df : frame) (name : string) : option (list tfloat) :=
  match df with
  | [] => None
  | (c, vs) :: rest => if String.eqb c name then Some vs else column rest name
  end.

Fixpoint toy_select (df : frame) (cols : list string) : result frame :=
  match cols with
  | [] => Ok []
  | c :: rest =>
      match column df c with
      | Some vs => Py.bind (toy_select df rest) (fun f => Ok ((c, vs) :: f))
      | None => Raise (Exception "KeyError" c)
      end
  end.

Definition toy_column (df : frame) (key : value) : result (list tfloat) :=
  match key with
  | VStr name =>
      match column df name with
      | Some vs => Ok vs
      | None => Raise (Exception "KeyError" name)
      end
  | _ => Raise (Exception "KeyError" "None")
  end.

(** Fitting keeps the first target; a NaN target is scikit-learn's
    "Input contains NaN". *)
Definition toy_fit (n_estimators min_samples_leaf : value) (X : frame) (y : list tfloat)
    : result nat :=
  match n_estimators, min_samples_leaf, y with
  | VInt _, VInt _, num t :: _ => Ok t
  | _, _, _ => Raise (Exception "ValueError" "Input contains NaN or bad parameters")
  end.

Definition n_rows (X : frame) : nat :=
  match X with
  | [] => 0
  | (_, vs) :: _ => length vs
  end.

Definition toy_predict (m : nat) (X : frame) : result (list tfloat) :=
  Ok (repeat (num m) (n_rows X)).

Definition abs_diff (a b : tfloat) : tfloat :=
  match a, b with
  | num x, num y => num ((x - y) + (y - x))
  | _, _ => nan
  end.

Definition toy_abs_diff (p y : list tfloat) : result (list tfloat) :=
  if length p =? length y then Ok (zip_with abs_diff p y)
  else Raise (Exception "ValueError" "operands could not be broadcast together").

Definition is_nan (x : tfloat) : bool :=
  match x with
  | nan => true
  | num _ => false
  end.

Definition number_of (x : tfloat) : nat :=
  match x with
  | nan => 0
  | num n => n
  end.

(** [np.percentile(a, q)]: NaN as soon as one element is NaN; otherwise the
    element at the lower of the two ranks between which numpy interpolates
    (on a one-element array, there is one rank). *)
Definition toy_percentile (a : list tfloat) (q : nat) : result tfloat :=
  if existsb is_nan a then Ok nan
  else
    match merge_sort Nat.le (List.map number_of a) with
    | [] => Ok nan
    | sorted => Ok (num (nth (q * (length sorted - 1) / 100) sorted 0))
    end.

#[global] Instance toy_libs : Libs := {|
  DataFrame := frame;
  Series := list tfloat;
  Model := nat;
  float64 := tfloat;
  py_int := toy_int;
  py_split := toy_split;
  float_str := tfloat_str;
  pd_parse := toy_parse;
  df_select := toy_select;
  df_column := toy_column;
  rf_fit := toy_fit;
  rf_predict := toy_predict;
  np_abs_diff := toy_abs_diff;
  np_percentile := toy_percentile;
  joblib_load_bytes := fun _ => Raise (Exception "UnpicklingError" "invalid load key");
  os_can_write := fun _ => true;
|}.

(** The local run of the notebook, on the small tables. *)
Definition local_argv : list string :=
  ["--n_estimators"; "100"; "--min_samples_leaf"; "3"; "--model_dir"; "model/";
   "--train_dir"; "data/"; "--test_dir"; "data/";
   "--train_file"; "boston_train.csv"; "--test_file"; "boston_test.csv";
   "--features"; "x"; "--target_variable"; "target"].

Definition local_files : gmap string (file nat) :=
  <["data/boston_train.csv" := Bytes train_csv]>
    (<["data/boston_test.csv" := Bytes test_csv]> ∅).

Definition local_files_missing_target : gmap string (file nat) :=
  <["data/boston_train.csv" := Bytes train_csv]>
    (<["data/boston_test.csv" := Bytes test_csv_missing_target]> ∅).

Definition start (files : gmap string (file nat)) : world := mk_world files [] [].

(** The local run, and the world it ends in. *)
Definition local_run : result unit * world :=
  main local_argv ∅ (start local_files).

(** The same run when the test table has an empty target cell. *)
Definition run_with_missing_target : result unit * world :=
  main local_argv ∅ (start local_files_missing_target).

(** The same run when the training file is not there. *)
Definition run_without_train_file : result unit * world :=
  main local_argv ∅ (start (<["data/boston_test.csv" := Bytes test_csv]> ∅)).

(** The arguments of a managed training job: the hyperparameters as flags,
    and a flag and a word the script does not declare. *)
Definition job_argv : list string :=
  ["--n_estimators"; "100"; "--sagemaker_program"; "sklearn_training_script.py";
   "--features"; "x"; "extra"].

(** A 3 × 2 embedding matrix. *)
Definition small_matrix : np.ndarray Z := np.mk_ndarray [3; 2] [0; 0; 11; 12; 21; 22]%Z.

(** [numpy]'s generator at a seed that leaves the rows in place. *)
#[global, refine] Instance identity_rng : Split.RandomState := {|
  Split.permutation := fun n => seq 0 n;
|}.
Proof. intros n. reflexivity. Defined.

End Toy.

(** ** The MNIST notebooks: loading the images and encoding the labels *)

Module MnistData.
Import Py.

(** [np.squeeze(a)]: every axis of length 1 is dropped. *)
Definition squeeze {A} (a : np.ndarray A) : np.ndarray A :=
  np.mk_ndarray (List.filter (fun n => negb (n =? 1)) (np.shape a)) (np.data a).

(** [reqdata] of the prediction cell:
    [np.expand_dims(np.expand_dims(np.squeeze(data), 2), 0)]. *)
Definition reqdata {A} (data : np.ndarray A) : option (np.ndarray A) :=
  a ← np.expand_dims (squeeze data) 2;
  np.expand_dims a 0.

(** [s.endswith(suffix)]. *)
Definition endswith (s suffix : string) : bool :=
  let n := String.length s in
  let k := String.length suffix in
  (k <=? n) && String.eqb (substring (n - k) k s) suffix.

(** What the loading cell reads: the listing of each directory, in the order
    [os.listdir] gives it, and each image file already decoded
    ([np.squeeze(img_to_array(Image.open(f)))]).  A path that is no key is an
    error: no such directory, or no such image. *)
Record disk (Img : Type) := mk_disk {
  dirs : gmap string (list string);
  images : gmap string Img;
}.
Arguments mk_disk {Img} _ _.
Arguments dirs {Img} _.
Arguments images {Img} _.

(** The four lists the cell fills. *)
Record arrays (Img : Type) := mk_arrays {
  x_train : list Img;
  y_train : list nat;
  x_test : list Img;
  y_test : list nat;
}.
Arguments mk_arrays {Img} _ _ _ _.
Arguments x_train {Img} _.
Arguments y_train {Img} _.
Arguments x_test {Img} _.
Arguments y_test {Img} _.

(** [[(x[ix], y[ix]) for ix in range(len(y))]]: IndexError ([None]) when [x]
    is the shorter list. *)
Definition paired {A B} (x : list A) (y : list B) : option (list (A * B)) :=
  mapM (fun ix => xi ← x !! ix; yi ← y !! ix; Some (xi, yi)) (seq 0 (length y)).

(** [np.random.shuffle(l)]: the items of [l] in the order of some permutation
    of their positions. *)
Definition shuffle {A} (rng : Split.RandomState) (l : list A) : list A :=
  omap (fun i => l !! i) (Split.permutation (length l)).

(** What the cell needs to know of an image: its shape. *)
Class Shaped (Img : Type) := image_shape : Img -> list nat.

(** Images that all have one shape. *)
Definition uniform {Img} {image_shapes : Shaped Img} (rows : list Img) : Prop :=
  forall a b, a ∈ rows -> b ∈ rows -> image_shape a = image_shape b.

(** [np.array(rows)] on a list of images.  Images of one shape give the array
    whose rows they are.  For images of several shapes the numpy release
    decides: a ValueError ([None]), or an array of objects with the same
    rows. *)
Class NpArray (Img : Type) {image_shapes : Shaped Img} := {
  np_array : list Img -> option (list Img);
  np_array_uniform : forall rows, uniform rows -> np_array rows = Some rows;
  np_array_rows : forall rows arr, np_array rows = Some arr -> arr = rows;
}.

Section loading.
Context {Img : Type} {image_shapes : Shaped Img} {image_arrays : NpArray Img}.
Variable d : disk Img.
Variables training_dir testing_dir : string.

Definition os_listdir (path : string) : option (list string) := dirs d !! path.

Definition load_image (path : string) : option Img := images d !! path.

(** [os.path.join(dir, label_str, filename)]. *)
Definition image_path (dir label_str filename : string) : string :=
  posix_join (posix_join dir label_str) filename.

(** [filter(lambda s: s.endswith(".png"), os.listdir(os.path.join(dir, label_str)))]. *)
Definition png_files (dir label_str : string) : option (list string) :=
  files ← os_listdir (posix_join dir label_str);
  Some (List.filter (fun s => endswith s ".png") files).

(** [for filename in files: x.append(<image>); y.append(ix_label)]. *)
Fixpoint load_files (dir label_str : string) (ix_label : nat) (files : list string)
    (x : list Img) (y : list nat) : option (list Img * list nat) :=
  match files with
  | [] => Some (x, y)
  | filename :: rest =>
      match load_image (image_path dir label_str filename) with
      | Some img => load_files dir label_str ix_label rest (x ++ [img]) (y ++ [ix_label])
      | None => None
      end
  end.

(** [for ix_label in range(n_labels)], from [ix_label] on: the training files
    of the label, then its test files. *)
Fixpoint load_labels (labels : list string) (ix_label : nat) (a : arrays Img)
    : option (arrays Img) :=
  match labels with
  | [] => Some a
  | label_str :: rest =>
      trainfiles ← png_files training_dir label_str;
      '(x_train1, y_train1) ←
        load_files training_dir label_str ix_label trainfiles (x_train a) (y_train a);
      testfiles ← png_files testing_dir label_str;
      '(x_test1, y_test1) ←
        load_files testing_dir label_str ix_label testfiles (x_test a) (y_test a);
      load_labels rest (S ix_label) (mk_arrays x_train1 y_train1 x_test1 y_test1)
  end.

(** The loading cell: [n_labels] and the four arrays, as lists of rows.  The
    labels are Python integers, which [np.array] always takes. *)
Definition load_cell (rng_train rng_test : Split.RandomState) : option (nat * arrays Img) :=
  listing ← os_listdir training_dir;
  let labels := merge_sort MnistLocal.str_le listing in
  let n_labels := length labels in
  loaded ← load_labels labels 0 (mk_arrays [] [] [] []);
  train_pairs ← paired (x_train loaded) (y_train loaded);
  let train_shuffled := shuffle rng_train train_pairs in
  x_train1 ← np_array (train_shuffled.*1);
  let y_train1 := train_shuffled.*2 in
  test_pairs ← paired (x_test loaded) (y_test loaded);
  let test_shuffled := shuffle rng_test test_pairs in
  x_test1 ← np_array (test_shuffled.*1);
  let y_test1 := test_shuffled.*2 in
  Some (n_labels, mk_arrays x_train1 y_train1 x_test1 y_test1).

(** What the folders of [dir] hold: the image of every [.png] file of every
    label's folder, with the position of the label. *)
Definition folder_images (dir label_str : string) : list Img :=
  omap (fun filename => load_image (image_path dir label_str filename))
       (default [] (png_files dir label_str)).

Fixpoint folder_pairs (dir : string) (labels : list string) (ix_label : nat)
    : list (Img * nat) :=
  match labels with
  | [] => []
  | label_str :: rest =>
      ((fun img => (img, ix_label)) <$> folder_images dir label_str)
      ++ folder_pairs dir rest (S ix_label)
  end.

(** A label folder the cell can read: it is listed, and each of its [.png]
    files is an image. *)
Definition readable (dir label_str : string) : Prop :=
  exists files,
    os_listdir (posix_join dir label_str) = Some files
    /\ forall filename, filename ∈ files -> endswith filename ".png" = true ->
       is_Some (load_image (image_path dir label_str filename)).

End loading.

(** One row of [to_categorical(y, num_classes)]: a 1 at position [y] of a row
    of zeros; IndexError ([None]) for a class out of range. *)
Definition one_hot (num_classes y : nat) : option (list Z) :=
  if y <? num_classes then Some (<[y := 1%Z]> (replicate num_classes 0%Z)) else None.

(** [tf.keras.utils.to_categorical(y, num_classes)].  A [num_classes] of 0
    counts as not given ([if not num_classes]): the number of classes is then
    [np.max(y) + 1], and [np.max] of an empty [y] is a ValueError. *)
Definition to_categorical (y : list nat) (num_classes : nat) : option (list (list Z)) :=
  num_classes ← (if num_classes =? 0
                 then match y with
                      | [] => None
                      | _ :: _ => Some (max_list y + 1)
                      end
                 else Some num_classes);
  mapM (one_hot num_classes) y.

(** [np.argmax(row)]: the position of the first largest item; ValueError
    ([None]) on an empty row. *)
Fixpoint argmax_from (row : list Z) (ix best_ix : nat) (best : Z) : nat :=
  match row with
  | [] => best_ix
  | v :: rest =>
      if (best <? v)%Z then argmax_from rest (S ix) ix v
      else argmax_from rest (S ix) best_ix best
  end.

Definition argmax (row : list Z) : option nat :=
  match row with
  | [] => None
  | v :: rest => Some (argmax_from rest 1 0 v)
  end.

End MnistData.

(** ** The PyTorch notebook: the dataset and the shapes through the network *)

Module TorchNotebook.

(** [class Dataset]. *)
Record Dataset (A B : Type) := mk_Dataset { data : list A; labels : list B }.
Arguments mk_Dataset {A B} _ _.
Arguments data {A B} _.
Arguments labels {A B} _.

(** [Dataset.__len__]. *)
Definition len {A B} (ds : Dataset A B) : nat := length (data ds).

(** [Dataset.__getitem__(index)] for an index from 0: IndexError ([None]) when
    the data or the labels have no such item. *)
Definition getitem {A B} (ds : Dataset A B) (index : nat) : option (A * B) :=
  X ← data ds !! index;
  y ← labels ds !! index;
  Some (X, y).

(** The shape of a tensor through each layer of [Net]; [None] is the
    RuntimeError of a layer that cannot take its input. *)

(** [nn.Embedding] on a tensor of indices: one row of the 2-D weight per
    index; an index that is no row of the weight is an IndexError. *)
Definition embedding_shape {F} (e : torch.Embedding F) (x : np.ndarray nat)
    : option (list nat) :=
  match np.shape (torch.weight e) with
  | [n; d] =>
      if forallb (fun index => index <? n) (np.data x)
      then Some (np.shape x ++ [d])
      else None
  | _ => None
  end.

(** [torch.transpose(x, 1, 2)]. *)
Definition transpose_1_2 (x : list nat) : option (list nat) :=
  match x with
  | b :: l :: e :: rest => Some (b :: e :: l :: rest)
  | _ => None
  end.

(** [nn.Conv1d(in_channels, out_channels, kernel_size)] on a batch. *)
Definition conv1d_shape (in_channels out_channels kernel_size : nat) (x : list nat)
    : option (list nat) :=
  match x with
  | [b; c; l] =>
      if (c =? in_channels) && (kernel_size <=? l)
      then Some [b; out_channels; l - kernel_size + 1]
      else None
  | _ => None
  end.

(** [nn.MaxPool1d(kernel_size)]: the stride is the kernel size; an output of
    length 0 is an error. *)
Definition max_pool1d_shape (kernel_size : nat) (x : list nat) : option (list nat) :=
  match x with
  | [b; c; l] =>
      if kernel_size <=? l then Some [b; c; (l - kernel_size) / kernel_size + 1] else None
  | _ => None
  end.

(** [nn.Flatten()]: all axes after the first become one. *)
Definition flatten_shape (x : list nat) : option (list nat) :=
  match x with
  | b :: d :: rest => Some [b; np.size_of (d :: rest)]
  | _ => None
  end.

(** [nn.Linear(in_features, out_features)] on a batch of vectors. *)
Definition linear_shape (in_features out_features : nat) (x : list nat) : option (list nat) :=
  match x with
  | [b; k] => if k =? in_features then Some [b; out_features] else None
  | _ => None
  end.

(** [Net.forward(x)] on a tensor of token indices: the shape of the result,
    layer by layer.  Dropout, relu and softmax keep the shape. *)
Definition forward_shape {F} (net : torch.Net F) (x : np.ndarray nat) : option (list nat) :=
  x ← embedding_shape (torch.embedding net) x;
  x ← transpose_1_2 x;
  x ← conv1d_shape (torch.conv1_in_channels net) 128 3 x;
  x ← max_pool1d_shape 5 x;
  x ← flatten_shape x;
  x ← linear_shape 896 128 x;
  linear_shape 128 (torch.fc2_out_features net) x.

End TorchNotebook.

(** ** The SageMaker notebooks: waiting for the tuning job *)

Module Hpo.
Import Py.

(** The [while] loop that polls the tuning job.  [responses] are the results
    of the successive [describe_hyper_parameter_tuning_job] calls: a status,
    or a raised exception.  The loop sleeps and prints a dash before every
    call but the first.  The result is [None] while the loop is still running
    when the responses end; otherwise how it ended, what it printed, and how
    many times it slept. *)
Fixpoint poll (responses : list (result string)) (hpo_state : option string)
    (printed : list string) (sleeps : nat)
    : option (result string * list string * nat) :=
  let go printed sleeps :=
    match responses with
    | [] => None
    | Ok status :: rest => poll rest (Some status) printed sleeps
    | Raise e :: _ => Some (Raise e, printed, sleeps)
    end in
  match hpo_state with
  | None => go printed sleeps
  | Some status =>
      if String.eqb status "InProgress"
      then go (printed ++ ["-"]) (S sleeps)
      else Some (Ok status, (printed ++ [(argparse.newline ++ "HPO state: " ++ status)%string])%list, sleeps)
  end.

(** The cell: [hpo_state = None], then the loop. *)
Definition wait_for_hpo (responses : list (result string))
    : option (result string * list string * nat) :=
  poll responses None [] 0.

End Hpo.

(** ** The script's arguments after parsing *)

Module ParsedArgs.
Import Py argparse.

(** [isinstance(v, int)] for [type=int], [isinstance(v, str)] for [type=str]. *)
Definition has_type (ty : arg_type) (v : value) : bool :=
  match ty, v with
  | TInt, VInt _ => true
  | TStr, VStr _ => true
  | _, _ => false
  end.

(** A token of the first pass whose action, if it has one, is registered in
    the parser under its option string. *)
Definition from_parser (p : parser) (tok : token) : Prop :=
  match tok with
  | Topt (Some a, os, _) _ => (os, a) ∈ p
  | _ => True
  end.

(** The destinations that the script's parser declares, with their types and
    defaults. *)
Definition declared (env : gmap string string) : list (string * arg_type * value) :=
  omap (fun '(_, a) =>
          match a with
          | Store dest ty d => Some (dest, ty, d)
          | Help => None
          end) (TrainingScript.script_parser env).

End ParsedArgs.


(** ** The PyTorch notebooks: the training log and the job's metrics *)

Module TorchLog.
Import Py TrainingScript.

(** The line [train] prints after each epoch:
    [f"epoch: {epoch}, train_loss: {running_loss / n_batches:.6f}"], the
    formatted loss being given as text. *)
Definition train_line (epoch : nat) (train_loss : string) : string :=
  "epoch: " ++ str_nat epoch ++ ", train_loss: " ++ train_loss.

(** The line [test] prints:
    [f"val_loss: {test_loss:.4f}, val_acc: {correct/len(...):.4f}"]. *)
Definition test_line (val_loss val_acc : string) : string :=
  "val_loss: " ++ val_loss ++ ", val_acc: " ++ val_acc.

(** What [train] prints over [for epoch in range(1, epochs + 1)], given the
    formatted values of each epoch. *)
Definition train_log (epochs : nat) (train_loss val_loss val_acc : nat -> string)
    : list string :=
  flat_map (fun epoch =>
              [train_line epoch (train_loss epoch);
               "Evaluating model";
               test_line (val_loss epoch) (val_acc epoch)])
           (seq 1 epochs).

(** A metric regex of the form [<label>([0-9\.]+)], matched at the start of
    [s]: what the group captures. *)
Definition match_metric_here (label s : string) : option string :=
  match strip_prefix label s with
  | Some after =>
      let '(number, _) := span_number after in
      if String.eqb number "" then None else Some number
  | None => None
  end.

(** [re.search(regex, line)]: the first position at which the regex matches. *)
Fixpoint search_metric (label line : string) : option string :=
  match match_metric_here label line with
  | Some number => Some number
  | None =>
      match line with
      | EmptyString => None
      | String _ t => search_metric label t
      end
  end.

(** The four [metric_definitions] of the estimator: name and label. *)
Definition metric_definitions : list (string * string) :=
  [("Epoch", "epoch: "); ("Train:Loss", "train_loss: ");
   ("Validation:Loss", "val_loss: "); ("Validation:Accuracy", "val_acc: ")].

(** The values of a metric in a log: one for each line its regex matches. *)
Definition metric_values (label : string) (log : list string) : list string :=
  omap (search_metric label) log.

(** A float written in fixed-point notation without a sign, as [:.4f] and
    [:.6f] write a finite value that is not negative: digits and dots only. *)
Definition fixed_point (t : string) : Prop :=
  t <> "" /\ span_number t = (t, "").

End TorchLog.


(** ** The Keras notebooks: the validation line and the job's metrics *)

Module KerasLog.
Import Py TrainingScript.

(** [sep.join(parts)]. *)
Fixpoint join (sep : string) (parts : list string) : string :=
  match parts with
  | [] => ""
  | [part] => part
  | part :: rest => part ++ sep ++ join sep rest
  end.

(** The line the evaluation cell prints:
    ["Validation results: " + "; ".join(f"{name}={score:.5f}" ...)], over the
    metric names of the model and the formatted scores. *)
Definition validation_line (metrics : list (string * string)) : string :=
  "Validation results: "
  ++ join "; " (List.map (fun '(name, score) => (name ++ "=" ++ score)%string) metrics).

(** The text after the first occurrence of [p] in [s]. *)
Fixpoint after_first (p s : string) : option string :=
  match strip_prefix p s with
  | Some rest => Some rest
  | None =>
      match s with
      | EmptyString => None
      | String _ t => after_first p t
      end
  end.

(** [<label>([0-9\.]+)] at the last position of [s] where it matches: what a
    greedy [.*] before it leaves to it. *)
Fixpoint last_match (label s : string) : option string :=
  match s with
  | EmptyString => None
  | String _ t =>
      match last_match label t with
      | Some number => Some number
      | None => TorchLog.match_metric_here label s
      end
  end.

(** [re.search("Validation.*<label>([0-9\.]+)", line)] on one line: the
    first [Validation], then the last match of the rest. *)
Definition search_validation (label line : string) : option string :=
  rest ← after_first "Validation" line;
  last_match label rest.

End KerasLog.


(** ** Small inputs for the cells above *)

Module Samples.

(** Two label folders; images stand for themselves as numbers.  The training
    folder of label 0 also holds a file that is no image. *)
Definition mnist_disk : MnistData.disk Z :=
  MnistData.mk_disk
    (list_to_map
       [("/tmp/mnist/training", ["1"; "0"]);
        ("/tmp/mnist/training/0", ["a.png"; "notes.txt"; "b.png"]);
        ("/tmp/mnist/training/1", ["c.png"]);
        ("/tmp/mnist/testing/0", ["d.png"]);
        ("/tmp/mnist/testing/1", ["e.png"])])
    (list_to_map
       [("/tmp/mnist/training/0/a.png", 10%Z);
        ("/tmp/mnist/training/0/b.png", 11%Z);
        ("/tmp/mnist/training/1/c.png", 12%Z);
        ("/tmp/mnist/testing/0/d.png", 13%Z);
        ("/tmp/mnist/testing/1/e.png", 14%Z)]).

(** Every such image has the shape of an MNIST digit. *)
#[global] Instance digit_shape : MnistData.Shaped Z := fun _ => [28; 28].

#[global, refine] Instance digit_arrays : MnistData.NpArray Z := {|
  MnistData.np_array := fun rows => Some rows;
|}.
Proof.
  - reflexivity.
  - by intros rows arr [= <-].
Defined.

(** The same folders when the testing directory lacks label 1. *)
Definition mnist_disk_without_test_folder : MnistData.disk Z :=
  MnistData.mk_disk (delete "/tmp/mnist/testing/1" (MnistData.dirs mnist_disk))
                    (MnistData.images mnist_disk).

(** Images as arrays of pixels, under a [numpy] release that raises
    ValueError for images of several shapes. *)
#[global] Instance pixel_shape : MnistData.Shaped (np.ndarray Z) := np.shape.

Definition same_shapes (rows : list (np.ndarray Z)) : bool :=
  match rows with
  | [] => true
  | a :: rest => forallb (fun b => bool_decide (np.shape b = np.shape a)) rest
  end.

#[global, refine] Instance strict_arrays : MnistData.NpArray (np.ndarray Z) := {|
  MnistData.np_array := fun rows => if same_shapes rows then Some rows else None;
|}.
Proof.
  - intros [|a rest] Huni; [reflexivity |].
    unfold same_shapes.
    replace (forallb _ rest) with true; [reflexivity |].
    symmetry. apply forallb_forall. intros b Hb.
    apply bool_decide_eq_true. apply Huni; [right; by apply list_elem_of_In | by left].
  - intros rows arr. destruct (same_shapes rows); [by intros [= <-] | discriminate].
Defined.

(** One label folder whose two training images differ in shape. *)
Definition ragged_disk : MnistData.disk (np.ndarray Z) :=
  MnistData.mk_disk
    (list_to_map
       [("/tmp/mnist/training", ["0"]);
        ("/tmp/mnist/training/0", ["a.png"; "b.png"]);
        ("/tmp/mnist/testing/0", ["c.png"])])
    (list_to_map
       [("/tmp/mnist/training/0/a.png", np.mk_ndarray [1; 2] [0; 255]%Z);
        ("/tmp/mnist/training/0/b.png", np.mk_ndarray [2; 1] [0; 255]%Z);
        ("/tmp/mnist/testing/0/c.png", np.mk_ndarray [1; 2] [255; 0]%Z)]).

(** [numpy]'s generator at a seed that reverses the order. *)
#[global, refine] Instance reversing_rng : Split.RandomState := {|
  Split.permutation := fun n => rev (seq 0 n);
|}.
Proof. intros n. symmetry. apply Permutation_rev. Defined.

(** Five padded headlines and their one-hot categories. *)
Definition headlines : list (list Z) :=
  [[4; 9; 0]; [7; 0; 0]; [5; 5; 2]; [1; 0; 0]; [8; 3; 0]]%Z.
Definition categories : list (list Z) :=
  [[1; 0]; [0; 1]; [0; 1]; [1; 0]; [0; 1]]%Z.

(** A training job's environment, and a command line that names the model
    directory itself. *)
Definition sagemaker_env : gmap string string :=
  <["SM_MODEL_DIR" := "/opt/ml/model"]>
    (<["SM_CHANNEL_TRAIN" := "/opt/ml/input/data/train"]> ∅).

Definition override_argv : list string := ["--model_dir"; "model/"; "extra"].

(** A Keras tokenizer fitted on two words; a word it has not seen is left
    out of the sequence. *)
Definition two_word_tokenizer : keras.Tokenizer := {|
  keras.text_to_sequence := fun text =>
    omap (fun w => if String.eqb w "rates" then Some 1%Z
                   else if String.eqb w "rise" then Some 2%Z
                   else None)
         (Toy.toy_split text);
|}.

(** A [numpy] release that raises OverflowError outside [int32]. *)
#[export, refine] Instance raising_numpy : keras.Numpy := {|
  keras.as_int32 := fun z =>
    if ((- 2 ^ 31 <=? z) && (z <? 2 ^ 31))%Z then Some z else None;
|}.
Proof.
  intros z [Hlow Hhigh].
  apply Z.leb_le in Hlow. apply Z.ltb_lt in Hhigh.
  rewrite Hlow, Hhigh. reflexivity.
Defined.

(** A torchtext tokenizer: the two special words, then the words of the
    documents in order; rows of three words. *)
Definition headline_field (docs : list string) : Headline.tokenizer_state :=
  let words := "<unk>" :: "<pad>" :: flat_map Toy.toy_split docs in
  Headline.mk_tokenizer Toy.toy_split "<pad>" 3
    (list_to_map (zip words (seq 0 (length words)))) (Some 0).

(** A session on one document, which then classifies a headline with a word
    the document does not have; the size of the vocabulary stands for the
    embedding matrix. *)
Definition headline_session : option (nat * list (list nat) * Headline.kernel) :=
  Headline.session headline_field (fun t => size (Headline.stoi t))
    ["rates rise"] ["rates fall"] (Headline.mk_kernel ∅ None []).

(** What that session computes, and the object that the global [tokenizer]
    holds at its end. *)
Definition headline_results : option (nat * list (list nat)) :=
  '(matrix, outputs, _) ← headline_session;
  Some (matrix, outputs).

Definition headline_tokenizer_at_end : option Headline.tokenizer_state :=
  '(_, _, k') ← headline_session;
  r ← Headline.tokenizer_var k';
  Headline.objects k' !! r.

End Samples.

(* ===================================================================== *)
(** * Part II: theorems *)
(* ===================================================================== *)

(** ** The MNIST data reduction *)

Section reduction.
Import MnistLocal.

Lemma slice_from_sublist {A} (k skip : nat) (l : list A) :
  sublist (slice_from k skip l) l.
Proof.
  revert skip. induction l as [|x l IH]; intros skip; simpl.
  - constructor.
  - destruct skip; [apply sublist_skip | apply sublist_cons]; apply IH.
Qed.

Lemma slice_from_two_length {A} (l : list A) :
  length (slice_from 2 0 l) = (length l + 1) / 2
  /\ length (slice_from 2 1 l) = length l / 2.
Proof.
  induction l as [|x l [IH0 IH1]].
  - split; reflexivity.
  - cbn [slice_from length Nat.sub]. rewrite IH0, IH1. split.
    + assert (H : S (length l) + 1 = length l + 1 * 2) by lia.
      rewrite H, Nat.div_add by lia. lia.
    + f_equal. lia.
Qed.

Lemma files_to_keep_length (files : list string) :
  length (files_to_keep files) = (length files + 1) / 2.
Proof. apply slice_from_two_length. Qed.

Lemma elem_of_sorted_glob (fs : gset string) (pattern : string -> bool) (f : string) :
  f ∈ sorted_glob fs pattern <-> f ∈ fs /\ pattern f = true.
Proof.
  unfold sorted_glob. rewrite merge_sort_Permutation.
  rewrite list_elem_of_In, filter_In, <- list_elem_of_In, elem_of_elements.
  reflexivity.
Qed.

Lemma NoDup_sorted_glob (fs : gset string) (pattern : string -> bool) :
  NoDup (sorted_glob fs pattern).
Proof.
  unfold sorted_glob. rewrite merge_sort_Permutation.
  apply NoDup_ListNoDup, List.NoDup_filter, NoDup_ListNoDup, NoDup_elements.
Qed.

(** Deleting distinct files that all exist never fails, and removes them. *)
Lemma remove_each_all (names : list string) (fs : gset string) :
  NoDup names -> (forall f, f ∈ names -> f ∈ fs) ->
  remove_each names fs = Some (fs ∖ list_to_set names).
Proof.
  revert fs. induction names as [|f names IH]; intros fs Hnd Hin; simpl.
  - f_equal. set_solver.
  - apply NoDup_cons in Hnd as [Hf Hnd]. unfold os_remove.
    destruct (decide (f ∈ fs)) as [_|Hno]; [|exfalso; apply Hno, Hin; left].
    rewrite IH; [f_equal; set_solver | done |].
    intros g Hg. apply elem_of_difference. split; [apply Hin; by right |].
    intros ->%elem_of_singleton. done.
Qed.

(** C8.  In the MNIST data-reduction cell, for every file system and pattern:
    the kept files being among the listed ones, the symmetric difference
    [set(files) ^ set(keep)] is the set difference; the deletion loop ends
    without error; among the files the pattern matches, exactly
    [files[::2]] remain, that is [ceil(n/2)] of the [n] listed; and no other
    file is touched. *)
Theorem reduction_keeps_every_second_file (fs : gset string) (pattern : string -> bool) :
  let files := sorted_glob fs pattern in
  let keep := files_to_keep files in
  sym_diff (list_to_set files) (list_to_set keep) = list_to_set files ∖ list_to_set keep
  /\ exists fs',
       reduce_dir fs pattern = Some fs'
       /\ (forall f, f ∈ fs' /\ pattern f = true <-> f ∈ keep)
       /\ list_to_set (sorted_glob fs' pattern) = (list_to_set keep : gset string)
       /\ size (list_to_set (sorted_glob fs' pattern) : gset string) = (length files + 1) / 2
       /\ (forall f, pattern f = false -> (f ∈ fs' <-> f ∈ fs)).
Proof.
  intros files keep.
  assert (Hsub : forall f, f ∈ keep -> f ∈ files).
  { intros f Hf. eapply elem_of_sublist; [exact Hf | apply slice_from_sublist]. }
  assert (Hnd : NoDup keep).
  { eapply sublist_NoDup; [apply NoDup_sorted_glob | apply slice_from_sublist]. }
  assert (Hsym : sym_diff (list_to_set files) (list_to_set keep)
                 = list_to_set files ∖ list_to_set keep).
  { unfold sym_diff. apply set_eq. intros f.
    rewrite elem_of_union, !elem_of_difference, !elem_of_list_to_set. naive_solver. }
  split; [exact Hsym |].
  exists (fs ∖ (list_to_set files ∖ list_to_set keep)).
  assert (Hrun : reduce_dir fs pattern = Some (fs ∖ (list_to_set files ∖ list_to_set keep))).
  { unfold reduce_dir. fold files. fold keep. rewrite Hsym.
    rewrite remove_each_all.
    - by rewrite list_to_set_elements_L.
    - apply NoDup_elements.
    - intros f. rewrite elem_of_elements, elem_of_difference, elem_of_list_to_set.
      intros [Hf _]. apply elem_of_sorted_glob in Hf. tauto. }
  assert (Hkeep : forall f,
             f ∈ fs ∖ (list_to_set files ∖ list_to_set keep) /\ pattern f = true <-> f ∈ keep).
  { intros f. rewrite !elem_of_difference, !elem_of_list_to_set.
    unfold files at 1. rewrite elem_of_sorted_glob. split.
    - intros [[Hfs Hnot] Hp]. destruct (decide (f ∈ keep)) as [|Hk]; [done |].
      exfalso. apply Hnot. split; [split; done | done].
    - intros Hk. pose proof (Hsub f Hk) as Hf. apply elem_of_sorted_glob in Hf as [Hfs Hp].
      split; [split; [done | tauto] | done]. }
  assert (Hset : list_to_set (sorted_glob (fs ∖ (list_to_set files ∖ list_to_set keep)) pattern)
                 = (list_to_set keep : gset string)).
  { apply set_eq. intros f. rewrite !elem_of_list_to_set, elem_of_sorted_glob. apply Hkeep. }
  split; [exact Hrun |]. split; [exact Hkeep |]. split; [exact Hset |]. split.
  - rewrite Hset, size_list_to_set by exact Hnd. apply files_to_keep_length.
  - intros f Hp. rewrite !elem_of_difference, !elem_of_list_to_set.
    unfold files at 1. rewrite elem_of_sorted_glob. split; [tauto |].
    intros Hf. split; [done |]. intros [[_ Hp'] _]. congruence.
Qed.

End reduction.

(** ** The channel-expansion cell *)

Section channels.
Import MnistLocal.
Context {A : Type}.

Lemma size_of_app (s1 s2 : list nat) :
  np.size_of (s1 ++ s2) = np.size_of s1 * np.size_of s2.
Proof.
  induction s1 as [|n s1 IH]; simpl.
  - lia.
  - rewrite IH. lia.
Qed.

Lemma expand_dims_last (a : np.ndarray A) :
  np.expand_dims a (length (np.shape a))
  = Some (np.mk_ndarray (np.shape a ++ [1]) (np.data a)).
Proof.
  unfold np.expand_dims. rewrite Nat.leb_refl.
  by rewrite firstn_all, skipn_all.
Qed.

(** The [else] branch does what the cell is for: row [i] of the new [x_test]
    is the [i]-th loaded test image with its channel axis, and [x_train] plays
    no part in it. *)
Lemma channels_last_keeps_rows (x_train x_test x_train1 x_test1 img : np.ndarray A) (i : nat) :
  expand_channel_dim channels_last x_train x_test = Some (x_train1, x_test1) ->
  np.row x_test i = Some img ->
  np.row x_test1 i = np.expand_dims img (image_channel_axis channels_last x_test).
Proof.
  unfold expand_channel_dim. rewrite !expand_dims_last. intros [= _ <-].
  unfold np.row. cbn [np.shape np.data].
  destruct (np.shape x_test) as [|n rest] eqn:Hs; [discriminate |].
  cbn [app]. destruct (i <? n); [|discriminate]. intros [= <-].
  unfold image_channel_axis. rewrite Hs.
  replace (length (n :: rest) - 1) with (length rest) by (simpl; lia).
  pose proof (expand_dims_last (np.mk_ndarray rest
    (firstn (np.size_of rest) (skipn (i * np.size_of rest) (np.data x_test))))) as E.
  cbn [np.shape np.data] in E. rewrite E.
  rewrite size_of_app. cbn [np.size_of fold_right]. by rewrite !Nat.mul_1_r.
Qed.

(** The [if] branch never reads [x_test]. *)
Lemma channels_first_ignores_x_test (x_train x_test x_test' : np.ndarray A) :
  expand_channel_dim channels_first x_train x_test
  = expand_channel_dim channels_first x_train x_test'.
Proof. reflexivity. Qed.

End channels.

(** C1, at a failing input.  With [channels_first], two loaded training images
    and one loaded test image, the cell's [x_test] is the twice-expanded
    [x_train]: five axes, two rows, the training pixels; its row 0 is not the
    channel-expanded test image 0, and [y_test] still has one label. *)
Theorem channels_first_builds_x_test_from_x_train :
  exists x_train1 x_test1,
    MnistLocal.expand_channel_dim MnistLocal.channels_first
      MnistLocal.two_black_images MnistLocal.one_white_image = Some (x_train1, x_test1)
    /\ np.shape x_test1 = [2; 1; 1; 28; 28]
    /\ np.data x_test1 = np.data MnistLocal.two_black_images
    /\ np.n_rows x_test1 <> np.n_rows MnistLocal.one_white_image
    /\ np.row x_test1 0
       <> (np.row MnistLocal.one_white_image 0 ≫= fun img =>
           np.expand_dims img
             (MnistLocal.image_channel_axis MnistLocal.channels_first
                MnistLocal.one_white_image)).
Proof.
  eexists _, _. split; [reflexivity |].
  split; [reflexivity |]. split; [reflexivity |].
  split; [vm_compute; discriminate |].
  vm_compute. discriminate.
Qed.

(** ** The dataset splits *)

Section splits.
Import Split.
Context {rng : RandomState} {A B : Type}.

Lemma permutation_length (n : nat) : length (permutation n) = n.
Proof. rewrite permutation_range. apply length_seq. Qed.

Lemma permutation_in_range (n i : nat) : i ∈ permutation n -> i < n.
Proof. rewrite permutation_range, elem_of_seq. lia. Qed.

(** Indexing by indices in range never fails and gives a row per index. *)
Lemma safe_indexing_in_range {C} (a : list C) (indices : list nat) :
  (forall i, i ∈ indices -> i < length a) ->
  exists rows, safe_indexing a indices = Some rows /\ length rows = length indices.
Proof.
  intros Hin. unfold safe_indexing.
  destruct (mapM (fun i => a !! i) indices) as [rows|] eqn:E.
  - exists rows. split; [done |]. symmetry. by eapply length_mapM.
  - exfalso. apply mapM_None in E. apply Exists_exists in E as (i & Hi & Hnone).
    apply lookup_ge_None in Hnone. specialize (Hin i Hi). lia.
Qed.

Lemma ceil_mul_le (r : fraction) (n : nat) :
  0 < num r -> num r < den r -> ceil_mul r n <= n.
Proof.
  intros H0 H1. unfold ceil_mul.
  apply Nat.lt_succ_r, Nat.Div0.div_lt_upper_bound; nia.
Qed.

(** What the split returns, for any proper test size. *)
Lemma train_test_split_sizes (X : list A) (y : list B) (r : fraction) :
  0 < num r -> num r < den r ->
  match train_test_split X y r with
  | Some (X_train, X_test, y_train, y_test) =>
      length X_test = ceil_mul r (length X)
      /\ length X_train + length X_test = length X
      /\ length y_train = length X_train
      /\ length y_test = length X_test
      /\ length X = length y
      /\ 0 < length X_train
  | None => length X <> length y \/ length X - ceil_mul r (length X) = 0
  end.
Proof.
  intros H0 H1. unfold train_test_split.
  destruct (Nat.eqb_spec (length X) (length y)) as [Hlen|Hlen]; cbn [negb]; [|by left].
  unfold validate_shuffle_split.
  destruct (Nat.eqb_spec (num r) 0) as [|_]; [lia |].
  destruct (Nat.leb_spec (den r) (num r)) as [|_]; [lia |]. cbn [orb].
  pose proof (ceil_mul_le r (length X) H0 H1) as Hle.
  set (n_test := ceil_mul r (length X)) in *.
  destruct (Nat.ltb_spec (length X) (length X - n_test + n_test)) as [|_]; [lia |].
  destruct (Nat.eqb_spec (length X - n_test) 0) as [Hz|Hz]; [by right |].
  pose proof (permutation_length (length X)) as Hperm.
  assert (Htest : forall i, i ∈ take n_test (permutation (length X)) -> i < length X).
  { intros i Hi. apply permutation_in_range.
    eapply elem_of_sublist; [exact Hi | apply sublist_take]. }
  assert (Htrain : forall i,
             i ∈ take (length X - n_test) (drop n_test (permutation (length X))) ->
             i < length X).
  { intros i Hi. apply permutation_in_range.
    eapply elem_of_sublist; [exact Hi |].
    etrans; [apply sublist_take | apply sublist_drop]. }
  destruct (safe_indexing_in_range X _ Htrain) as (X_train & -> & LXtr).
  destruct (safe_indexing_in_range X _ Htest) as (X_test & -> & LXte).
  assert (Htrain' : forall i,
             i ∈ take (length X - n_test) (drop n_test (permutation (length X))) ->
             i < length y) by (intros; rewrite <- Hlen; auto).
  assert (Htest' : forall i, i ∈ take n_test (permutation (length X)) -> i < length y)
    by (intros; rewrite <- Hlen; auto).
  destruct (safe_indexing_in_range y _ Htrain') as (y_train & -> & Lytr).
  destruct (safe_indexing_in_range y _ Htest') as (y_test & -> & Lyte).
  cbn. rewrite length_take, length_drop in LXtr, Lytr. rewrite length_take in LXte, Lyte.
  lia.
Qed.

Lemma ceil_mul_pos (r : fraction) (n : nat) :
  0 < num r -> 0 < den r -> 0 < n -> 0 < ceil_mul r n.
Proof.
  intros H0 H1 Hn. unfold ceil_mul.
  apply Nat.div_str_pos. nia.
Qed.

Lemma ceil_quarter (n : nat) : n - ceil_mul quarter n = 0 -> n < 2.
Proof.
  unfold ceil_mul, quarter. cbn [num den]. intros H.
  destruct (Nat.lt_ge_cases n 2) as [|Hge]; [done |].
  assert ((1 * n + 4 - 1) / 4 < n) by (apply Nat.Div0.div_lt_upper_bound; lia). lia.
Qed.

Lemma ceil_fifth (n : nat) : n - ceil_mul fifth n = 0 -> n < 2.
Proof.
  unfold ceil_mul, fifth. cbn [num den]. intros H.
  destruct (Nat.lt_ge_cases n 2) as [|Hge]; [done |].
  assert ((1 * n + 5 - 1) / 5 < n) by (apply Nat.Div0.div_lt_upper_bound; lia). lia.
Qed.

(** C2, as amended.  Each split cell raises exactly when the data and the
    targets differ in length or there are fewer than two rows; otherwise it
    returns a train part and a test part whose row counts add up to the
    input's, for the data and for the targets alike. *)
Theorem split_cells_preserve_row_count (data : list A) (target : list B) :
  match boston_split_cell data target with
  | Some (trainX, testX) =>
      length trainX + length testX = length data
      /\ length (trainX.*2) + length (testX.*2) = length target
      /\ length data = length target
      /\ 2 <= length data
  | None => length data <> length target \/ length data < 2
  end
  /\ match news_split_cell data target with
     | Some (x_train, x_test, y_train, y_test) =>
         length x_train + length x_test = length data
         /\ length y_train + length y_test = length target
         /\ length data = length target
         /\ 2 <= length data
     | None => length data <> length target \/ length data < 2
     end.
Proof.
  split.
  - unfold boston_split_cell.
    pose proof (train_test_split_sizes data target quarter) as H.
    destruct (train_test_split data target quarter) as [[[[X_train X_test] y_train] y_test]|].
    + destruct H as (H1 & H2 & H3 & H4 & H5 & H6); [cbn; lia | cbn; lia |].
      cbn. unfold with_target.
      rewrite <- H3, Nat.eqb_refl. cbn. rewrite <- H4, Nat.eqb_refl. cbn.
      rewrite !length_fmap, !length_zip.
      assert (0 < length X_test).
      { rewrite H1. apply ceil_mul_pos; cbn; lia. }
      lia.
    + cbn. destruct H as [H|H]; [cbn; lia | cbn; lia | by left |].
      right. by apply ceil_quarter.
  - unfold news_split_cell.
    pose proof (train_test_split_sizes data target fifth) as H.
    destruct (train_test_split data target fifth) as [[[[X_train X_test] y_train] y_test]|].
    + destruct H as (H1 & H2 & H3 & H4 & H5 & H6); [cbn; lia | cbn; lia |].
      assert (0 < length X_test).
      { rewrite H1. apply ceil_mul_pos; cbn; lia. }
      lia.
    + destruct H as [H|H]; [cbn; lia | cbn; lia | by left |].
      right. by apply ceil_fifth.
Qed.

End splits.

(** C2, as stated, fails on a one-row dataset: the train part would be empty,
    and both cells raise instead of returning parts. *)
Lemma split_of_one_row_raises :
  Split.boston_split_cell (rng := Toy.identity_rng) [[6320; 18000]%Z] [24%Z] = None
  /\ Split.news_split_cell (rng := Toy.identity_rng) [[12; 7; 0]%Z] [[0; 0; 1; 0]%Z] = None.
Proof. split; reflexivity. Qed.

(** ** The training script *)

Section script_runs.
Import Py argparse TrainingScript.
Context {L : Libs}.

Lemma os_path_join_Ok (a b : value) (path : string) :
  os_path_join a b = Ok path ->
  exists a' b', a = VStr a' /\ b = VStr b' /\ path = posix_join a' b'.
Proof.
  destruct a as [| |a'|], b as [| |b'|]; try discriminate.
  intros [= <-]. eauto.
Qed.

(** One step of the script: case on the next call's result. *)
Ltac next_call :=
  match goal with
  | |- context [match ?r with Ok _ => _ | Raise _ => _ end] =>
      let E := fresh "E" in destruct r eqn:E
  | |- context [if os_can_write ?p then _ else _] =>
      let E := fresh "E" in destruct (os_can_write p) eqn:E
  end; cbv beta iota zeta.

(** A run stopped at a known site: name the sites before it. *)
Ltac stopped_at sites s :=
  split; [reflexivity |];
  exists sites, s; cbn [fs stdout trace]; split;
  [cbn [List.map app]; rewrite <- ?app_assoc; reflexivity
  | eexists; reflexivity].

(** Every run of the script either completes or stops at its first failing
    call. *)
Lemma main_run (argv : list string) (env : gmap string string) (w : world) :
  match main argv env w with
  | (Ok _, w') => completed argv env w w'
  | (Raise e, w') => stopped w e w'
  end.
Proof.
  destruct w as [files out calls].
  cbv beta iota zeta delta
    [main bindM call print ret print_percentile for_each joblib_dump fst snd outcome
     fs stdout trace].
  next_call; [|stopped_at (@nil site) at_parse_known_args].
  destruct a as [args extras].
  next_call; [|stopped_at [at_parse_known_args] at_join_train].
  next_call; [|stopped_at [at_parse_known_args; at_join_train] at_read_train].
  next_call; [|stopped_at [at_parse_known_args; at_join_train; at_read_train] at_join_test].
  next_call; [|stopped_at (take 4 program_order) at_read_test].
  next_call; [|stopped_at (take 5 program_order) at_split_features_train].
  next_call; [|stopped_at (take 6 program_order) at_select_train].
  next_call; [|stopped_at (take 8 program_order) at_select_test].
  next_call; [|stopped_at (take 9 program_order) at_target_train].
  next_call; [|stopped_at (take 10 program_order) at_target_test].
  next_call; [|stopped_at (take 11 program_order) at_fit].
  next_call; [|stopped_at (take 12 program_order) at_predict].
  next_call; [|stopped_at (take 13 program_order) at_abs_err].
  next_call; [|stopped_at (take 14 program_order) (at_percentile 10)].
  next_call; [|stopped_at (take 15 program_order) (at_percentile 50)].
  next_call; [|stopped_at (take 16 program_order) (at_percentile 90)].
  next_call; [|stopped_at (take 17 program_order) at_join_model].
  next_call; [|stopped_at (take 18 program_order) at_dump].
  match goal with
  | H : os_path_join (attr args "model_dir") _ = Ok ?p |- _ =>
      apply os_path_join_Ok in H as (d & b & Hd & [= <-] & ->)
  end.
  unfold completed. cbn [fs stdout trace].
  match goal with
  | Hparse : parse_known_args _ _ _ = Ok _,
    Htrain_path : os_path_join (attr args "train_dir") _ = Ok ?train_path,
    Htrain : pd_read_csv ?train_path _ = Ok ?train_df,
    Htest_path : os_path_join (attr args "test_dir") _ = Ok ?test_path,
    Htest : pd_read_csv ?test_path _ = Ok ?test_df,
    Hcols : str_split _ = Ok ?cols,
    HXtrain : df_select ?train_df ?cols = Ok ?X_train,
    HXtest : df_select ?test_df ?cols = Ok ?X_test,
    Hytrain : df_column ?train_df _ = Ok ?y_train,
    Hytest : df_column ?test_df _ = Ok ?y_test,
    Hfit : rf_fit _ _ ?X_train ?y_train = Ok ?model,
    Hpredict : rf_predict ?model ?X_test = Ok ?predictions,
    Habs : np_abs_diff ?predictions ?y_test = Ok ?abs_err,
    H10 : np_percentile ?abs_err 10 = Ok ?v10,
    H50 : np_percentile ?abs_err 50 = Ok ?v50,
    H90 : np_percentile ?abs_err 90 = Ok ?v90 |- _ =>
      exists args, extras, d, model, abs_err, v10, v50, v90;
      split; [exact Hparse |];
      split;
      [exists train_path, test_path, train_df, test_df, cols, X_train, X_test,
         y_train, y_test, predictions;
       repeat (split; [eassumption |]); exact Habs |];
      split; [exact H10 |]; split; [exact H50 |]; split; [exact H90 |]
  end.
  split; [exact Hd |]. split; [reflexivity |].
  split; [unfold printed_lines; rewrite <- ?app_assoc; reflexivity |].
  unfold program_order. cbn [List.map app]. rewrite <- ?app_assoc. reflexivity.
Qed.

End script_runs.

Section script_claims.
Import Py argparse TrainingScript.
Context {L : Libs}.

(** C3.  After every successful run of the script, the file
    [os.path.join(args.model_dir, "model.joblib")] exists and holds the model
    that [fit] returned; [model_fn] on the same directory joins the same path
    and returns that model; and no other file has changed. *)
Theorem model_file_exists_after_saving (argv : list string) (env : gmap string string)
    (w w' : world) :
  main argv env w = (Ok tt, w') ->
  exists args extras model_dir model X_train y_train,
    parse_known_args py_int (script_parser env) argv = Ok (args, extras)
    /\ rf_fit (attr args "n_estimators") (attr args "min_samples_leaf") X_train y_train
       = Ok model
    /\ attr args "model_dir" = VStr model_dir
    /\ fs w' !! posix_join model_dir "model.joblib" = Some (Pickled model)
    /\ model_fn (attr args "model_dir") (fs w') = Ok model
    /\ (forall path, path <> posix_join model_dir "model.joblib" ->
        fs w' !! path = fs w !! path).
Proof.
  intros Hrun. pose proof (main_run argv env w) as H. rewrite Hrun in H.
  destruct H as (args & extras & d & model & abs_err & v10 & v50 & v90
                 & Hargs & Hflow & _ & _ & _ & Hd & Hfs & _).
  destruct Hflow as (train_path & test_path & train_df & test_df & cols & X_train
                     & X_test & y_train & y_test & predictions
                     & _ & _ & _ & _ & _ & _ & _ & _ & _ & Hfit & _).
  exists args, extras, d, model, X_train, y_train.
  split; [exact Hargs |]. split; [exact Hfit |]. split; [exact Hd |].
  rewrite Hfs. split; [apply lookup_insert_eq |]. split.
  - rewrite Hd. unfold model_fn. cbn [os_path_join Py.bind]. unfold joblib_load.
    by rewrite lookup_insert_eq.
  - intros path Hne. by rewrite lookup_insert_ne.
Qed.

Lemma new_calls_app (w w' : world) (added : list (site * option exn)) :
  trace w' = trace w ++ added -> new_calls w w' = added.
Proof. unfold new_calls. intros ->. by rewrite drop_app_length. Qed.

(** C4.  In every run of the script: a call that raised [e] makes the script
    raise that same [e]; and when the script raises [e], the last call it made
    is the one that raised [e], every earlier call returned, the calls are the
    first sites of the program once each and in order (nothing is retried),
    and no file was written. *)
Theorem script_reraises_unchanged (argv : list string) (env : gmap string string)
    (w w' : world) (r : result unit) :
  main argv env w = (r, w') ->
  (forall s e, (s, Some e) ∈ new_calls w w' -> r = Raise e)
  /\ (forall e, r = Raise e -> stopped w e w').
Proof.
  intros Hrun. pose proof (main_run argv env w) as H. rewrite Hrun in H.
  destruct r as [[]|e'].
  - split; [|discriminate]. intros s e Hin. exfalso.
    destruct H as (? & ? & ? & ? & ? & ? & ? & ?
                   & _ & _ & _ & _ & _ & _ & _ & _ & Htr).
    rewrite (new_calls_app _ _ _ Htr) in Hin.
    by apply list_elem_of_fmap in Hin as (? & [=] & _).
  - split; [|by intros e [= <-]]. intros s e Hin.
    destruct H as (_ & returned & s' & Htr & _).
    rewrite (new_calls_app _ _ _ Htr) in Hin.
    apply elem_of_app in Hin as [Hin|Hin].
    + by apply list_elem_of_fmap in Hin as (? & [=] & _).
    + apply list_elem_of_singleton in Hin as [= _ ->]. reflexivity.
Qed.

Lemma strip_prefix_app (p s : string) : strip_prefix p (p ++ s) = Some s.
Proof.
  induction p as [|a p IH]; simpl; [reflexivity |].
  by rewrite Ascii.eqb_refl.
Qed.

Lemma search_median_here (line number : string) :
  match_median_here line = Some number -> search_median line = Some number.
Proof. intros H. destruct line; cbn [search_median]; by rewrite H. Qed.

(** When the text after the label starts with a number, the regex matches at
    the start of the line and captures the number. *)
Lemma search_median_number (text number tail : string) :
  span_number text = (number, tail) ->
  number <> "" ->
  rest_of_line tail = true ->
  search_median (median_label ++ text) = Some number.
Proof.
  intros Hspan Hne Htail.
  apply search_median_here.
  unfold match_median_here. rewrite strip_prefix_app, Hspan.
  destruct (String.eqb_spec number ""); [done |]. by rewrite Htail.
Qed.


End script_claims.

(** ** The script's parser *)

Section parser_claims.
Import Py argparse TrainingScript.
Variable py_int : string -> option Z.

Lemma consume_positionals (p : parser) (rest : list string) (ns : namespace)
    (extras : list string) :
  consume py_int p (List.map Tpos rest) ns extras = Ok (ns, extras ++ rest).
Proof.
  revert extras. induction rest as [|a rest IH]; intros extras; simpl.
  - by rewrite app_nil_r.
  - rewrite IH. by rewrite <- app_assoc.
Qed.

Lemma parse_optional_flag (p : parser) (flag : string) (a : action) :
  startswith flag "-" = true ->
  lookup_option p flag = Some a ->
  parse_optional p flag = Ok (Some (Some a, flag, None)).
Proof.
  intros Hdash Hlook. unfold parse_optional.
  destruct flag as [|c t]; [discriminate |].
  unfold startswith in Hdash. cbn [strip_prefix] in Hdash.
  destruct (Ascii.eqb "-" c) eqn:Hc; [|discriminate].
  apply Ascii.eqb_eq in Hc as <-. cbn [Ascii.eqb negb]. simpl negb.
  by rewrite Hlook.
Qed.

(** A partitioned argument vector passes both passes of the parser: the known
    flags are stored and the remainder is collected, in order. *)
Lemma partition_consumed (p : parser) (argv : list string)
    (known : list (string * value)) (extras : list string) :
  (forall flag a, lookup_option p flag = Some a ->
                  startswith flag "-" = true /\ flag <> "--") ->
  partition py_int p argv known extras ->
  exists toks,
    classify p argv = Ok toks
    /\ forall ns seen, consume py_int p toks ns seen = Ok (store_all known ns, seen ++ extras).
Proof.
  intros Hp Hpart.
  induction Hpart as [|rest|a argv known extras [Ha Hun] _ (toks & Hc & IH)
                      |flag dest ty d v x argv known extras Hlook [Hv Hpos] Hval _ (toks & Hc & IH)].
  - exists []. split; [reflexivity |]. intros ns seen. simpl. by rewrite app_nil_r.
  - exists (Tdashdash :: List.map Tpos rest). split; [reflexivity |].
    intros ns seen. cbn [consume]. rewrite consume_positionals.
    by rewrite <- app_assoc.
  - apply String.eqb_neq in Ha. destruct Hun as [Hun|Hun].
    + exists (Tpos a :: toks). split.
      * cbn [classify]. rewrite Ha, Hun. cbn [Py.bind]. by rewrite Hc.
      * intros ns seen. cbn [consume]. rewrite IH. by rewrite <- app_assoc.
    + exists (Topt (None, a, None) a :: toks). split.
      * cbn [classify]. rewrite Ha, Hun. cbn [Py.bind]. by rewrite Hc.
      * intros ns seen. cbn [consume]. rewrite IH. by rewrite <- app_assoc.
  - destruct (Hp _ _ Hlook) as [Hdash Hne].
    apply String.eqb_neq in Hne. apply String.eqb_neq in Hv.
    exists (Topt (Some (Store dest ty d), flag, None) flag :: Tpos v :: toks). split.
    + cbn [classify]. rewrite Hne, (parse_optional_flag _ _ _ Hdash Hlook).
      cbn [Py.bind]. rewrite Hv, Hpos. cbn [Py.bind]. by rewrite Hc.
    + intros ns seen. cbn [consume]. rewrite Hval. cbn [Py.bind]. apply IH.
Qed.

(** Every option string of the script's parser is a flag: it starts with a
    dash and is not the separator. *)
Lemma script_parser_flags (env : gmap string string) (flag : string) (a : action) :
  lookup_option (script_parser env) flag = Some a ->
  startswith flag "-" = true /\ flag <> "--".
Proof.
  unfold script_parser, add_argument, ArgumentParser. cbn [app lookup_option].
  repeat match goal with
         | |- context [String.eqb ?s flag] =>
             destruct (String.eqb_spec s flag) as [<-|_];
             [intros _; split; [reflexivity | discriminate] |]
         end.
  discriminate.
Qed.

(** A word without a leading dash is read as a positional. *)
Lemma plain_word_is_positional (p : parser) (v : string) :
  startswith v "-" = false -> positional p v.
Proof.
  intros Hplain. split.
  - intros ->. discriminate.
  - destruct v as [|c t]; [reflexivity |].
    unfold startswith in Hplain. cbn [strip_prefix] in Hplain.
    unfold parse_optional. rewrite Ascii.eqb_sym.
    by destruct (Ascii.eqb "-" c).
Qed.


End parser_claims.


(** A value with a leading dash is read as a flag, so [--features] is left
    without its argument and the parser exits, whatever the type would
    accept; a negative number is read as a value. *)
Example dashed_value_exits :
  argparse.parse_known_args Toy.toy_int (TrainingScript.script_parser ∅) ["--features"; "-x"]
  = Py.Raise (Py.SystemExit 2)
  /\ (args ← match argparse.parse_known_args Toy.toy_int (TrainingScript.script_parser ∅)
                   ["--features"; "-1"] with
             | Py.Ok (args, _) => Some args
             | Py.Raise _ => None
             end;
      args !! "features")
     = Some (Py.VStr "-1").
Proof. split; vm_compute; reflexivity. Qed.

(** ** The headline classifiers *)

Section padding.
Import keras Headline.

Context `{Numpy}.

Lemma as_int32_all (l : list Z) : Forall int32 l -> mapM as_int32 l = Some l.
Proof.
  intros Hall. apply mapM_Some, Forall2_same_length_lookup. split; [reflexivity |].
  intros i x y Hx Hy. rewrite Hx in Hy. injection Hy as <-.
  apply as_int32_in_range. by eapply Forall_lookup_1.
Qed.

(** A sequence of [int32] items, padded after and cut before. *)
Lemma pad_row_post_pre (maxlen : nat) (s : list Z) :
  Forall int32 s ->
  pad_row maxlen post pre 0 s
  = Some (drop (length s - maxlen) s
          ++ repeat 0%Z (maxlen - length (drop (length s - maxlen) s))).
Proof.
  intros Hall. unfold pad_row.
  rewrite as_int32_in_range by (unfold int32; lia). cbn [mbind option_bind].
  rewrite as_int32_all; [reflexivity |].
  by apply Forall_drop.
Qed.

(** C5.  For every fitted tokenizer and every text whose token indices fit
    the [int32] rows that [pad_sequences] writes, [classify] feeds the model
    one row of exactly 40 items: a sequence of at most 40 tokens followed by
    zeros (post-padding), or the last 40 tokens of a longer one. *)
Theorem classify_pads_to_forty (tokenizer : Tokenizer) (text : string) :
  Forall int32 (text_to_sequence tokenizer text) ->
  exists row,
    padded_example tokenizer text = Some [row]
    /\ length row = 40
    /\ (length (text_to_sequence tokenizer text) <= 40 ->
        row = text_to_sequence tokenizer text
              ++ repeat 0%Z (40 - length (text_to_sequence tokenizer text)))
    /\ (40 < length (text_to_sequence tokenizer text) ->
        row = drop (length (text_to_sequence tokenizer text) - 40)
                (text_to_sequence tokenizer text)).
Proof.
  intros Hall. unfold padded_example, pad_sequences, texts_to_sequences.
  cbn [List.map]. change (Pos.to_nat 40) with 40.
  eexists. split.
  { apply mapM_Some. constructor; [|constructor]. by apply pad_row_post_pre. }
  split; [rewrite length_app, repeat_length, length_drop; lia |].
  split; intros Hlen.
  - replace (length (text_to_sequence tokenizer text) - 40) with 0 by lia.
    by rewrite drop_0.
  - rewrite length_drop.
    replace (40 - (length (text_to_sequence tokenizer text)
                   - (length (text_to_sequence tokenizer text) - 40))) with 0 by lia.
    cbn [repeat]. by rewrite app_nil_r.
Qed.

End padding.

Section embeddings.
Import Headline.
Context {F : Type}.

(** In a well-formed [v] × [d] matrix every row below [v] exists and has [d]
    entries. *)
Lemma matrix_row (M : np.ndarray F) (v d i : nat) :
  np.shape M = [v; d] -> np.well_formed M -> i < v ->
  exists vec, np.row M i = Some vec /\ np.shape vec = [d] /\ length (np.data vec) = d.
Proof.
  intros Hs Hwf Hi. unfold np.row. rewrite Hs.
  destruct (Nat.ltb_spec i v) as [_|]; [|lia].
  eexists. split; [reflexivity |]. split; [reflexivity |].
  cbn [np.data np.size_of fold_right].
  unfold np.well_formed in Hwf. rewrite Hs in Hwf. cbn [np.size_of fold_right] in Hwf.
  rewrite length_take, length_drop. nia.
Qed.

(** C6.  For every well-formed [v] × [d] embedding matrix with at least one
    word and one dimension: the network that [train] sets up has
    [vocab_size = v], [emb_dim = d] and the matrix as its embedding weight;
    the Keras [Embedding] layer is built with sizes [v] and [d] and the matrix
    as its weights; and in both every token index below [v] looks up a vector
    of [d] entries. *)
Theorem models_follow_the_matrix_shape (initial_weight : nat -> nat -> np.ndarray F)
    (embedding_matrix : np.ndarray F) (v d num_classes : nat) :
  np.shape embedding_matrix = [v; d] ->
  np.well_formed embedding_matrix ->
  0 < v -> 0 < d ->
  (exists model,
     train_setup initial_weight embedding_matrix num_classes = Some model
     /\ torch.num_embeddings (torch.embedding model) = v
     /\ torch.embedding_dim (torch.embedding model) = d
     /\ torch.conv1_in_channels model = d
     /\ torch.weight (torch.embedding model) = embedding_matrix
     /\ forall i, i < v ->
          exists vec, torch.lookup (torch.embedding model) i = Some vec
                      /\ np.shape vec = [d] /\ length (np.data vec) = d)
  /\ (exists layer,
        embed_layer embedding_matrix = Some layer
        /\ keras.input_dim layer = v
        /\ keras.output_dim layer = d
        /\ keras.embeddings layer = embedding_matrix
        /\ forall i, i < v ->
             exists vec, keras.lookup layer i = Some vec
                         /\ np.shape vec = [d] /\ length (np.data vec) = d).
Proof.
  intros Hs Hwf Hv Hd. split.
  - unfold train_setup, shape_at. rewrite Hs. cbn.
    eexists. split; [reflexivity |]. cbn.
    repeat (split; [reflexivity |]).
    intros i Hi. unfold torch.lookup. cbn. by apply (matrix_row _ v d).
  - unfold embed_layer, shape_at. rewrite Hs. cbn.
    unfold keras.build_Embedding.
    destruct (Nat.eqb_spec v 0) as [|_]; [lia |].
    destruct (Nat.eqb_spec d 0) as [|_]; [lia |]. cbn [orb].
    rewrite decide_True by exact Hs.
    eexists. split; [reflexivity |]. cbn.
    repeat (split; [reflexivity |]).
    intros i Hi. unfold keras.lookup. cbn. by apply (matrix_row _ v d).
Qed.

End embeddings.

Section tokenizer.
Import Headline.
Context {E : Type}.
Variable build_tokenizer : list string -> tokenizer_state.
Variable embeddings_of : tokenizer_state -> E.

Lemma grown_refl (t : tokenizer_state) : grown t t [].
Proof. unfold grown. repeat split; try done. intros w i Hw. by left. Qed.

Lemma grown_more (t t' : tokenizer_state) (added more : list string) :
  grown t t' added -> grown t t' (added ++ more).
Proof.
  intros (Hpre & Hpad & Hfix & Hunk & Hkeep & Hnew). repeat split; try done.
  intros w i Hw. destruct (Hnew w i Hw) as [|(? & ? & ?)]; [by left |].
  right. repeat split; try done. apply elem_of_app. by left.
Qed.

(** Growing a mapping changes no look-up. *)
Lemma grown_lookup_index (t t' : tokenizer_state) (added : list string) (w : string) :
  grown t t' added -> lookup_index t' w = lookup_index t w.
Proof.
  intros (_ & _ & _ & Hunk & Hkeep & Hnew). unfold lookup_index.
  destruct (stoi t' !! w) as [i|] eqn:E'.
  - destruct (Hnew w i E') as [-> | (-> & -> & _)]; reflexivity.
  - destruct (stoi t !! w) as [i|] eqn:E0; [|exact Hunk].
    apply Hkeep in E0. congruence.
Qed.

(** One look-up: the index the mapping had for the word when built, and the
    mapping grown by the word at most; a KeyError when it had none. *)
Lemma stoi_getitem_grown (t t1 : tokenizer_state) (added : list string) (w : string) :
  grown t t1 added ->
  match lookup_index t w with
  | Some i => exists t2, stoi_getitem w t1 = Some (i, t2) /\ grown t t2 (added ++ [w])
  | None => stoi_getitem w t1 = None
  end.
Proof.
  intros Hg. pose proof (grown_lookup_index t t1 added w Hg) as Hlook.
  rewrite <- Hlook. unfold stoi_getitem, lookup_index.
  destruct (stoi t1 !! w) as [i|] eqn:E1.
  - exists t1. split; [reflexivity | by apply grown_more].
  - destruct (unk_index t1) as [unk|] eqn:Eunk; [|reflexivity].
    eexists. split; [reflexivity |].
    destruct Hg as (Hpre & Hpad & Hfix & Hunk & Hkeep & Hnew).
    repeat split; cbn [stoi unk_index fix_length pad_token preprocess]; try done.
    + congruence.
    + intros w' i' Hw'. destruct (decide (w' = w)) as [->|Hne].
      * apply Hkeep in Hw'. congruence.
      * rewrite lookup_insert_ne by done. by apply Hkeep.
    + intros w' i'. destruct (decide (w' = w)) as [->|Hne].
      * rewrite lookup_insert_eq. intros [= <-]. right.
        split; [|split; [congruence | apply elem_of_app; right; by left]].
        destruct (stoi t !! w) as [i|] eqn:E0; [|reflexivity].
        apply Hkeep in E0. congruence.
      * rewrite lookup_insert_ne by done. intros Hw'.
        destruct (Hnew w' i' Hw') as [|(? & ? & ?)]; [by left |].
        right. repeat split; try done. apply elem_of_app. by left.
Qed.

(** The loop of look-ups: the indices the mapping had when built, and the
    mapping grown by the words looked up at most; a KeyError when a word had
    no index. *)
Lemma numericalize_grown (ws : list string) (t t1 : tokenizer_state) (added : list string) :
  grown t t1 added ->
  match mapM (lookup_index t) ws with
  | Some final_text =>
      exists t2, numericalize ws t1 = Some (final_text, t2) /\ grown t t2 (added ++ ws)
  | None => numericalize ws t1 = None
  end.
Proof.
  revert t1 added. induction ws as [|w ws IH]; intros t1 added Hg.
  - cbn. exists t1. by rewrite app_nil_r.
  - cbn [numericalize]. csimpl.
    pose proof (stoi_getitem_grown t t1 added w Hg) as Hw.
    destruct (lookup_index t w) as [i|]; csimpl.
    + destruct Hw as (t2 & -> & Hg2).
      specialize (IH t2 (added ++ [w]) Hg2).
      destruct (mapM (lookup_index t) ws) as [final_text|]; csimpl.
      * destruct IH as (t3 & -> & Hg3). exists t3. split; [reflexivity |].
        by rewrite <- app_assoc in Hg3.
      * by rewrite IH.
    + by rewrite Hw.
Qed.

(** The [classify] calls of a session: each is given what the global
    [tokenizer] holds, its indices are those of the tokenizer as built, and
    the object grows by words of the texts at most. *)
Lemma classify_all_grown (texts : list string) (k : kernel) (r : ref)
    (t t1 : tokenizer_state) (added : list string) :
  tokenizer_var k = Some r ->
  objects k !! r = Some t1 ->
  grown t t1 added ->
  match mapM (encode t) texts with
  | Some outputs =>
      exists t2,
        classify_all texts k
        = Some (outputs,
                mk_kernel (<[r := t2]> (objects k)) (Some r)
                  (given k ++ repeat r (length texts)))
        /\ grown t t2 (added ++ flat_map (padded t) texts)
  | None => classify_all texts k = None
  end.
Proof.
  revert k t1 added. induction texts as [|text texts IH]; intros k t1 added Hvar Hobj Hg.
  - cbn. exists t1. rewrite !app_nil_r, insert_id by done.
    split; [|done]. destruct k. cbn in *. by rewrite Hvar.
  - cbn [classify_all]. unfold classify_indices. rewrite Hvar. cbn [mbind option_bind].
    rewrite Hobj. cbn [mbind option_bind].
    assert (Hpad : padded t1 text = padded t text).
    { unfold padded. by destruct Hg as (-> & -> & -> & _). }
    rewrite Hpad.
    change (mapM (encode t) (text :: texts))
      with (y ← encode t text;
            rows ← mapM (encode t) texts;
            Some (y :: rows)).
    pose proof (numericalize_grown (padded t text) t t1 added Hg) as Hrow.
    change (mapM (lookup_index t) (padded t text))
      with (encode t text) in Hrow.
    destruct (encode t text) as [final_text|]; cbn [mbind option_bind].
    + destruct Hrow as (t2 & -> & Hg2). cbn [mbind option_bind].
      specialize (IH (mk_kernel (<[r := t2]> (objects k)) (Some r) (given k ++ [r]))
                    t2 (added ++ padded t text)
                    eq_refl (lookup_insert_eq _ _ _) Hg2).
      destruct (mapM (encode t) texts) as [outputs|]; cbn [mbind option_bind].
      * destruct IH as (t3 & -> & Hg3). exists t3. cbn [objects tokenizer_var given].
        rewrite insert_insert_eq, <- !app_assoc. split; [reflexivity |].
        cbn [flat_map]. by rewrite <- app_assoc in Hg3.
      * by rewrite IH.
    + by rewrite Hrow.
Qed.

(** With an unknown index every word has an index. *)
Lemma encode_total (t : tokenizer_state) (texts : list string) :
  is_Some (unk_index t) -> is_Some (mapM (encode t) texts).
Proof.
  intros [unk Hunk].
  assert (Hrow : forall ws, is_Some (mapM (lookup_index t) ws)).
  { intros ws. induction ws as [|w ws [row IH]]; [by eexists |].
    change (mapM (lookup_index t) (w :: ws))
      with (y ← lookup_index t w; row ← mapM (lookup_index t) ws; Some (y :: row)).
    rewrite IH. unfold lookup_index. rewrite Hunk.
    destruct (stoi t !! w); by eexists. }
  induction texts as [|text texts [rows IH]]; [by eexists |].
  change (mapM (encode t) (text :: texts))
    with (y ← encode t text;
          rows ← mapM (encode t) texts;
          Some (y :: rows)).
  rewrite IH. destruct (Hrow (padded t text)) as [row Hr].
  unfold encode. rewrite Hr. by eexists.
Qed.


End tokenizer.

(** ** The claims on concrete runs *)

Section concrete.
Import Py argparse TrainingScript Toy.

(** The local run completes. *)
Lemma local_run_completes :
  main local_argv ∅ (start local_files) = (Ok tt, snd local_run).
Proof.
  unfold local_run.
  rewrite (surjective_pairing (main local_argv ∅ (start local_files))) at 1.
  f_equal.
Defined.

(** The local run of the notebook ends with the model file in place. *)
Lemma model_file_exists_after_local_run :
  exists args extras model_dir model X_train y_train,
    parse_known_args py_int (script_parser ∅) local_argv = Ok (args, extras)
    /\ rf_fit (attr args "n_estimators") (attr args "min_samples_leaf") X_train y_train
       = Ok model
    /\ attr args "model_dir" = VStr model_dir
    /\ fs (snd local_run) !! posix_join model_dir "model.joblib" = Some (Pickled model)
    /\ model_fn (attr args "model_dir") (fs (snd local_run)) = Ok model
    /\ (forall path, path <> posix_join model_dir "model.joblib" ->
        fs (snd local_run) !! path = fs (start local_files) !! path).
Proof.
  apply (model_file_exists_after_saving local_argv ∅ (start local_files) (snd local_run)).
  exact local_run_completes.
Defined.

(** A bad file path: [pd.read_csv] raises FileNotFoundError, and so does the
    script, having made three calls and written nothing. *)
Lemma missing_train_file_stops_the_script :
  fst run_without_train_file = Raise (Exception "FileNotFoundError" "data/boston_train.csv")
  /\ stopped (start (<["data/boston_test.csv" := Bytes test_csv]> ∅))
       (Exception "FileNotFoundError" "data/boston_train.csv")
       (snd run_without_train_file).
Proof.
  split; [vm_compute; reflexivity |].
  refine (proj2 (script_reraises_unchanged local_argv ∅
                   (start (<["data/boston_test.csv" := Bytes test_csv]> ∅))
                   (snd run_without_train_file) (fst run_without_train_file) _) _ _).
  - unfold run_without_train_file. apply surjective_pairing.
  - vm_compute. reflexivity.
Defined.




(** A median below 0.0001 is printed in scientific notation: the regex matches,
    and the group holds the digits before the exponent. *)
Example scientific_notation_is_cut :
  search_median "AE-at-50th-percentile: 1e-05" = Some "1".
Proof. reflexivity. Qed.

(** The failures the spec names, each on a run: malformed data, a training
    exception, a missing [--features], a missing [--target_variable]. *)
Example malformed_data_propagates :
  fst (main local_argv ∅
         (start (<["data/boston_train.csv" := Bytes "not,a,table"]> local_files)))
  = Raise (Exception "ParserError" "Error tokenizing data").
Proof. vm_compute. reflexivity. Qed.

Example training_exception_propagates :
  fst (main local_argv ∅
         (start (<["data/boston_train.csv" := Bytes test_csv_missing_target]> local_files)))
  = Raise (Exception "ValueError" "Input contains NaN or bad parameters").
Proof. vm_compute. reflexivity. Qed.

Example missing_features_propagates :
  fst (main ["--train_dir"; "data/"; "--test_dir"; "data/"; "--target_variable"; "target"]
         ∅ (start local_files))
  = Raise (Exception "AttributeError" "object has no attribute 'split'").
Proof. vm_compute. reflexivity. Qed.

Example missing_target_variable_propagates :
  fst (main ["--train_dir"; "data/"; "--test_dir"; "data/"; "--features"; "x"]
         ∅ (start local_files))
  = Raise (Exception "KeyError" "None").
Proof. vm_compute. reflexivity. Qed.

End concrete.

(** A headline of two known words: the row is their indices and 38 zeros. *)
Lemma two_words_padded_to_forty :
  exists row,
    @Headline.padded_example Samples.raising_numpy Samples.two_word_tokenizer "rates rise"
    = Some [row]
    /\ length row = 40
    /\ (length (keras.text_to_sequence Samples.two_word_tokenizer "rates rise") <= 40 ->
        row = keras.text_to_sequence Samples.two_word_tokenizer "rates rise"
              ++ repeat 0%Z
                   (40 - length (keras.text_to_sequence Samples.two_word_tokenizer
                                   "rates rise")))
    /\ (40 < length (keras.text_to_sequence Samples.two_word_tokenizer "rates rise") ->
        row = drop (length (keras.text_to_sequence Samples.two_word_tokenizer "rates rise")
                    - 40)
                (keras.text_to_sequence Samples.two_word_tokenizer "rates rise")).
Proof.
  apply (@classify_pads_to_forty Samples.raising_numpy Samples.two_word_tokenizer
           "rates rise").
  repeat constructor; unfold keras.int32; lia.
Defined.


(** A 3 × 2 matrix under both models. *)
Lemma small_matrix_models :
  (exists model,
     Headline.train_setup (fun n d => np.mk_ndarray [n; d] (repeat 0%Z (n * d)))
       Toy.small_matrix 4 = Some model
     /\ torch.num_embeddings (torch.embedding model) = 3
     /\ torch.embedding_dim (torch.embedding model) = 2
     /\ torch.conv1_in_channels model = 2
     /\ torch.weight (torch.embedding model) = Toy.small_matrix
     /\ forall i, i < 3 ->
          exists vec, torch.lookup (torch.embedding model) i = Some vec
                      /\ np.shape vec = [2] /\ length (np.data vec) = 2)
  /\ (exists layer,
        Headline.embed_layer Toy.small_matrix = Some layer
        /\ keras.input_dim layer = 3
        /\ keras.output_dim layer = 2
        /\ keras.embeddings layer = Toy.small_matrix
        /\ forall i, i < 3 ->
             exists vec, keras.lookup layer i = Some vec
                         /\ np.shape vec = [2] /\ length (np.data vec) = 2).
Proof.
  apply (models_follow_the_matrix_shape _ Toy.small_matrix 3 2 4);
    first [reflexivity | lia].
Defined.

(** ** The MNIST notebooks: kept files, request data, channel axis *)

Section mnist_more.
Import MnistLocal MnistData.
Context {A : Type}.

Lemma slice_from_lookup {B} (l : list B) (k skip i : nat) :
  slice_from (S k) skip l !! i = l !! (skip + i * S k).
Proof.
  revert skip i. induction l as [|x l IH]; intros skip i.
  - by rewrite !lookup_nil.
  - cbn [slice_from]. destruct skip as [|s].
    + destruct i as [|i]; [reflexivity |].
      cbn [lookup list_lookup]. rewrite IH.
      replace (0 + S i * S k) with (S (S k - 1 + i * S k)) by lia. reflexivity.
    + rewrite IH. reflexivity.
Qed.

Lemma size_of_squeeze (s : list nat) :
  np.size_of (List.filter (fun n => negb (n =? 1)) s) = np.size_of s.
Proof.
  unfold np.size_of. induction s as [|n s IH]; [reflexivity |].
  cbn [List.filter]. destruct (Nat.eqb_spec n 1) as [->|_]; cbn [negb fold_right].
  - rewrite IH. lia.
  - by rewrite IH.
Qed.

Lemma row_expand_dims_0 (img : np.ndarray A) :
  np.well_formed img ->
  (np.expand_dims img 0 ≫= fun batch => np.row batch 0) = Some img.
Proof.
  destruct img as [s dat]. unfold np.well_formed. cbn [np.shape np.data]. intros Hwf.
  unfold np.expand_dims, np.row.
  cbn [np.shape np.data Nat.leb Nat.ltb firstn skipn app mbind option_bind length Nat.mul].
  rewrite take_0, !drop_0. cbn [app]. by rewrite <- Hwf, firstn_all.
Qed.

Lemma row_expand_dims_1 (x img : np.ndarray A) (i : nat) :
  np.row x i = Some img ->
  (np.expand_dims x 1 ≫= fun x1 => np.row x1 i) = np.expand_dims img 0.
Proof.
  destruct x as [s dat]. unfold np.row, np.expand_dims. cbn [np.shape np.data].
  destruct s as [|n rest]; [discriminate |].
  destruct (i <? n) eqn:Hi; [|discriminate]. intros [= <-].
  cbn [length Nat.leb firstn skipn app mbind option_bind np.shape np.data].
  rewrite take_0, drop_0. cbn [app]. rewrite Hi.
  cbn [np.size_of fold_right]. fold (np.size_of rest).
  by rewrite !Nat.mul_1_l.
Qed.

(** X1.  The files the reduction cell keeps are those at the even positions
    of the sorted listing: the [i]-th kept file is the file at position
    [reduction_factor * i], and past the end of the listing there is none. *)
Theorem kept_files_are_the_even_positions (files : list string) (i : nat) :
  files_to_keep files !! i = files !! (reduction_factor * i).
Proof.
  unfold files_to_keep, slice_step, reduction_factor.
  rewrite (slice_from_lookup files 1 0 i). f_equal. lia.
Qed.


(** X3.  The channel-expansion cell keeps the training images in place under
    both data formats: row [i] of the new [x_train] is the [i]-th loaded
    training image with its channel axis where the format wants it, and the
    number of rows is unchanged.  Under [channels_last] the same holds of the
    test images. *)
Theorem channel_axis_is_added_image_by_image (fmt : image_data_format)
    (x_train x_test x_train1 x_test1 : np.ndarray A) :
  expand_channel_dim fmt x_train x_test = Some (x_train1, x_test1) ->
  (forall i img,
     np.row x_train i = Some img ->
     np.row x_train1 i = np.expand_dims img (image_channel_axis fmt x_train))
  /\ (np.shape x_train <> [] -> np.n_rows x_train1 = np.n_rows x_train)
  /\ (fmt = channels_last ->
      forall i img,
        np.row x_test i = Some img ->
        np.row x_test1 i = np.expand_dims img (image_channel_axis fmt x_test)).
Proof.
  intros Hcell. split; [|split].
  - intros i img Hrow. destruct fmt.
    + pose proof (row_expand_dims_1 _ _ _ Hrow) as H.
      unfold expand_channel_dim in Hcell.
      destruct (np.expand_dims x_train 1) as [x1|]; [|discriminate].
      destruct (np.expand_dims x1 1); [|discriminate].
      injection Hcell as <- _. exact H.
    + eapply (channels_last_keeps_rows x_test x_train x_test1 x_train1); [|exact Hrow].
      unfold expand_channel_dim in *. rewrite !expand_dims_last in *.
      by injection Hcell as <- <-.
  - intros Hne. unfold expand_channel_dim in Hcell. destruct fmt.
    + unfold np.expand_dims in Hcell at 1.
      destruct (np.shape x_train) as [|n rest] eqn:Hs; [done |].
      cbn [length Nat.leb] in Hcell.
      destruct (np.expand_dims _ 1); [|discriminate].
      injection Hcell as <- _. unfold np.n_rows. cbn [np.shape]. by rewrite Hs.
    + rewrite !expand_dims_last in Hcell. injection Hcell as <- _.
      unfold np.n_rows. cbn [np.shape]. by destruct (np.shape x_train).
  - intros -> i img Hrow.
    by eapply channels_last_keeps_rows.
Qed.

End mnist_more.


(** Two training images and one test image under [channels_last]. *)
Lemma channel_axis_of_the_sample_images :
  MnistLocal.expand_channel_dim MnistLocal.channels_last
    MnistLocal.two_black_images MnistLocal.one_white_image
  = Some (np.mk_ndarray [2; 28; 28; 1] (repeat 0%Z 1568),
          np.mk_ndarray [1; 28; 28; 1] (repeat 255%Z 784))
  /\ (forall i img,
        np.row MnistLocal.two_black_images i = Some img ->
        np.row (np.mk_ndarray [2; 28; 28; 1] (repeat 0%Z 1568)) i
        = np.expand_dims img
            (MnistLocal.image_channel_axis MnistLocal.channels_last
               MnistLocal.two_black_images)).
Proof.
  assert (H : MnistLocal.expand_channel_dim MnistLocal.channels_last
                MnistLocal.two_black_images MnistLocal.one_white_image
              = Some (np.mk_ndarray [2; 28; 28; 1] (repeat 0%Z 1568),
                      np.mk_ndarray [1; 28; 28; 1] (repeat 255%Z 784))) by reflexivity.
  split; [exact H |].
  exact (proj1 (channel_axis_is_added_image_by_image _ _ _ _ _ H)).
Defined.

(** ** The MNIST notebooks: the loading cell *)

Section mnist_loading.
Import Py MnistLocal MnistData.
Context {Img : Type} {image_shapes : Shaped Img} {image_arrays : NpArray Img}.
Variable d : disk Img.
Variables training_dir testing_dir : string.

Lemma omap_lookup_seq {A} (l1 l2 : list A) :
  omap (fun i => (l1 ++ l2) !! i) (seq (length l1) (length l2)) = l2.
Proof.
  revert l1. induction l2 as [|x l2 IH]; intros l1; [reflexivity |].
  cbn [length seq]. csimpl. rewrite list_lookup_middle by reflexivity. csimpl.
  f_equal. specialize (IH (l1 ++ [x])).
  rewrite <- app_assoc, length_app in IH. cbn [app length] in IH.
  by rewrite Nat.add_1_r in IH.
Qed.

Lemma shuffle_Permutation {A} (rng : Split.RandomState) (l : list A) :
  shuffle rng l ≡ₚ l.
Proof.
  unfold shuffle. rewrite Split.permutation_range.
  replace (omap (fun i => l !! i) (seq 0 (length l))) with l; [done |].
  symmetry. exact (omap_lookup_seq [] l).
Qed.

Lemma paired_zip {A B} (x : list A) (y : list B) :
  length x = length y -> paired x y = Some (zip x y).
Proof.
  intros Hlen. unfold paired. apply mapM_Some, Forall2_same_length_lookup.
  split; [by rewrite length_seq, length_zip, Hlen, Nat.min_id |].
  intros i ix [xi yi] Hseq Hzip.
  apply lookup_seq in Hseq as [-> _]. cbn [Nat.add].
  apply lookup_zip_with_Some in Hzip as (xi' & yi' & [= <- <-] & -> & ->).
  reflexivity.
Qed.

Lemma zip_replicate {A} (imgs : list A) (ix : nat) :
  zip imgs (replicate (length imgs) ix) = (fun img => (img, ix)) <$> imgs.
Proof. induction imgs as [|img imgs IH]; [reflexivity |]. cbn. by rewrite <- IH. Qed.

Lemma mapM_omap {A B} (f : A -> option B) (l : list A) (k : list B) :
  mapM f l = Some k -> omap f l = k.
Proof.
  intros H%mapM_Some. induction H as [|a b l k Hab _ IH]; [reflexivity |].
  csimpl. by rewrite Hab, IH.
Qed.

(** The inner loop appends one image and one label per file, or stops at the
    first file that is no image. *)
Lemma load_files_eq (dir label_str : string) (ix : nat) (files : list string)
    (x : list Img) (y : list nat) :
  load_files d dir label_str ix files x y
  = (imgs ← mapM (fun f => load_image d (image_path dir label_str f)) files;
     Some (x ++ imgs, y ++ replicate (length imgs) ix)).
Proof.
  revert x y. induction files as [|f files IH]; intros x y.
  - cbn. by rewrite !app_nil_r.
  - cbn [load_files]. csimpl.
    destruct (load_image d (image_path dir label_str f)) as [img|]; [|reflexivity].
    rewrite IH. csimpl. destruct (mapM _ files) as [imgs|]; [|reflexivity].
    csimpl. by rewrite <- !app_assoc.
Qed.

(** A readable folder, in terms of the loop over its files. *)
Lemma readable_load (dir label_str : string) :
  readable d dir label_str
  <-> exists files imgs,
        png_files d dir label_str = Some files
        /\ mapM (fun f => load_image d (image_path dir label_str f)) files = Some imgs.
Proof.
  unfold readable, png_files. split.
  - intros (files & -> & Hall). cbn.
    destruct (mapM (fun f => load_image d (image_path dir label_str f))
                (List.filter (fun s => endswith s ".png") files)) as [imgs|] eqn:E;
      [by eexists _, _ |].
    exfalso. apply mapM_None, Exists_exists in E as (f & Hf & Hnone).
    apply list_elem_of_In, filter_In in Hf as [Hf Hpng].
    apply list_elem_of_In in Hf. destruct (Hall f Hf Hpng) as [img Himg]. congruence.
  - intros (files & imgs & Hpng & Hload).
    destruct (os_listdir d (posix_join dir label_str)) as [listing|]; [|discriminate].
    cbn in Hpng. injection Hpng as <-. exists listing. split; [reflexivity |].
    intros f Hf Hend. apply mapM_Some in Hload.
    assert (Hin : f ∈ List.filter (fun s => endswith s ".png") listing).
    { apply list_elem_of_In, filter_In. split; [by apply list_elem_of_In | done]. }
    apply list_elem_of_lookup in Hin as [i Hi].
    destruct (Forall2_lookup_l _ _ _ _ _ Hload Hi) as (img & _ & Himg). by exists img.
Qed.

(** One turn of the outer loop. *)
Lemma load_labels_cons (label_str : string) (rest : list string) (ix : nat) (a : arrays Img) :
  load_labels d training_dir testing_dir (label_str :: rest) ix a
  = (trainfiles ← png_files d training_dir label_str;
     imgs ← mapM (fun f => load_image d (image_path training_dir label_str f)) trainfiles;
     testfiles ← png_files d testing_dir label_str;
     imgs' ← mapM (fun f => load_image d (image_path testing_dir label_str f)) testfiles;
     load_labels d training_dir testing_dir rest (S ix)
       (mk_arrays (x_train a ++ imgs) (y_train a ++ replicate (length imgs) ix)
                  (x_test a ++ imgs') (y_test a ++ replicate (length imgs') ix))).
Proof.
  cbn [load_labels]. destruct (png_files d training_dir label_str) as [trainfiles|];
    [|reflexivity].
  cbn. rewrite load_files_eq.
  destruct (mapM _ trainfiles) as [imgs|]; [|reflexivity]. cbn.
  destruct (png_files d testing_dir label_str) as [testfiles|]; [|reflexivity].
  cbn. rewrite load_files_eq.
  destruct (mapM _ testfiles) as [imgs'|]; reflexivity.
Qed.

Lemma folder_images_load (dir label_str : string) (files : list string) (imgs : list Img) :
  png_files d dir label_str = Some files ->
  mapM (fun f => load_image d (image_path dir label_str f)) files = Some imgs ->
  folder_images d dir label_str = imgs.
Proof. intros Hpng Hload. unfold folder_images. rewrite Hpng. by apply mapM_omap. Qed.

(** The outer loop: the lists grow in step, by the pairs the folders hold. *)
Lemma load_labels_spec (labels : list string) (ix : nat) (a a' : arrays Img) :
  load_labels d training_dir testing_dir labels ix a = Some a' ->
  length (x_train a) = length (y_train a) ->
  length (x_test a) = length (y_test a) ->
  length (x_train a') = length (y_train a')
  /\ length (x_test a') = length (y_test a')
  /\ zip (x_train a') (y_train a')
     = zip (x_train a) (y_train a) ++ folder_pairs d training_dir labels ix
  /\ zip (x_test a') (y_test a')
     = zip (x_test a) (y_test a) ++ folder_pairs d testing_dir labels ix.
Proof.
  revert ix a. induction labels as [|label_str rest IH]; intros ix a.
  - intros [= <-] H1 H2. cbn [folder_pairs]. by rewrite !app_nil_r.
  - rewrite load_labels_cons. intros Hrun H1 H2.
    destruct (png_files d training_dir label_str) as [trainfiles|] eqn:Etr; [|discriminate].
    cbn in Hrun. destruct (mapM _ trainfiles) as [imgs|] eqn:Ei; [|discriminate].
    cbn in Hrun.
    destruct (png_files d testing_dir label_str) as [testfiles|] eqn:Ete; [|discriminate].
    cbn in Hrun. destruct (mapM _ testfiles) as [imgs'|] eqn:Ei'; [|discriminate].
    cbn in Hrun. apply IH in Hrun as (L1 & L2 & Z1 & Z2); cbn [x_train y_train x_test y_test].
    + split; [exact L1 |]. split; [exact L2 |].
      cbn [x_train y_train x_test y_test] in Z1, Z2.
      rewrite Z1, Z2. cbn [folder_pairs].
      rewrite (folder_images_load _ _ _ _ Etr Ei), (folder_images_load _ _ _ _ Ete Ei').
      rewrite (zip_with_app pair (x_train a) imgs _ _ H1).
      rewrite (zip_with_app pair (x_test a) imgs' _ _ H2).
      by rewrite !zip_replicate, <- !app_assoc.
    + rewrite !length_app, length_replicate. lia.
    + rewrite !length_app, length_replicate. lia.
Qed.

(** The outer loop ends without error exactly when every label's two folders
    are readable. *)
Lemma load_labels_is_Some (labels : list string) (ix : nat) (a : arrays Img) :
  is_Some (load_labels d training_dir testing_dir labels ix a)
  <-> forall label_str, label_str ∈ labels ->
        readable d training_dir label_str /\ readable d testing_dir label_str.
Proof.
  revert ix a. induction labels as [|label_str rest IH]; intros ix a.
  - split; [intros _ l Hl; by apply elem_of_nil in Hl | by eexists].
  - rewrite load_labels_cons. split.
    + intros Hrun.
      destruct (png_files d training_dir label_str) as [trainfiles|] eqn:Etr;
        [|by destruct Hrun].
      cbn in Hrun. destruct (mapM _ trainfiles) as [imgs|] eqn:Ei; [|by destruct Hrun].
      cbn in Hrun.
      destruct (png_files d testing_dir label_str) as [testfiles|] eqn:Ete;
        [|by destruct Hrun].
      cbn in Hrun. destruct (mapM _ testfiles) as [imgs'|] eqn:Ei'; [|by destruct Hrun].
      cbn in Hrun. pose proof (proj1 (IH _ _) Hrun) as Hrest.
      intros l [->|Hl]%elem_of_cons; [|by apply Hrest].
      split; apply readable_load; by eexists _, _.
    + intros Hall.
      destruct (Hall label_str) as [Htr Hte]; [by left |].
      apply readable_load in Htr as (trainfiles & imgs & -> & Ei).
      apply readable_load in Hte as (testfiles & imgs' & -> & Ei').
      cbn. rewrite Ei. cbn. rewrite Ei'. cbn.
      apply (proj2 (IH _ _)). intros l Hl. apply Hall. by right.
Qed.

(** A pair the folders hold: an image of a [.png] file, and the position of
    the label in whose folder the file is. *)
Lemma elem_of_folder_pairs (dir : string) (labels : list string) (start : nat)
    (img : Img) (ix : nat) :
  (img, ix) ∈ folder_pairs d dir labels start
  <-> exists k label_str files filename,
        ix = start + k
        /\ labels !! k = Some label_str
        /\ os_listdir d (posix_join dir label_str) = Some files
        /\ filename ∈ files
        /\ endswith filename ".png" = true
        /\ load_image d (image_path dir label_str filename) = Some img.
Proof.
  revert start. induction labels as [|label_str rest IH]; intros start.
  - cbn [folder_pairs]. split; [by intros ?%elem_of_nil |].
    by intros (k & l & _ & _ & _ & Hl & _).
  - cbn [folder_pairs]. rewrite elem_of_app, IH. split.
    + intros [Hin | (k & l & files & f & -> & Hk & Hrest)].
      * apply list_elem_of_fmap in Hin as (img' & [= <- ->] & Hin).
        unfold folder_images, png_files in Hin.
        apply list_elem_of_omap in Hin as (f & Hf & Himg).
        destruct (os_listdir d (posix_join dir label_str)) as [files|] eqn:E;
          [|by apply elem_of_nil in Hf].
        cbn in Hf. apply list_elem_of_In, filter_In in Hf as [Hf Hend].
        exists 0, label_str, files, f. rewrite Nat.add_0_r.
        repeat split; try done. by apply list_elem_of_In.
      * exists (S k), l, files, f. split; [lia |]. done.
    + intros (k & l & files & f & -> & Hk & Hdir & Hf & Hend & Himg).
      destruct k as [|k].
      * left. injection Hk as ->. rewrite Nat.add_0_r.
        apply list_elem_of_fmap. exists img. split; [reflexivity |].
        unfold folder_images, png_files. rewrite Hdir. cbn.
        apply list_elem_of_omap. exists f. split; [|done].
        apply list_elem_of_In, filter_In. split; [by apply list_elem_of_In | done].
      * right. exists k, l, files, f. split; [lia |]. done.
Qed.

(** What the cell returns. *)
Lemma load_cell_spec (rng_train rng_test : Split.RandomState) (n : nat) (a : arrays Img) :
  load_cell d training_dir testing_dir rng_train rng_test = Some (n, a) ->
  exists listing,
    os_listdir d training_dir = Some listing
    /\ n = length listing
    /\ length (x_train a) = length (y_train a)
    /\ length (x_test a) = length (y_test a)
    /\ zip (x_train a) (y_train a)
       ≡ₚ folder_pairs d training_dir (merge_sort str_le listing) 0
    /\ zip (x_test a) (y_test a)
       ≡ₚ folder_pairs d testing_dir (merge_sort str_le listing) 0.
Proof.
  unfold load_cell. intros Hrun.
  destruct (os_listdir d training_dir) as [listing|]; [|discriminate].
  exists listing. split; [reflexivity |]. cbn in Hrun.
  destruct (load_labels _ _ _ _ 0 _) as [loaded|] eqn:Hload; [|discriminate].
  apply load_labels_spec in Hload as (L1 & L2 & Z1 & Z2); [|reflexivity..].
  cbn in Hrun. rewrite (paired_zip _ _ L1), (paired_zip _ _ L2) in Hrun.
  cbn in Hrun.
  destruct (np_array (shuffle rng_train _).*1) as [x_train1|] eqn:Htrain;
    cbn in Hrun; [|discriminate].
  apply np_array_rows in Htrain as ->.
  destruct (np_array (shuffle rng_test _).*1) as [x_test1|] eqn:Htest;
    cbn in Hrun; [|discriminate].
  apply np_array_rows in Htest as ->.
  injection Hrun as <- <-. cbn [x_train y_train x_test y_test].
  split; [by rewrite merge_sort_Permutation |].
  split; [by rewrite !length_fmap |]. split; [by rewrite !length_fmap |].
  rewrite !zip_fst_snd, !shuffle_Permutation, Z1, Z2. done.
Qed.

(** Images of one shape stay so in any order. *)
Lemma uniform_Permutation (l k : list Img) : l ≡ₚ k -> uniform l -> uniform k.
Proof.
  intros Hperm Huni a b Ha Hb. apply Huni; by rewrite Hperm.
Qed.

End mnist_loading.

Section mnist_loading_theorems.
Import Py MnistLocal MnistData.
Context {Img : Type} {image_shapes : Shaped Img} {image_arrays : NpArray Img}.
Variable d : disk Img.
Variables training_dir testing_dir : string.

(** X4.  The loading cell pairs every image with the label of its folder.
    When the cell ends without error, [n_labels] is the number of entries of
    the training directory; the images and the labels have the same length,
    for the training and for the test set; and, up to the order the shuffle
    chose, the pairs (image, label) are exactly the pairs the folders hold:
    one for each [.png] file of each label's folder, the label being the
    position of the folder in the sorted listing. *)
Theorem loaded_pairs_follow_the_folders (rng_train rng_test : Split.RandomState)
    (n : nat) (a : arrays Img) :
  load_cell d training_dir testing_dir rng_train rng_test = Some (n, a) ->
  exists listing,
    let labels := merge_sort str_le listing in
    os_listdir d training_dir = Some listing
    /\ n = length listing
    /\ length (x_train a) = length (y_train a)
    /\ length (x_test a) = length (y_test a)
    /\ zip (x_train a) (y_train a) ≡ₚ folder_pairs d training_dir labels 0
    /\ zip (x_test a) (y_test a) ≡ₚ folder_pairs d testing_dir labels 0
    /\ forall dir img ix,
         (img, ix) ∈ folder_pairs d dir labels 0
         <-> exists label_str files filename,
               labels !! ix = Some label_str
               /\ os_listdir d (posix_join dir label_str) = Some files
               /\ filename ∈ files
               /\ endswith filename ".png" = true
               /\ load_image d (image_path dir label_str filename) = Some img.
Proof.
  intros Hrun.
  destruct (load_cell_spec _ _ _ _ _ _ _ Hrun) as (listing & Hdir & Hn & L1 & L2 & Z1 & Z2).
  exists listing. cbn zeta. repeat (split; [assumption |]).
  intros dir img ix. rewrite elem_of_folder_pairs. split.
  - intros (k & l & files & f & -> & H). exists l, files, f. exact H.
  - intros (l & files & f & H). exists ix, l, files, f. split; [reflexivity | exact H].
Qed.

(** X5.  When the loading cell ends without error, the training directory
    can be listed and, for every entry of it, the folder of that name exists
    under the training and under the testing directory and each of its [.png]
    files is an image; so an entry of the training directory that is not a
    folder, or that the testing directory lacks, stops the cell.  Conversely
    the cell ends without error when all that holds and, besides, the
    training images have one shape and the test images have one shape, as
    [np.array] needs of them. *)
Theorem loading_needs_every_label_in_both_directories
    (rng_train rng_test : Split.RandomState) :
  (is_Some (load_cell d training_dir testing_dir rng_train rng_test) ->
   exists listing,
     os_listdir d training_dir = Some listing
     /\ forall label_str, label_str ∈ listing ->
          readable d training_dir label_str /\ readable d testing_dir label_str)
  /\ ((exists listing,
         os_listdir d training_dir = Some listing
         /\ (forall label_str, label_str ∈ listing ->
               readable d training_dir label_str /\ readable d testing_dir label_str)
         /\ uniform ((folder_pairs d training_dir (merge_sort str_le listing) 0).*1)
         /\ uniform ((folder_pairs d testing_dir (merge_sort str_le listing) 0).*1)) ->
      is_Some (load_cell d training_dir testing_dir rng_train rng_test)).
Proof.
  unfold load_cell. split.
  - intros Hrun. destruct (os_listdir d training_dir) as [listing|]; [|by destruct Hrun].
    exists listing. split; [reflexivity |]. cbn in Hrun.
    destruct (load_labels _ _ _ _ 0 _) as [loaded|] eqn:Hload; [|by destruct Hrun].
    intros l Hl. eapply load_labels_is_Some; [by rewrite Hload |].
    by rewrite merge_sort_Permutation.
  - intros (listing & -> & Hall & Utrain & Utest). cbn.
    destruct (proj2 (load_labels_is_Some d training_dir testing_dir
                       (merge_sort str_le listing) 0 (mk_arrays [] [] [] [])))
      as [loaded Hload].
    { intros l Hl. apply Hall. by rewrite merge_sort_Permutation in Hl. }
    rewrite Hload. cbn.
    apply load_labels_spec in Hload as (L1 & L2 & Z1 & Z2); [|reflexivity..].
    cbn [x_train y_train x_test y_test zip zip_with app] in Z1, Z2.
    rewrite (paired_zip _ _ L1), (paired_zip _ _ L2), Z1, Z2. cbn.
    rewrite (np_array_uniform (shuffle rng_train _).*1).
    2:{ eapply uniform_Permutation; [|exact Utrain]. by rewrite shuffle_Permutation. }
    cbn. rewrite (np_array_uniform (shuffle rng_test _).*1).
    2:{ eapply uniform_Permutation; [|exact Utest]. by rewrite shuffle_Permutation. }
    by eexists.
Qed.

Lemma argmax_from_zeros (k : nat) (rest : list Z) (ix best_ix : nat) (best : Z) :
  (0 <= best)%Z ->
  argmax_from (replicate k 0%Z ++ rest) ix best_ix best
  = argmax_from rest (ix + k) best_ix best.
Proof.
  intros Hb. revert ix. induction k as [|k IH]; intros ix.
  - cbn [replicate app]. by rewrite Nat.add_0_r.
  - cbn [replicate app argmax_from].
    destruct (Z.ltb_spec best 0) as [|_]; [lia |].
    rewrite IH. f_equal. lia.
Qed.

(** One row of the encoding: a 1 at the class, zeros elsewhere, and [argmax]
    gives the class back. *)
Lemma one_hot_argmax (num_classes y : nat) :
  y < num_classes ->
  exists row,
    one_hot num_classes y = Some row
    /\ length row = num_classes
    /\ row !! y = Some 1%Z
    /\ (forall j, j <> y -> j < num_classes -> row !! j = Some 0%Z)
    /\ argmax row = Some y.
Proof.
  intros Hy. unfold one_hot. destruct (Nat.ltb_spec y num_classes) as [_|]; [|lia].
  eexists. split; [reflexivity |].
  split; [by rewrite length_insert, length_replicate |].
  split; [apply list_lookup_insert_eq; by rewrite length_replicate |].
  split.
  - intros j Hj Hlt. rewrite list_lookup_insert_ne by done.
    by apply lookup_replicate_2.
  - rewrite insert_replicate_lt by done. destruct y as [|y].
    + cbn [replicate app argmax]. f_equal.
      rewrite <- (app_nil_r (replicate _ _)), argmax_from_zeros by lia. reflexivity.
    + cbn [replicate app argmax]. f_equal.
      rewrite argmax_from_zeros by lia. cbn [argmax_from]. cbn [Z.ltb Z.compare].
      rewrite <- (app_nil_r (replicate _ _)), argmax_from_zeros by lia. reflexivity.
Qed.

Lemma to_categorical_in_range (ys : list nat) (n : nat) :
  0 < n ->
  Forall (fun y => y < n) ys ->
  exists rows,
    to_categorical ys n = Some rows
    /\ Forall2 (fun y row => length row = n /\ argmax row = Some y) ys rows.
Proof.
  intros Hn Hall. unfold to_categorical.
  destruct (Nat.eqb_spec n 0) as [|_]; [lia |]. cbn [mbind option_bind].
  induction Hall as [|y ys Hy _ (rows & Hrows & Hdec)].
  - exists []. split; [reflexivity | constructor].
  - destruct (one_hot_argmax n y Hy) as (row & Hrow & Hlen & _ & _ & Harg).
    exists (row :: rows). split.
    + apply mapM_Some. apply mapM_Some in Hrows. by constructor.
    + by constructor.
Qed.

Lemma labels_in_range (dir : string) (labels : list string) (x : list Img) (y : list nat) :
  length x = length y ->
  zip x y ≡ₚ folder_pairs d dir labels 0 ->
  Forall (fun ix => ix < length labels) y.
Proof.
  intros Hlen Hperm. apply Forall_forall. intros ix Hix.
  apply list_elem_of_lookup in Hix as [i Hi].
  destruct (lookup_lt_is_Some_2 x i) as [img Himg].
  { rewrite Hlen. by eapply lookup_lt_Some. }
  assert (Hin : (img, ix) ∈ zip x y).
  { apply elem_of_lookup_zip_with. by exists i, img, ix. }
  rewrite Hperm in Hin.
  apply elem_of_folder_pairs in Hin as (k & l & _ & _ & -> & Hk & _).
  by apply lookup_lt_Some in Hk.
Qed.

(** X6.  The labels the loading cell produces are classes that
    [to_categorical(y, n_labels)] accepts, as long as there is a label: when
    the training directory has an entry, the encoding raises on neither set
    of labels, every encoded row has [n_labels] items, and [np.argmax] of a
    row gives the label back.  When the training directory is empty the cell
    ends with [n_labels = 0] and no label, and the encoding raises. *)
Theorem loaded_labels_encode_and_decode (rng_train rng_test : Split.RandomState)
    (n : nat) (a : arrays Img) :
  load_cell d training_dir testing_dir rng_train rng_test = Some (n, a) ->
  (0 < n ->
   (exists rows,
      to_categorical (y_train a) n = Some rows
      /\ Forall2 (fun y row => length row = n /\ argmax row = Some y) (y_train a) rows)
   /\ (exists rows,
         to_categorical (y_test a) n = Some rows
         /\ Forall2 (fun y row => length row = n /\ argmax row = Some y) (y_test a) rows))
  /\ (n = 0 ->
      y_train a = [] /\ y_test a = []
      /\ to_categorical (y_train a) n = None
      /\ to_categorical (y_test a) n = None).
Proof.
  intros Hrun.
  destruct (load_cell_spec _ _ _ _ _ _ _ Hrun) as (listing & _ & -> & L1 & L2 & Z1 & Z2).
  rewrite <- (Permutation_length (merge_sort_Permutation str_le listing)).
  pose proof (labels_in_range _ _ _ _ L1 Z1) as Htrain.
  pose proof (labels_in_range _ _ _ _ L2 Z2) as Htest.
  split.
  - intros Hn. split; by apply to_categorical_in_range.
  - intros Hn. rewrite Hn in Htrain, Htest.
    assert (Hnone : forall ys, Forall (fun ix => ix < 0) ys -> ys = []).
    { intros [|y ys] Hall; [reflexivity |]. apply Forall_cons in Hall as [Hy _]. lia. }
    rewrite (Hnone _ Htrain), (Hnone _ Htest), Hn. by repeat split.
Qed.

End mnist_loading_theorems.

(** The sample folders load: three training pairs and two test pairs, each
    image with the position of its folder. *)
Lemma sample_folders_load :
  MnistData.load_cell Samples.mnist_disk "/tmp/mnist/training" "/tmp/mnist/testing"
    Samples.reversing_rng Toy.identity_rng
  = Some (2, MnistData.mk_arrays [12; 11; 10]%Z [1; 0; 0] [13; 14]%Z [0; 1]).
Proof. vm_compute. reflexivity. Defined.

Lemma sample_pairs_follow_the_folders :
  exists listing,
    let labels := merge_sort MnistLocal.str_le listing in
    MnistData.os_listdir Samples.mnist_disk "/tmp/mnist/training" = Some listing
    /\ 2 = length listing
    /\ length [12; 11; 10]%Z = length [1; 0; 0]
    /\ length [13; 14]%Z = length [0; 1]
    /\ zip [12; 11; 10]%Z [1; 0; 0]
       ≡ₚ MnistData.folder_pairs Samples.mnist_disk "/tmp/mnist/training" labels 0
    /\ zip [13; 14]%Z [0; 1]
       ≡ₚ MnistData.folder_pairs Samples.mnist_disk "/tmp/mnist/testing" labels 0
    /\ forall dir img ix,
         (img, ix) ∈ MnistData.folder_pairs Samples.mnist_disk dir labels 0
         <-> exists label_str files filename,
               labels !! ix = Some label_str
               /\ MnistData.os_listdir Samples.mnist_disk (Py.posix_join dir label_str)
                  = Some files
               /\ filename ∈ files
               /\ MnistData.endswith filename ".png" = true
               /\ MnistData.load_image Samples.mnist_disk
                    (MnistData.image_path dir label_str filename) = Some img.
Proof.
  exact (loaded_pairs_follow_the_folders _ _ _ _ _ _ _ sample_folders_load).
Defined.

Lemma sample_labels_encode_and_decode :
  (0 < 2 ->
   (exists rows,
      MnistData.to_categorical [1; 0; 0] 2 = Some rows
      /\ Forall2 (fun y row => length row = 2 /\ MnistData.argmax row = Some y)
           [1; 0; 0] rows)
   /\ (exists rows,
         MnistData.to_categorical [0; 1] 2 = Some rows
         /\ Forall2 (fun y row => length row = 2 /\ MnistData.argmax row = Some y)
              [0; 1] rows))
  /\ (2 = 0 ->
      [1; 0; 0] = [] /\ [0; 1] = []
      /\ MnistData.to_categorical [1; 0; 0] 2 = None
      /\ MnistData.to_categorical [0; 1] 2 = None).
Proof.
  exact (loaded_labels_encode_and_decode _ _ _ _ _ _ _ sample_folders_load).
Defined.

(** Two training images of different shapes: every folder is readable, yet
    [np.array] raises and the cell does not end. *)
Example images_of_two_shapes_stop_loading :
  MnistData.load_cell Samples.ragged_disk "/tmp/mnist/training" "/tmp/mnist/testing"
    Toy.identity_rng Toy.identity_rng
  = None.
Proof. vm_compute. reflexivity. Qed.

(** An empty training directory: the cell ends with no label, and the
    encoding of its labels raises. *)
Example no_label_does_not_encode :
  MnistData.load_cell
    (MnistData.mk_disk (<["/tmp/mnist/training" := []]> ∅) (∅ : gmap string Z))
    "/tmp/mnist/training" "/tmp/mnist/testing" Toy.identity_rng Toy.identity_rng
  = Some (0, MnistData.mk_arrays [] [] [] [])
  /\ MnistData.to_categorical [] 0 = None.
Proof. split; vm_compute; reflexivity. Qed.

(** ** The splits keep every row, and the dataset serves them *)

Section split_rows.
Import Split TorchNotebook.
Context {rng : RandomState} {A B : Type}.

Lemma safe_indexing_zip (X : list A) (y : list B) (indices : list nat)
    (rows : list A) (targets : list B) :
  safe_indexing X indices = Some rows ->
  safe_indexing y indices = Some targets ->
  safe_indexing (zip X y) indices = Some (zip rows targets).
Proof.
  unfold safe_indexing. intros HX%mapM_Some Hy%mapM_Some. apply mapM_Some.
  revert targets Hy. induction HX as [|i r indices rows Hi _ IH]; intros targets Hy.
  - inversion Hy. constructor.
  - inversion Hy as [|? t ? targets' Hi' Hy']; subst. cbn [zip_with]. constructor.
    + apply lookup_zip_with_Some. by exists r, t.
    + by apply IH.
Qed.

Lemma safe_indexing_app {C} (a : list C) (i1 i2 : list nat) (r1 r2 : list C) :
  safe_indexing a i1 = Some r1 ->
  safe_indexing a i2 = Some r2 ->
  safe_indexing a (i1 ++ i2) = Some (r1 ++ r2).
Proof.
  unfold safe_indexing. intros H1%mapM_Some H2%mapM_Some. apply mapM_Some.
  by apply Forall2_app.
Qed.

(** The rows at a permutation of all positions are a permutation of the
    rows. *)
Lemma safe_indexing_all {C} (a : list C) (indices : list nat) (rows : list C) :
  indices ≡ₚ seq 0 (length a) ->
  safe_indexing a indices = Some rows ->
  rows ≡ₚ a.
Proof.
  intros Hperm Hrows. apply mapM_omap in Hrows. rewrite <- Hrows, Hperm.
  replace (omap (fun i => a !! i) (seq 0 (length a))) with a; [done |].
  symmetry. exact (omap_lookup_seq [] a).
Qed.

(** [train_test_split] deals every row to one of the two parts, each with its
    own target. *)
Lemma train_test_split_partition (X : list A) (y : list B) (r : fraction)
    (X_train X_test : list A) (y_train y_test : list B) :
  train_test_split X y r = Some (X_train, X_test, y_train, y_test) ->
  zip X_train y_train ++ zip X_test y_test ≡ₚ zip X y
  /\ length X_train = length y_train
  /\ length X_test = length y_test
  /\ 0 < length X_train.
Proof.
  unfold train_test_split.
  destruct (Nat.eqb_spec (length X) (length y)) as [Hlen|]; [|discriminate]. cbn [negb].
  destruct (validate_shuffle_split (length X) r) as [[n_train n_test]|] eqn:Hv;
    [|discriminate].
  unfold validate_shuffle_split in Hv.
  destruct ((num r =? 0) || (den r <=? num r)); [discriminate |].
  destruct (Nat.ltb_spec (length X) (length X - ceil_mul r (length X) + ceil_mul r (length X)))
    as [|Hle]; [discriminate |].
  destruct (Nat.eqb_spec (length X - ceil_mul r (length X)) 0) as [|Hpos]; [discriminate |].
  injection Hv as <- <-. set (n_test := ceil_mul r (length X)) in *.
  set (perm := permutation (length X)).
  assert (Hperm : length perm = length X) by apply permutation_length.
  destruct (safe_indexing X (take _ (drop _ perm))) as [Xtr|] eqn:EXtr; [|discriminate].
  destruct (safe_indexing X (take n_test perm)) as [Xte|] eqn:EXte; [|discriminate].
  destruct (safe_indexing y (take _ (drop _ perm))) as [ytr|] eqn:Eytr; [|discriminate].
  destruct (safe_indexing y (take n_test perm)) as [yte|] eqn:Eyte; [|discriminate].
  cbn. intros [= <- <- <- <-].
  pose proof (length_mapM _ _ _ EXtr) as LXtr. pose proof (length_mapM _ _ _ EXte) as LXte.
  pose proof (length_mapM _ _ _ Eytr) as Lytr. pose proof (length_mapM _ _ _ Eyte) as Lyte.
  rewrite length_take, length_drop in LXtr, Lytr. rewrite length_take in LXte, Lyte.
  split; [|lia].
  pose proof (safe_indexing_app _ _ _ _ _
                (safe_indexing_zip _ _ _ _ _ EXtr Eytr)
                (safe_indexing_zip _ _ _ _ _ EXte Eyte)) as Hall.
  eapply safe_indexing_all; [|exact Hall].
  rewrite length_zip, <- Hlen, Nat.min_id.
  rewrite take_ge by (rewrite length_drop; lia).
  rewrite (Permutation_app_comm (drop n_test perm)), take_drop.
  apply permutation_range.
Qed.

(** X7.  The split cells deal every row to exactly one part and keep each
    row with its own target: when a cell returns, its train rows followed by
    its test rows are, up to order, the rows of the input paired with their
    targets; nothing is lost, repeated or paired with another row's target. *)
Theorem split_cells_keep_rows_with_their_targets (data : list A) (target : list B) :
  match boston_split_cell data target with
  | Some (trainX, testX) => trainX ++ testX ≡ₚ zip data target
  | None => True
  end
  /\ match news_split_cell data target with
     | Some (x_train, x_test, y_train, y_test) =>
         zip x_train y_train ++ zip x_test y_test ≡ₚ zip data target
         /\ length x_train = length y_train
         /\ length x_test = length y_test
     | None => True
     end.
Proof.
  split.
  - unfold boston_split_cell.
    destruct (train_test_split data target quarter)
      as [[[[X_train X_test] y_train] y_test]|] eqn:Hs; [|exact I].
    apply train_test_split_partition in Hs as (Hperm & L1 & L2 & _).
    cbn. unfold with_target. rewrite L1, L2, !Nat.eqb_refl. cbn. exact Hperm.
  - unfold news_split_cell.
    destruct (train_test_split data target fifth)
      as [[[[x_train x_test] y_train] y_test]|] eqn:Hs; [|exact I].
    apply train_test_split_partition in Hs as (Hperm & L1 & L2 & _). done.
Qed.

(** X8.  The datasets of the headline notebook serve rows of the input.
    When the split cell returns, [Dataset(x_train, y_train)] and
    [Dataset(x_test, y_test)] are not empty, so the averages that [train] and
    [test] take over them divide by a positive number; every index below
    [__len__] gives a document with the category of that same document in
    the input; and an index from [__len__] on is an IndexError. *)
Theorem datasets_serve_rows_of_the_input (processed_docs : list A) (encoded_y : list B) :
  match news_split_cell processed_docs encoded_y with
  | Some (x_train, x_test, y_train, y_test) =>
      forall ds, ds ∈ [mk_Dataset x_train y_train; mk_Dataset x_test y_test] ->
        0 < len ds
        /\ (forall index, index < len ds ->
              exists X y, getitem ds index = Some (X, y)
                          /\ (X, y) ∈ zip processed_docs encoded_y)
        /\ (forall index, len ds <= index -> getitem ds index = None)
  | None => True
  end.
Proof.
  pose proof (train_test_split_sizes processed_docs encoded_y fifth) as Hsizes.
  unfold news_split_cell.
  destruct (train_test_split processed_docs encoded_y fifth)
    as [[[[x_train x_test] y_train] y_test]|] eqn:Hs; [|exact I].
  destruct Hsizes as (Hte & Hsum & _); [cbn; lia.. |].
  apply train_test_split_partition in Hs as (Hperm & L1 & L2 & Hpos).
  assert (Hpos' : 0 < length x_test).
  { rewrite Hte. apply ceil_mul_pos; cbn; lia. }
  assert (Hds : forall (x : list A) (y : list B),
            length x = length y -> 0 < length x ->
            (forall p, p ∈ zip x y -> p ∈ zip processed_docs encoded_y) ->
            0 < len (mk_Dataset x y)
            /\ (forall index, index < len (mk_Dataset x y) ->
                  exists X y0, getitem (mk_Dataset x y) index = Some (X, y0)
                               /\ (X, y0) ∈ zip processed_docs encoded_y)
            /\ (forall index, len (mk_Dataset x y) <= index ->
                  getitem (mk_Dataset x y) index = None)).
  { intros x y L Hp Hin. unfold len, getitem. cbn [data labels].
    split; [exact Hp |]. split.
    - intros index Hi.
      destruct (lookup_lt_is_Some_2 x index Hi) as [X HX].
      destruct (lookup_lt_is_Some_2 y index) as [y0 Hy]; [lia |].
      exists X, y0. rewrite HX, Hy. split; [reflexivity |].
      apply Hin, elem_of_lookup_zip_with. by exists index, X, y0.
    - intros index Hi. by rewrite (lookup_ge_None_2 x index Hi). }
  intros ds [->|[->|Hnil]%elem_of_cons]%elem_of_cons; [| |by apply elem_of_nil in Hnil].
  - apply Hds; [done.. |]. intros p Hp. rewrite <- Hperm. apply elem_of_app. by left.
  - apply Hds; [done.. |]. intros p Hp. rewrite <- Hperm. apply elem_of_app. by right.
Qed.

End split_rows.

(** ** The network's shapes, and the wait for the tuning job *)

Section net_shapes.
Import TorchNotebook.
Context {F : Type}.
Variable initial_weight : nat -> nat -> np.ndarray F.

Lemma pooled_length (l : nat) :
  5 <= l -> (128 * ((l - 5) / 5 + 1) =? 896) = (35 <=? l) && (l <=? 39).
Proof.
  intros Hl.
  pose proof (Nat.div_mod_eq (l - 5) 5) as Hdiv.
  pose proof (Nat.mod_upper_bound (l - 5) 5) as Hmod.
  destruct (Nat.eqb_spec (128 * ((l - 5) / 5 + 1)) 896) as [E|E];
    destruct (Nat.leb_spec 35 l); destruct (Nat.leb_spec l 39); cbn [andb]; lia.
Qed.

(** X9.  The network is built for headlines of 40 tokens.  With the
    embedding weight replaced by a matrix of at least one word and one
    dimension, [forward] takes a batch of at least one row of token indices
    exactly when the rows have 37 to 41 tokens and every index is a row of
    the matrix, and then returns one row of [num_classes] values per
    headline.  For any other length a layer raises, the hard-coded 896 input
    features of [fc1] being 128 channels times the 7 positions that pooling
    leaves of 40 tokens; for an index from [vocab_size] on the embedding
    raises. *)
Theorem forward_takes_headlines_of_forty_tokens (embedding_matrix : np.ndarray F)
    (vocab_size emb_dim num_classes : nat) (model : torch.Net F) :
  np.shape embedding_matrix = [vocab_size; emb_dim] ->
  0 < vocab_size ->
  0 < emb_dim ->
  Headline.train_setup initial_weight embedding_matrix num_classes = Some model ->
  forall (x : np.ndarray nat) (batch tokens : nat),
    np.shape x = [batch; tokens] ->
    0 < batch ->
    forward_shape model x
    = if (37 <=? tokens) && (tokens <=? 41)
         && forallb (fun index => index <? vocab_size) (np.data x)
      then Some [batch; num_classes]
      else None.
Proof.
  intros Hshape _ _ Hsetup x batch tokens Hx _.
  unfold Headline.train_setup, Headline.shape_at in Hsetup. rewrite Hshape in Hsetup.
  cbn in Hsetup. injection Hsetup as <-.
  unfold forward_shape, embedding_shape.
  cbn [torch.embedding torch.weight torch.conv1_in_channels torch.fc2_out_features].
  rewrite Hshape, Hx.
  destruct (forallb (fun index => index <? vocab_size) (np.data x));
    [|by rewrite andb_false_r].
  rewrite andb_true_r.
  cbn [app mbind option_bind transpose_1_2 conv1d_shape].
  rewrite Nat.eqb_refl. cbn [andb].
  destruct (Nat.leb_spec 3 tokens) as [H3|H3]; cbn [mbind option_bind].
  - unfold max_pool1d_shape.
    destruct (Nat.leb_spec 5 (tokens - 3 + 1)) as [H5|H5]; cbn [mbind option_bind].
    + unfold flatten_shape, linear_shape. cbn [mbind option_bind np.size_of fold_right].
      rewrite Nat.mul_1_r, pooled_length by exact H5.
      destruct (Nat.leb_spec 35 (tokens - 3 + 1)); destruct (Nat.leb_spec (tokens - 3 + 1) 39);
        destruct (Nat.leb_spec 37 tokens); destruct (Nat.leb_spec tokens 41);
        cbn [andb mbind option_bind]; try lia; reflexivity.
    + destruct (Nat.leb_spec 37 tokens); [lia | reflexivity].
  - destruct (Nat.leb_spec 37 tokens); [lia | reflexivity].
Qed.

End net_shapes.

(** The 3 × 2 matrix: a batch of 40-token headlines passes; 36 tokens do not,
    and neither does an index that is no row of the matrix. *)
Lemma forward_on_the_small_matrix :
  exists model,
    Headline.train_setup (fun n d => np.mk_ndarray [n; d] (repeat 0%Z (n * d)))
      Toy.small_matrix 4 = Some model
    /\ TorchNotebook.forward_shape model (np.mk_ndarray [2; 40] (repeat 1 80))
       = Some [2; 4]
    /\ TorchNotebook.forward_shape model (np.mk_ndarray [2; 36] (repeat 1 72)) = None
    /\ TorchNotebook.forward_shape model (np.mk_ndarray [2; 40] (repeat 1 79 ++ [3]))
       = None.
Proof.
  eexists. split; [reflexivity |].
  split; [|split].
  - exact (forward_takes_headlines_of_forty_tokens _ Toy.small_matrix 3 2 4 _
             eq_refl (Nat.lt_0_succ _) (Nat.lt_0_succ _) eq_refl
             (np.mk_ndarray [2; 40] (repeat 1 80)) 2 40 eq_refl (Nat.lt_0_succ _)).
  - exact (forward_takes_headlines_of_forty_tokens _ Toy.small_matrix 3 2 4 _
             eq_refl (Nat.lt_0_succ _) (Nat.lt_0_succ _) eq_refl
             (np.mk_ndarray [2; 36] (repeat 1 72)) 2 36 eq_refl (Nat.lt_0_succ _)).
  - exact (forward_takes_headlines_of_forty_tokens _ Toy.small_matrix 3 2 4 _
             eq_refl (Nat.lt_0_succ _) (Nat.lt_0_succ _) eq_refl
             (np.mk_ndarray [2; 40] (repeat 1 79 ++ [3])) 2 40 eq_refl (Nat.lt_0_succ _)).
Defined.

Section hpo.
Import Py Hpo.

Lemma poll_in_progress (k : nat) (rest : list (result string)) (printed : list string)
    (sleeps : nat) :
  poll (replicate k (Ok "InProgress") ++ rest) (Some "InProgress") printed sleeps
  = poll rest (Some "InProgress") (printed ++ replicate k "-") (sleeps + k).
Proof.
  revert printed sleeps. induction k as [|k IH]; intros printed sleeps.
  - cbn [replicate app]. by rewrite app_nil_r, Nat.add_0_r.
  - cbn [replicate app]. cbn [poll String.eqb Ascii.eqb Bool.eqb].
    rewrite IH. cbn [replicate]. rewrite <- app_assoc. cbn [app].
    f_equal. lia.
Qed.

(** X10.  The wait for the tuning job.  When the service answers
    [InProgress] [k] times and then another status, the loop makes exactly
    those [k + 1] calls, sleeps [k] times, never before the first call, prints
    one dash per sleep and then the final status, and ends in that status;
    later answers are not asked for.  An exception of a call ends the loop
    with that exception.  While every answer is [InProgress] the loop goes
    on. *)
Theorem polling_stops_at_the_first_final_status (k : nat) (later : list (result string)) :
  (forall status,
     status <> "InProgress" ->
     wait_for_hpo (replicate k (Ok "InProgress") ++ Ok status :: later)
     = Some (Ok status,
             replicate k "-" ++ [(argparse.newline ++ "HPO state: " ++ status)%string],
             k))
  /\ (forall e,
        wait_for_hpo (replicate k (Ok "InProgress") ++ Raise e :: later)
        = Some (Raise e, replicate k "-", k))
  /\ wait_for_hpo (replicate k (Ok "InProgress")) = None.
Proof.
  unfold wait_for_hpo. destruct k as [|k].
  - cbn [replicate app]. split; [|split; [|reflexivity]].
    + intros status Hs. cbn [poll]. apply String.eqb_neq in Hs.
      destruct later; cbn [poll]; by rewrite Hs.
    + intros e. reflexivity.
  - cbn [replicate app]. cbn [poll].
    assert (Hdash : (([] : list string) ++ replicate k "-") ++ ["-"] = "-" :: replicate k "-").
    { cbn [app]. symmetry. apply replicate_cons_app. }
    split; [|split].
    + intros status Hs. rewrite poll_in_progress. apply String.eqb_neq in Hs.
      cbn [poll String.eqb Ascii.eqb Bool.eqb].
      destruct later; cbn [poll]; rewrite Hs, Hdash; reflexivity.
    + intros e. rewrite poll_in_progress.
      cbn [poll String.eqb Ascii.eqb Bool.eqb]. by rewrite Hdash.
    + rewrite <- (app_nil_r (replicate k _)), poll_in_progress. reflexivity.
Qed.

End hpo.

(** ** The script's arguments *)

Section parser_more.
Import Py argparse TrainingScript ParsedArgs.
Variable py_int : string -> option Z.

Lemma lookup_option_in (p : parser) (s : string) (a : action) :
  lookup_option p s = Some a -> (s, a) ∈ p.
Proof.
  induction p as [|[os b] p IH]; [discriminate |]. cbn [lookup_option].
  destruct (String.eqb_spec os s) as [->|_].
  - intros [= ->]. by left.
  - intros H. right. by apply IH.
Qed.

Lemma get_option_tuples_in (p : parser) (arg : string) (act : action) (os : string)
    (e : option string) :
  (Some act, os, e) ∈ get_option_tuples p arg -> (os, act) ∈ p.
Proof.
  unfold get_option_tuples.
  destruct (startswith arg "--"); [destruct (split_once "=" arg) as [[l r]|] |];
    intros ([os' a'] & Hin & Heq)%list_elem_of_omap;
    repeat match type of Heq with
           | (if ?b then _ else _) = _ => destruct b
           end;
    by simplify_eq.
Qed.

Lemma parse_optional_in (p : parser) (arg : string) (act : action) (os : string)
    (e : option string) :
  parse_optional p arg = Ok (Some (Some act, os, e)) -> (os, act) ∈ p.
Proof.
  unfold parse_optional. destruct arg as [|c t]; [discriminate |].
  destruct (negb (Ascii.eqb c "-")); [discriminate |].
  destruct (lookup_option p (String c t)) as [a|] eqn:Ha.
  { intros [= -> <- <-]. by apply lookup_option_in. }
  destruct (String.length (String c t) =? 1); [discriminate |].
  destruct (split_once "=" (String c t)) as [[l r]|].
  - destruct (lookup_option p l) as [a|] eqn:Hl.
    { intros [= -> <- <-]. by apply lookup_option_in. }
    destruct (get_option_tuples p (String c t)) as [|t1 [|t2 ts]] eqn:Hg.
    + repeat match goal with |- context [if ?b then _ else _] => destruct b end;
        discriminate.
    + intros [= ->]. apply (get_option_tuples_in p (String c t) _ _ e).
      rewrite Hg. by left.
    + discriminate.
  - destruct (get_option_tuples p (String c t)) as [|t1 [|t2 ts]] eqn:Hg.
    + repeat match goal with |- context [if ?b then _ else _] => destruct b end;
        discriminate.
    + intros [= ->]. apply (get_option_tuples_in p (String c t) _ _ e).
      rewrite Hg. by left.
    + discriminate.
Qed.

Lemma classify_from_parser (p : parser) (argv : list string) (toks : list token) :
  classify p argv = Ok toks -> Forall (from_parser p) toks.
Proof.
  revert toks. induction argv as [|a argv IH]; intros toks.
  - intros [= <-]. constructor.
  - cbn [classify]. destruct (String.eqb a "--").
    + intros [= <-]. constructor; [exact I |].
      apply Forall_forall. intros tok Htok%list_elem_of_In%in_map_iff.
      by destruct Htok as (s & <- & _).
    + destruct (parse_optional p a) as [o|] eqn:Ho; [|discriminate]. cbn [Py.bind].
      destruct (classify p argv) as [toks'|]; [|discriminate]. cbn [Py.bind].
      intros [= <-]. constructor; [|by apply IH].
      destruct o as [[[[act|] os] e]|]; try exact I.
      by apply parse_optional_in in Ho.
Qed.

Ltac token_cases toks :=
  destruct toks as [|[s| |[[[[|dest ty d]|] os] [e|]] raw] toks].

(** What holds of the namespace before parsing and is kept by every store of
    a registered action, of a converted value or of the empty list, holds of
    the namespace after parsing. *)
Lemma consume_keeps (p : parser) (P : namespace -> Prop) :
  (forall os dest ty d v ns,
     (os, Store dest ty d) ∈ p ->
     v = VEmptyList \/ (exists s, get_value py_int ty s = Ok v) ->
     P ns ->
     P (<[dest := v]> ns)) ->
  forall toks ns ex ns' ex',
    Forall (from_parser p) toks -> P ns ->
    consume py_int p toks ns ex = Ok (ns', ex') -> P ns'.
Proof.
  intros Hstore toks.
  induction toks as [toks IH] using (induction_ltof1 _ (@length token)).
  unfold ltof in IH. intros ns ex ns' ex' Hall HP.
  token_cases toks; cbn [consume].
  - by intros [= <- _].
  - apply IH; [cbn; lia | by inversion Hall | done].
  - apply IH; [cbn; lia | by inversion Hall | done].
  - destruct (startswith os "--"); [discriminate |].
    destruct (String.eqb e ""); [discriminate |].
    by destruct (flag_cluster _ _ _).
  - discriminate.
  - inversion Hall as [|? ? Htok Hrest]; subst.
    destruct (String.eqb e "--").
    + apply IH; [cbn; lia | done |]. eapply Hstore; [exact Htok | by left | done].
    + destruct (get_value py_int ty e) as [v|] eqn:Hv; [|discriminate]. cbn [Py.bind].
      apply IH; [cbn; lia | done |]. eapply Hstore; [exact Htok | right; by eexists | done].
  - destruct toks as [|[s| |t raw'] toks']; try discriminate.
    destruct (get_value py_int ty s) as [v|] eqn:Hv; [|discriminate]. cbn [Py.bind].
    inversion Hall as [|? ? Htok Hrest]; subst.
    apply IH; [cbn; lia | by inversion Hrest |].
    eapply Hstore; [exact Htok | right; by eexists | done].
  - apply IH; [cbn; lia | by inversion Hall | done].
  - apply IH; [cbn; lia | by inversion Hall | done].
Qed.

(** A run of the second pass that ended does not depend on what follows it. *)
Lemma consume_app (p : parser) (more : list token) :
  forall toks ns ex ns' ex',
    consume py_int p toks ns ex = Ok (ns', ex') ->
    consume py_int p (toks ++ more) ns ex = consume py_int p more ns' ex'.
Proof.
  intros toks.
  induction toks as [toks IH] using (induction_ltof1 _ (@length token)).
  unfold ltof in IH. intros ns ex ns' ex'.
  token_cases toks; cbn [consume app].
  - by intros [= <- <-].
  - apply IH. cbn; lia.
  - apply IH. cbn; lia.
  - destruct (startswith os "--"); [discriminate |].
    destruct (String.eqb e ""); [discriminate |].
    by destruct (flag_cluster _ _ _).
  - discriminate.
  - destruct (String.eqb e "--"); [apply IH; cbn; lia |].
    destruct (get_value py_int ty e) as [v|]; [|discriminate]. cbn [Py.bind].
    apply IH. cbn; lia.
  - destruct toks as [|[s| |t raw'] toks']; try discriminate. cbn [app].
    destruct (get_value py_int ty s) as [v|]; [|discriminate]. cbn [Py.bind].
    apply IH. cbn; lia.
  - apply IH. cbn; lia.
  - apply IH. cbn; lia.
Qed.

Lemma classify_app_dashdash (p : parser) (argv rest : list string) (toks : list token) :
  classify p argv = Ok toks ->
  exists sep,
    (sep = Tdashdash \/ sep = Tpos "--")
    /\ classify p (argv ++ "--" :: rest) = Ok (toks ++ sep :: List.map Tpos rest).
Proof.
  revert toks. induction argv as [|a argv IH]; intros toks.
  - intros [= <-]. exists Tdashdash. split; [by left | reflexivity].
  - cbn [classify app]. destruct (String.eqb a "--").
    + intros [= <-]. exists (Tpos "--"). split; [by right |].
      by rewrite map_app.
    + destruct (parse_optional p a) as [o|]; [|discriminate]. cbn [Py.bind].
      destruct (classify p argv) as [toks'|]; [|discriminate]. cbn [Py.bind].
      intros [= <-]. destruct (IH _ eq_refl) as (sep & Hsep & ->).
      exists sep. split; [exact Hsep | reflexivity].
Qed.

(** The script's parser, written out. *)
Lemma script_parser_eq (env : gmap string string) :
  script_parser env
  = [("-h", Help); ("--help", Help);
     ("--n_estimators", Store "n_estimators" TInt (VInt 10));
     ("--min_samples_leaf", Store "min_samples_leaf" TInt (VInt 3));
     ("--model_dir", Store "model_dir" TStr (environ_get env "SM_MODEL_DIR"));
     ("--train_dir", Store "train_dir" TStr (environ_get env "SM_CHANNEL_TRAIN"));
     ("--test_dir", Store "test_dir" TStr (environ_get env "SM_CHANNEL_TEST"));
     ("--train_file", Store "train_file" TStr (VStr "boston_train.csv"));
     ("--test_file", Store "test_file" TStr (VStr "boston_test.csv"));
     ("--features", Store "features" TStr VNone);
     ("--target_variable", Store "target_variable" TStr VNone)].
Proof. reflexivity. Qed.

Lemma script_parser_store (env : gmap string string) (os dest : string) (ty : arg_type)
    (d : value) :
  (os, Store dest ty d) ∈ script_parser env ->
  (dest, ty, d) ∈ declared env.
Proof.
  intros H. unfold declared. apply list_elem_of_omap.
  by exists (os, Store dest ty d).
Qed.

Lemma defaults_script_parser (env : gmap string string) (dest : string) (ty : arg_type)
    (d : value) :
  (dest, ty, d) ∈ declared env ->
  defaults (script_parser env) !! dest = Some d.
Proof.
  unfold declared. rewrite script_parser_eq. unfold defaults. cbn [fold_left]. csimpl.
  intros H.
  repeat (apply elem_of_cons in H as [H|H]);
    try (by apply elem_of_nil in H);
    injection H as -> -> ->; by simplify_map_eq.
Qed.

Lemma get_value_has_type (ty : arg_type) (s : string) (v : value) :
  get_value py_int ty s = Ok v -> has_type ty v = true.
Proof.
  destruct ty; cbn [get_value].
  - destruct (py_int s); [|discriminate]. by intros [= <-].
  - by intros [= <-].
Qed.

Lemma declared_types (env : gmap string string) (dest : string) (ty ty' : arg_type)
    (d d' : value) :
  (dest, ty, d) ∈ declared env -> (dest, ty', d') ∈ declared env -> ty = ty'.
Proof.
  unfold declared. rewrite script_parser_eq. csimpl. intros H H'.
  repeat (apply elem_of_cons in H as [H|H]);
    try (by apply elem_of_nil in H);
    injection H as -> -> ->;
    repeat (apply elem_of_cons in H' as [H'|H']);
    try (by apply elem_of_nil in H');
    try discriminate H'; by injection H' as <- _.
Qed.

(** Each declared attribute holds its default, a value of its type, or the
    empty list. *)
Lemma parsed_namespace_typed (env : gmap string string) (argv : list string)
    (args : namespace) (extras : list string) :
  parse_known_args py_int (script_parser env) argv = Ok (args, extras) ->
  forall dest ty d, (dest, ty, d) ∈ declared env ->
    exists v, args !! dest = Some v
              /\ (v = d \/ has_type ty v = true \/ v = VEmptyList).
Proof.
  unfold parse_known_args.
  destruct (classify (script_parser env) argv) as [toks|] eqn:Hc; [|discriminate].
  cbn [Py.bind]. apply classify_from_parser in Hc.
  apply (consume_keeps (script_parser env)
           (fun ns => forall dest ty d, (dest, ty, d) ∈ declared env ->
                        exists v, ns !! dest = Some v
                                  /\ (v = d \/ has_type ty v = true \/ v = VEmptyList)));
    [|exact Hc|].
  - intros os dest0 ty0 d0 v0 ns Hin Hv HP dest ty d Hdecl.
    destruct (decide (dest = dest0)) as [->|Hne].
    + exists v0. split; [apply lookup_insert_eq |]. right.
      destruct Hv as [->|[s Hv]]; [by right | left].
      rewrite (declared_types env dest0 ty ty0 d d0 Hdecl (script_parser_store _ _ _ _ _ Hin)).
      by eapply get_value_has_type.
    + unfold namespace in *. rewrite lookup_insert_ne by done. by apply HP.
  - intros dest ty d Hdecl. exists d. split; [|by left].
    by eapply defaults_script_parser.
Qed.

Lemma store_all_notin (known : list (string * value)) (ns : namespace) (dest : string) :
  dest ∉ known.*1 -> store_all known ns !! dest = ns !! dest.
Proof.
  revert ns. induction known as [|[k x] known IH]; intros ns Hnot; [reflexivity |].
  cbn [store_all fold_left]. fold (store_all known (<[k := x]> ns)).
  rewrite fmap_cons, not_elem_of_cons in Hnot. destruct Hnot as [Hk Hnot].
  rewrite IH by done. unfold namespace in *. by rewrite lookup_insert_ne.
Qed.

Lemma store_all_last (before after : list (string * value)) (ns : namespace)
    (dest : string) (v : value) :
  dest ∉ after.*1 -> store_all (before ++ (dest, v) :: after) ns !! dest = Some v.
Proof.
  intros Hnot. unfold store_all. rewrite fold_left_app. cbn [fold_left].
  match goal with
  | |- fold_left ?f after ?m !! _ = _ =>
      change (fold_left f after m) with (store_all after m)
  end.
  rewrite store_all_notin by done. apply lookup_insert_eq.
Qed.

(** X11.  After every successful [parse_known_args] of the script's parser,
    each attribute the parser declares is set, and holds its declared
    default, a value of its declared type, or the empty list that argparse
    stores for a flag written [--flag=--].  So [args.n_estimators] and
    [args.min_samples_leaf] are each an integer or the empty list,
    [args.train_file] and [args.test_file] each a string or the empty list,
    and no attribute the script reads is missing. *)
Theorem parsed_attributes_are_set_and_typed (env : gmap string string)
    (argv : list string) (args : namespace) (extras : list string) :
  parse_known_args py_int (script_parser env) argv = Ok (args, extras) ->
  (forall option_string dest ty d,
     (option_string, Store dest ty d) ∈ script_parser env ->
     exists v, args !! dest = Some v
               /\ (v = d \/ has_type ty v = true \/ v = VEmptyList))
  /\ ((exists n, attr args "n_estimators" = VInt n)
      \/ attr args "n_estimators" = VEmptyList)
  /\ ((exists n, attr args "min_samples_leaf" = VInt n)
      \/ attr args "min_samples_leaf" = VEmptyList)
  /\ ((exists s, attr args "train_file" = VStr s)
      \/ attr args "train_file" = VEmptyList)
  /\ ((exists s, attr args "test_file" = VStr s)
      \/ attr args "test_file" = VEmptyList).
Proof.
  intros Hparse. pose proof (parsed_namespace_typed _ _ _ _ Hparse) as Htyped.
  assert (Hint : forall dest z,
            (dest, TInt, VInt z) ∈ declared env ->
            (exists n, attr args dest = VInt n) \/ attr args dest = VEmptyList).
  { intros dest z Hd. destruct (Htyped _ _ _ Hd) as (v & Hv & Hor).
    unfold attr. rewrite Hv. cbn [default].
    destruct Hor as [->|[Hty| ->]]; [left; by eexists | | by right].
    destruct v; try discriminate. left. by eexists. }
  assert (Hstr : forall dest s,
            (dest, TStr, VStr s) ∈ declared env ->
            (exists s', attr args dest = VStr s') \/ attr args dest = VEmptyList).
  { intros dest s Hd. destruct (Htyped _ _ _ Hd) as (v & Hv & Hor).
    unfold attr. rewrite Hv. cbn [default].
    destruct Hor as [->|[Hty| ->]]; [left; by eexists | | by right].
    destruct v; try discriminate. left. by eexists. }
  split.
  { intros os dest ty d Hin. by eapply Htyped, script_parser_store. }
  unfold declared in Hint, Hstr. rewrite script_parser_eq in Hint, Hstr. csimpl in *.
  split; [eapply Hint; repeat (first [by left | right]) |].
  split; [eapply Hint; repeat (first [by left | right]) |].
  split; [eapply Hstr; repeat (first [by left | right]) |].
  eapply Hstr; repeat (first [by left | right]).
Qed.

(** X12.  A directory given on the command line overrides the SageMaker
    environment variable.  For an argument vector that partitions into known
    flags and a remainder: an attribute among [model_dir], [train_dir] and
    [test_dir] whose flag is absent holds [os.environ.get] of its variable
    ([None] when the variable is unset); when its flag is given, it holds the
    value of the flag's last occurrence, whatever the environment says. *)
Theorem flags_override_the_environment (env : gmap string string) (argv : list string)
    (known : list (string * value)) (extras : list string) :
  partition py_int (script_parser env) argv known extras ->
  exists args,
    parse_known_args py_int (script_parser env) argv = Ok (args, extras)
    /\ forall dest var,
         (dest, var) ∈ [("model_dir", "SM_MODEL_DIR"); ("train_dir", "SM_CHANNEL_TRAIN");
                        ("test_dir", "SM_CHANNEL_TEST")] ->
         (dest ∉ known.*1 -> attr args dest = environ_get env var)
         /\ (forall before v after,
               known = before ++ (dest, v) :: after -> dest ∉ after.*1 ->
               attr args dest = v).
Proof.
  intros Hpart.
  destruct (partition_consumed py_int _ _ _ _ (script_parser_flags env) Hpart)
    as (toks & Hc & Hrun).
  exists (store_all known (defaults (script_parser env))). split.
  { unfold parse_known_args. rewrite Hc. cbn [Py.bind]. by rewrite Hrun. }
  intros dest var Hin. unfold attr. split.
  - intros Hnot. rewrite store_all_notin by done.
    rewrite (defaults_script_parser env dest TStr (environ_get env var)); [reflexivity |].
    unfold declared. rewrite script_parser_eq. csimpl.
    repeat (apply elem_of_cons in Hin as [Hin|Hin]);
      try (by apply elem_of_nil in Hin);
      injection Hin as -> ->; repeat (first [by left | right]).
  - intros before v after -> Hnot. by rewrite store_all_last.
Qed.

(** X13.  What follows a [--] on the command line never reaches the script's
    arguments.  When [parse_known_args] accepts an argument vector, it accepts
    the vector followed by [--] and any further arguments, with the same
    namespace, and the added arguments join the discarded remainder as they
    are, flags of the script among them. *)
Theorem arguments_after_the_separator_are_discarded (p : parser) (argv rest : list string)
    (args : namespace) (extras : list string) :
  parse_known_args py_int p argv = Ok (args, extras) ->
  parse_known_args py_int p (argv ++ "--" :: rest) = Ok (args, extras ++ "--" :: rest).
Proof.
  unfold parse_known_args.
  destruct (classify p argv) as [toks|] eqn:Hc; [|discriminate]. cbn [Py.bind].
  intros Hrun.
  destruct (classify_app_dashdash p argv rest toks Hc) as (sep & Hsep & ->).
  cbn [Py.bind]. rewrite (consume_app p _ _ _ _ _ _ Hrun).
  destruct Hsep as [-> | ->]; cbn [consume];
    by rewrite consume_positionals, <- app_assoc.
Qed.

End parser_more.

Section parser_samples.
Import Py argparse TrainingScript ParsedArgs Samples.

Lemma override_argv_partition :
  partition Toy.toy_int (script_parser sagemaker_env) override_argv
    [("model_dir", VStr "model/")] ["extra"].
Proof.
  unfold override_argv.
  eapply partition_flag;
    [reflexivity | split; [discriminate | reflexivity] | reflexivity |].
  apply partition_extra; [split; [discriminate | left; reflexivity] |].
  apply partition_nil.
Defined.

Lemma override_argv_parses :
  parse_known_args Toy.toy_int (script_parser sagemaker_env) override_argv
  = Ok (store_all [("model_dir", VStr "model/")] (defaults (script_parser sagemaker_env)),
        ["extra"]).
Proof.
  destruct (partition_consumed Toy.toy_int _ _ _ _ (script_parser_flags _)
              override_argv_partition) as (toks & Hc & Hrun).
  unfold parse_known_args. rewrite Hc. cbn [Py.bind]. by rewrite Hrun.
Defined.

(** The sample command line: every attribute is set and typed. *)
Lemma override_argv_attributes :
  let args := store_all [("model_dir", VStr "model/")]
                (defaults (script_parser sagemaker_env)) in
  (forall option_string dest ty d,
     (option_string, Store dest ty d) ∈ script_parser sagemaker_env ->
     exists v, args !! dest = Some v
               /\ (v = d \/ has_type ty v = true \/ v = VEmptyList))
  /\ ((exists n, attr args "n_estimators" = VInt n)
      \/ attr args "n_estimators" = VEmptyList)
  /\ ((exists n, attr args "min_samples_leaf" = VInt n)
      \/ attr args "min_samples_leaf" = VEmptyList)
  /\ ((exists s, attr args "train_file" = VStr s)
      \/ attr args "train_file" = VEmptyList)
  /\ ((exists s, attr args "test_file" = VStr s)
      \/ attr args "test_file" = VEmptyList).
Proof.
  exact (parsed_attributes_are_set_and_typed Toy.toy_int _ _ _ _ override_argv_parses).
Defined.

(** The sample command line: the flag wins for the model directory, the
    environment serves the training directory, the test directory is None. *)
Lemma override_argv_directories :
  exists args,
    parse_known_args Toy.toy_int (script_parser sagemaker_env) override_argv
    = Ok (args, ["extra"])
    /\ forall dest var,
         (dest, var) ∈ [("model_dir", "SM_MODEL_DIR"); ("train_dir", "SM_CHANNEL_TRAIN");
                        ("test_dir", "SM_CHANNEL_TEST")] ->
         (dest ∉ [("model_dir", VStr "model/")].*1 ->
          attr args dest = environ_get sagemaker_env var)
         /\ (forall before v after,
               [("model_dir", VStr "model/")] = before ++ (dest, v) :: after ->
               dest ∉ after.*1 ->
               attr args dest = v).
Proof.
  exact (flags_override_the_environment Toy.toy_int _ _ _ _ override_argv_partition).
Defined.

(** The sample command line followed by a separator and a flag of the
    script: the flag is discarded. *)
Lemma override_argv_with_separator :
  parse_known_args Toy.toy_int (script_parser sagemaker_env)
    (override_argv ++ "--" :: ["--n_estimators"; "500"])
  = Ok (store_all [("model_dir", VStr "model/")] (defaults (script_parser sagemaker_env)),
        ["extra"] ++ "--" :: ["--n_estimators"; "500"]).
Proof.
  exact (arguments_after_the_separator_are_discarded Toy.toy_int _ _
           ["--n_estimators"; "500"] _ _ override_argv_parses).
Defined.

(** A flag written [--n_estimators=--]: the parse succeeds, and the
    attribute holds the empty list, not an integer. *)
Example dashed_explicit_value_stores_the_empty_list :
  match parse_known_args Toy.toy_int (script_parser ∅) ["--n_estimators=--"] with
  | Ok (args, extras) => Some (attr args "n_estimators", extras)
  | Raise _ => None
  end
  = Some (VEmptyList, []).
Proof. vm_compute. reflexivity. Qed.

End parser_samples.

(** ** The training log and the metric regexes *)

Section torch_log.
Import Py TrainingScript TorchLog.

Lemma search_metric_skip (c0 : ascii) (label pre rest : string) :
  contains c0 pre = false ->
  search_metric (String c0 label) (pre ++ rest) = search_metric (String c0 label) rest.
Proof.
  induction pre as [|a pre IH]; [reflexivity |].
  cbn [contains]. destruct (Ascii.eqb a c0) eqn:Ha; [discriminate |]. intros Hpre.
  change (String a pre ++ rest)%string with (String a (pre ++ rest)%string).
  cbn [search_metric]. unfold match_metric_here at 1. cbn [strip_prefix].
  rewrite Ascii.eqb_sym, Ha. by apply IH.
Qed.

Lemma search_metric_next (label : string) (c : ascii) (t : string) :
  match_metric_here label (String c t) = None ->
  search_metric label (String c t) = search_metric label t.
Proof. intros H. cbn [search_metric]. by rewrite H. Qed.

Lemma search_metric_here (label text number tail : string) :
  span_number text = (number, tail) ->
  number <> "" ->
  search_metric label (label ++ text) = Some number.
Proof.
  intros Hspan Hne.
  assert (H : match_metric_here label (label ++ text) = Some number).
  { unfold match_metric_here. rewrite strip_prefix_app, Hspan.
    by destruct (String.eqb_spec number ""). }
  destruct (label ++ text)%string; cbn [search_metric]; by rewrite H.
Qed.

Lemma span_number_all (t : string) (a : ascii) (t' : string) :
  span_number (String a t') = (String a t', "") ->
  in_number_class a = true /\ span_number t' = (t', "").
Proof.
  cbn [span_number]. destruct (in_number_class a); [|discriminate].
  destruct (span_number t') as [d r]. by intros [= -> ->].
Qed.

Lemma number_text_avoids (c : ascii) (t : string) :
  in_number_class c = false -> span_number t = (t, "") -> contains c t = false.
Proof.
  intros Hc. induction t as [|a t IH]; [reflexivity |].
  intros [Ha Ht]%(span_number_all (String a t)). cbn [contains].
  destruct (Ascii.eqb_spec a c) as [->|_]; [congruence |]. by apply IH.
Qed.

Lemma span_number_stops (t : string) (c : ascii) (rest : string) :
  in_number_class c = false -> span_number t = (t, "") ->
  span_number (t ++ String c rest) = (t, String c rest).
Proof.
  intros Hc. induction t as [|a t IH].
  - intros _. change ("" ++ String c rest)%string with (String c rest).
    cbn [span_number]. by rewrite Hc.
  - intros [Ha Ht]%(span_number_all (String a t)).
    change (String a t ++ String c rest)%string with (String a (t ++ String c rest)%string).
    cbn [span_number]. by rewrite Ha, IH.
Qed.

Lemma span_number_uint (d : Decimal.uint) :
  span_number (NilEmpty.string_of_uint d) = (NilEmpty.string_of_uint d, "").
Proof.
  induction d; cbn [NilEmpty.string_of_uint span_number]; [reflexivity | ..];
    rewrite IHd; reflexivity.
Qed.

Lemma str_nat_fixed_point (n : nat) : fixed_point (str_nat n).
Proof.
  unfold fixed_point, str_nat, NilZero.string_of_uint.
  destruct (Nat.to_uint n) eqn:E; try (split; [discriminate | apply span_number_uint]).
  split; [discriminate | reflexivity].
Qed.

Lemma append_nil_r (s : string) : (s ++ "")%string = s.
Proof.
  induction s as [|a s IH]; [reflexivity |].
  change (String a s ++ "")%string with (String a (s ++ "")%string). by rewrite IH.
Qed.

(** A line made of a text without the label's first character, a number and
    another such text does not match. *)
Lemma search_metric_none (c0 : ascii) (label pre t post : string) :
  in_number_class c0 = false ->
  contains c0 pre = false -> span_number t = (t, "") -> contains c0 post = false ->
  search_metric (String c0 label) (pre ++ t ++ post) = None.
Proof.
  intros Hc Hpre Ht Hpost.
  rewrite search_metric_skip by done.
  rewrite search_metric_skip by (by apply number_text_avoids).
  rewrite <- (append_nil_r post), search_metric_skip by done. reflexivity.
Qed.

Lemma train_line_metrics (epoch : nat) (train_loss : string) :
  fixed_point train_loss ->
  search_metric "epoch: " (train_line epoch train_loss) = Some (str_nat epoch)
  /\ search_metric "train_loss: " (train_line epoch train_loss) = Some train_loss
  /\ search_metric "val_loss: " (train_line epoch train_loss) = None
  /\ search_metric "val_acc: " (train_line epoch train_loss) = None.
Proof.
  intros [Hne Hnum]. destruct (str_nat_fixed_point epoch) as [Hne' Hnum'].
  unfold train_line. split; [|split; [|split]].
  - eapply search_metric_here; [|exact Hne'].
    change (", train_loss: " ++ train_loss)%string
      with (String "," (" train_loss: " ++ train_loss)).
    by apply span_number_stops.
  - rewrite search_metric_skip by reflexivity.
    rewrite search_metric_skip by (by apply number_text_avoids).
    change (", train_loss: " ++ train_loss)%string
      with (", " ++ ("train_loss: " ++ train_loss))%string.
    rewrite search_metric_skip by reflexivity.
    by eapply search_metric_here.
  - rewrite search_metric_skip by reflexivity.
    rewrite search_metric_skip by (by apply number_text_avoids).
    rewrite search_metric_skip by reflexivity.
    rewrite <- (append_nil_r train_loss), search_metric_skip
      by (by apply number_text_avoids).
    reflexivity.
  - rewrite search_metric_skip by reflexivity.
    rewrite search_metric_skip by (by apply number_text_avoids).
    rewrite search_metric_skip by reflexivity.
    rewrite <- (append_nil_r train_loss), search_metric_skip
      by (by apply number_text_avoids).
    reflexivity.
Qed.

Lemma test_line_metrics (val_loss val_acc : string) :
  fixed_point val_loss -> fixed_point val_acc ->
  search_metric "epoch: " (test_line val_loss val_acc) = None
  /\ search_metric "train_loss: " (test_line val_loss val_acc) = None
  /\ search_metric "val_loss: " (test_line val_loss val_acc) = Some val_loss
  /\ search_metric "val_acc: " (test_line val_loss val_acc) = Some val_acc.
Proof.
  intros [Hne Hnum] [Hne' Hnum']. unfold test_line. split; [|split; [|split]].
  - rewrite search_metric_skip by reflexivity.
    rewrite search_metric_skip by (by apply number_text_avoids).
    rewrite search_metric_skip by reflexivity.
    rewrite <- (append_nil_r val_acc), search_metric_skip
      by (by apply number_text_avoids).
    reflexivity.
  - rewrite search_metric_skip by reflexivity.
    rewrite search_metric_skip by (by apply number_text_avoids).
    rewrite search_metric_skip by reflexivity.
    rewrite <- (append_nil_r val_acc), search_metric_skip
      by (by apply number_text_avoids).
    reflexivity.
  - eapply search_metric_here; [|exact Hne].
    change (", val_acc: " ++ val_acc)%string with (String "," (" val_acc: " ++ val_acc)).
    by apply span_number_stops.
  - change ("val_loss: " ++ val_loss ++ ", val_acc: " ++ val_acc)%string
      with (String "v" ("al_loss: " ++ val_loss ++ ", val_acc: " ++ val_acc)).
    rewrite search_metric_next by reflexivity.
    rewrite search_metric_skip by reflexivity.
    rewrite search_metric_skip by (by apply number_text_avoids).
    change (", val_acc: " ++ val_acc)%string with (", " ++ ("val_acc: " ++ val_acc))%string.
    rewrite search_metric_skip by reflexivity.
    by eapply search_metric_here.
Qed.

Lemma metric_values_three (label a b c : string) (ra rb rc : option string) :
  search_metric label a = ra -> search_metric label b = rb -> search_metric label c = rc ->
  metric_values label [a; b; c] = option_list ra ++ option_list rb ++ option_list rc.
Proof.
  intros <- <- <-. unfold metric_values.
  cbn [omap list_omap].
  by destruct (search_metric label a), (search_metric label b), (search_metric label c).
Qed.

Lemma metric_values_flat_map {A} (label : string) (f : A -> list string)
    (g : A -> string) (l : list A) :
  (forall a, metric_values label (f a) = [g a]) ->
  metric_values label (flat_map f l) = g <$> l.
Proof.
  intros Hf. induction l as [|a l IH]; [reflexivity |].
  cbn [flat_map]. unfold metric_values in *. rewrite omap_app, Hf, IH. reflexivity.
Qed.

(** X14.  The log that [train] prints and the metrics the training job
    declares agree.  Over a run of [epochs] epochs whose losses and accuracies
    print in fixed-point notation, each of the four metric regexes finds
    exactly one value per epoch and no other: [Epoch] reads the epoch numbers
    1 to [epochs], [Train:Loss] the training losses, [Validation:Loss] and
    [Validation:Accuracy] the two numbers of the validation line, each in the
    order of the epochs; no regex picks up the number of another metric. *)
Theorem each_metric_reads_one_value_per_epoch (epochs : nat)
    (train_loss val_loss val_acc : nat -> string) :
  (forall epoch, fixed_point (train_loss epoch)) ->
  (forall epoch, fixed_point (val_loss epoch)) ->
  (forall epoch, fixed_point (val_acc epoch)) ->
  let log := train_log epochs train_loss val_loss val_acc in
  length log = 3 * epochs
  /\ metric_values "epoch: " log = str_nat <$> seq 1 epochs
  /\ metric_values "train_loss: " log = train_loss <$> seq 1 epochs
  /\ metric_values "val_loss: " log = val_loss <$> seq 1 epochs
  /\ metric_values "val_acc: " log = val_acc <$> seq 1 epochs.
Proof.
  intros Htrain Hloss Hacc log. unfold log, train_log. split.
  { assert (H : forall start,
              length (flat_map (fun epoch =>
                        [train_line epoch (train_loss epoch); "Evaluating model";
                         test_line (val_loss epoch) (val_acc epoch)]) (seq start epochs))
              = 3 * epochs).
    { clear log. induction epochs as [|n IH]; intros start; [reflexivity |].
      cbn [seq flat_map app length]. rewrite IH. lia. }
    apply H. }
  repeat split; apply metric_values_flat_map; intros epoch;
    destruct (train_line_metrics epoch (train_loss epoch) (Htrain epoch))
      as (T1 & T2 & T3 & T4);
    destruct (test_line_metrics (val_loss epoch) (val_acc epoch) (Hloss epoch) (Hacc epoch))
      as (V1 & V2 & V3 & V4);
    (erewrite metric_values_three; [|eassumption | reflexivity | eassumption]);
    reflexivity.
Qed.

End torch_log.

(** ** The validation line and the metric regexes *)

Section keras_log.
Import Py TrainingScript TorchLog KerasLog.

Lemma contains_app (c : ascii) (x y : string) :
  contains c (x ++ y) = contains c x || contains c y.
Proof.
  induction x as [|a x IH]; [reflexivity |].
  change (String a x ++ y)%string with (String a (x ++ y)%string). cbn [contains].
  by destruct (Ascii.eqb a c).
Qed.

Lemma last_match_avoids (c0 : ascii) (label s : string) :
  contains c0 s = false -> last_match (String c0 label) s = None.
Proof.
  induction s as [|a s IH]; [reflexivity |]. cbn [contains].
  destruct (Ascii.eqb a c0) eqn:Ha; [discriminate |]. intros Hs.
  cbn [last_match]. rewrite IH by done.
  unfold match_metric_here. cbn [strip_prefix]. by rewrite Ascii.eqb_sym, Ha.
Qed.

Lemma last_match_app (label pre s number : string) :
  last_match label s = Some number -> last_match label (pre ++ s) = Some number.
Proof.
  intros Hs. induction pre as [|a pre IH]; [exact Hs |].
  change (String a pre ++ s)%string with (String a (pre ++ s)%string).
  cbn [last_match]. by rewrite IH.
Qed.

(** The label, a number, and nothing after it that starts like the label. *)
Lemma last_match_here (c0 : ascii) (label text number tail : string) :
  contains c0 (label ++ text) = false ->
  span_number text = (number, tail) ->
  number <> "" ->
  last_match (String c0 label) (String c0 label ++ text) = Some number.
Proof.
  intros Havoid Hspan Hne.
  change (String c0 label ++ text)%string with (String c0 (label ++ text)%string).
  cbn [last_match]. rewrite last_match_avoids by done.
  change (String c0 (label ++ text)%string) with (String c0 label ++ text)%string.
  unfold match_metric_here. rewrite strip_prefix_app, Hspan.
  by destruct (String.eqb_spec number "").
Qed.

Lemma search_metric_next_app (label : string) (c : ascii) (pre rest : string) :
  match_metric_here label (String c pre ++ rest) = None ->
  search_metric label (String c pre ++ rest) = search_metric label (pre ++ rest).
Proof. apply search_metric_next. Qed.

Lemma search_metric_number_end (c0 : ascii) (label t : string) :
  in_number_class c0 = false -> span_number t = (t, "") ->
  search_metric (String c0 label) t = None.
Proof.
  intros Hc Ht. rewrite <- (append_nil_r t), search_metric_skip; [reflexivity |].
  by apply number_text_avoids.
Qed.

(** X15.  The validation line of the evaluation cell and the validation
    metrics of the training job agree.  For a model whose metric names are
    [loss] and [acc] and whose scores print in fixed-point notation, the
    regex [Validation.*loss=([0-9\.]+)] captures the loss and
    [Validation.*acc=([0-9\.]+)] the accuracy, each whole and neither the
    other's number; the two progress regexes, [loss: ...] and [acc: ...], do
    not match the line. *)
Theorem validation_metrics_read_their_own_score (loss acc : string) :
  fixed_point loss -> fixed_point acc ->
  let line := validation_line [("loss", loss); ("acc", acc)] in
  search_validation "loss=" line = Some loss
  /\ search_validation "acc=" line = Some acc
  /\ search_metric "loss: " line = None
  /\ search_metric "acc: " line = None.
Proof.
  intros [Hne Hnum] [Hne' Hnum'] line.
  assert (Hl : contains "l" acc = false) by (by apply number_text_avoids).
  assert (Hl' : contains "l" loss = false) by (by apply number_text_avoids).
  assert (Ha : contains "a" acc = false) by (by apply number_text_avoids).
  assert (Ha' : contains "a" loss = false) by (by apply number_text_avoids).
  change line with ("Validation results: loss=" ++ loss ++ "; acc=" ++ acc)%string.
  unfold search_validation.
  change (after_first "Validation" ("Validation results: loss=" ++ loss ++ "; acc=" ++ acc))
    with (Some (" results: " ++ "loss=" ++ loss ++ "; acc=" ++ acc)%string).
  cbn [mbind option_bind].
  split; [|split; [|split]].
  - apply (last_match_app "loss=" " results: ").
    eapply (last_match_here "l" "oss="); [| |exact Hne].
    + rewrite !contains_app, Hl, Hl'. reflexivity.
    + change ("; acc=" ++ acc)%string with (String ";" (" acc=" ++ acc)).
      by apply span_number_stops.
  - change (" results: " ++ "loss=" ++ loss ++ "; acc=" ++ acc)%string
      with (" results: loss=" ++ loss ++ "; " ++ "acc=" ++ acc)%string.
    apply (last_match_app "acc=" " results: loss="), (last_match_app "acc=" loss),
      (last_match_app "acc=" "; ").
    eapply (last_match_here "a" "cc="); [|exact Hnum'|exact Hne'].
    rewrite contains_app, Ha. reflexivity.
  - repeat (rewrite search_metric_next_app by reflexivity).
    change ("" ++ loss ++ "; acc=" ++ acc)%string with (loss ++ "; acc=" ++ acc)%string.
    rewrite search_metric_skip by done.
    repeat (rewrite search_metric_next_app by reflexivity).
    change ("" ++ acc)%string with acc.
    by apply search_metric_number_end.
  - repeat (rewrite search_metric_next_app by reflexivity).
    change ("" ++ loss ++ "; acc=" ++ acc)%string with (loss ++ "; acc=" ++ acc)%string.
    rewrite search_metric_skip by done.
    repeat (rewrite search_metric_next_app by reflexivity).
    change ("" ++ acc)%string with acc.
    by apply search_metric_number_end.
Qed.

End keras_log.

(** A loss of 0.12345 and an accuracy of 0.98765. *)
Lemma validation_metrics_of_a_sample_line :
  let line := KerasLog.validation_line [("loss", "0.12345"); ("acc", "0.98765")] in
  KerasLog.search_validation "loss=" line = Some "0.12345"
  /\ KerasLog.search_validation "acc=" line = Some "0.98765"
  /\ TorchLog.search_metric "loss: " line = None
  /\ TorchLog.search_metric "acc: " line = None.
Proof.
  apply (validation_metrics_read_their_own_score "0.12345" "0.98765");
    (split; [discriminate | reflexivity]).
Defined.

(** ** The extra properties on small inputs *)

(** Two epochs whose values print as [0.693147], [0.6931] and [0.2500]. *)
Lemma two_epochs_of_metrics :
  let log := TorchLog.train_log 2 (fun _ => "0.693147") (fun _ => "0.6931")
               (fun _ => "0.2500") in
  length log = 3 * 2
  /\ TorchLog.metric_values "epoch: " log = Py.str_nat <$> seq 1 2
  /\ TorchLog.metric_values "train_loss: " log = (fun _ => "0.693147") <$> seq 1 2
  /\ TorchLog.metric_values "val_loss: " log = (fun _ => "0.6931") <$> seq 1 2
  /\ TorchLog.metric_values "val_acc: " log = (fun _ => "0.2500") <$> seq 1 2.
Proof.
  apply (each_metric_reads_one_value_per_epoch 2
           (fun _ => "0.693147") (fun _ => "0.6931") (fun _ => "0.2500"));
    intros _; (split; [discriminate | reflexivity]).
Defined.

(** A loss that is not a number leaves no point of its metric. *)
Example nan_loss_is_no_metric_point :
  TorchLog.search_metric "val_loss: " (TorchLog.test_line "nan" "0.2500") = None
  /\ TorchLog.search_metric "val_acc: " (TorchLog.test_line "nan" "0.2500") = Some "0.2500".
Proof. split; reflexivity. Qed.

(** Without the testing folder of label 1 the loading cell raises. *)
Example missing_test_folder_stops_loading :
  MnistData.load_cell Samples.mnist_disk_without_test_folder
    "/tmp/mnist/training" "/tmp/mnist/testing" Toy.identity_rng Toy.identity_rng
  = None.
Proof. vm_compute. reflexivity. Qed.

(** Five headlines: four go to the train part, one to the test part. *)
Example five_headlines_split :
  Split.news_split_cell (rng := Toy.identity_rng) Samples.headlines Samples.categories
  = Some ([[7; 0; 0]; [5; 5; 2]; [1; 0; 0]; [8; 3; 0]]%Z, [[4; 9; 0]]%Z,
          [[0; 1]; [0; 1]; [1; 0]; [0; 1]]%Z, [[1; 0]]%Z).
Proof. reflexivity. Qed.

(** Two polls in progress, then the job has completed; a third answer is not
    asked for. *)
Example polling_a_completed_job :
  Hpo.wait_for_hpo
    [Py.Ok "InProgress"; Py.Ok "InProgress"; Py.Ok "Completed"; Py.Ok "Stopped"]
  = Some (Py.Ok "Completed",
          ["-"; "-"; (argparse.newline ++ "HPO state: Completed")%string], 2).
Proof. reflexivity. Qed.
